(** * Placeholder resolution and content assembly of generate_from_template.py

    A shallow embedding of [DataSourceManager] (dotted-path lookup and
    placeholder substitution) and of [TemplateDocumentGenerator] (the
    template walk that assembles the document), with the properties the
    specification states about them.

    Python values that flow through the generator are the values
    [json.load] produces.  A Python [str] is kept as the byte string of its
    UTF-8 encoding: the characters the code inspects (['.'], ['{'], ['}'],
    the ASCII classes of the placeholder pattern, digits, signs) are all
    below 128 and a byte of a longer sequence is never below 128, so
    splitting and matching agree with the code point view. *)

From Stdlib Require Import String Ascii List ZArith Bool Lia DecimalString.
Import ListNotations.

Local Open Scope list_scope.
Local Open Scope string_scope.

Set Warnings "-register-all".

(** ** Exceptions and results *)

Inductive exn : Type :=
| ValueError
| IndexError
| KeyError
| TypeError
| AttributeError.

Inductive result (A : Type) : Type :=
| Ok (a : A)
| Raise (e : exn).

Arguments Ok {A} a.
Arguments Raise {A} e.

Definition bind {A B : Type} (m : result A) (k : A -> result B) : result B :=
  match m with
  | Ok a => k a
  | Raise e => Raise e
  end.

Definition ret {A : Type} (a : A) : result A := Ok a.

Notation "x <- m ;; k" := (bind m (fun x => k))
  (at level 61, m at next level, right associativity).


(** ** JSON values *)

(** A Python [float] is kept through the two observations the generator
    makes of one: its truth value and its [str()] form. *)
Record pyfloat : Type := mkfloat {
  float_truth : bool;
  float_str : string
}.

Inductive json : Type :=
| JNull
| JBool (b : bool)
| JInt (z : Z)
| JFloat (f : pyfloat)
| JStr (s : string)
| JList (l : list json)
| JDict (d : list (string * json)).

(** A [dict] is an association list in insertion order; a key is looked up
    from the front. *)
Definition dict : Type := list (string * json).

Fixpoint dict_find (k : string) (d : dict) : option json :=
  match d with
  | [] => None
  | (k', v) :: d' => if String.eqb k' k then Some v else dict_find k d'
  end.

Definition dict_mem (k : string) (d : dict) : bool :=
  match dict_find k d with
  | Some _ => true
  | None => false
  end.

Definition dict_keys (d : dict) : list string := map fst d.

Definition empty_str : string := EmptyString.

Definition is_none (v : json) : bool :=
  match v with
  | JNull => true
  | _ => false
  end.

(** [bool(v)]. *)
Definition truthy (v : json) : bool :=
  match v with
  | JNull => false
  | JBool b => b
  | JInt z => negb (Z.eqb z 0)
  | JFloat f => float_truth f
  | JStr s => negb (String.eqb s empty_str)
  | JList l => match l with [] => false | _ => true end
  | JDict d => match d with [] => false | _ => true end
  end.

(** [v == s] for a string literal [s]. *)
Definition eq_str (v : json) (s : string) : bool :=
  match v with
  | JStr s' => String.eqb s' s
  | _ => false
  end.

(** [d[k]]. *)
Definition getitem_dict (d : dict) (k : string) : result json :=
  match dict_find k d with
  | Some v => Ok v
  | None => Raise KeyError
  end.

(** [l[i]], with Python's negative indices. *)
Definition getitem_list (l : list json) (i : Z) : result json :=
  let n := Z.of_nat (length l) in
  let j := if (i <? 0)%Z then (i + n)%Z else i in
  if ((j <? 0) || (n <=? j))%Z then Raise IndexError
  else match nth_error l (Z.to_nat j) with
       | Some v => Ok v
       | None => Raise IndexError
       end.

(** [v.get(k, default)]: only a [dict] has the method. *)
Definition py_get (v : json) (k : string) (default : json) : result json :=
  match v with
  | JDict d =>
      match dict_find k d with
      | Some x => Ok x
      | None => Ok default
      end
  | _ => Raise AttributeError
  end.

(** ** Strings *)

Definition ascii_in (lo hi : nat) (c : ascii) : bool :=
  (lo <=? nat_of_ascii c)%nat && (nat_of_ascii c <=? hi)%nat.

Definition is_char (x : ascii) (c : ascii) : bool := Ascii.eqb c x.

Definition dot : ascii := "."%char.
Definition tab : ascii := ascii_of_nat 9.

(** [s.split(c)] for a one-character separator. *)
Fixpoint split_on (c : ascii) (s : string) : list string :=
  match s with
  | EmptyString => [EmptyString]
  | String a s' =>
      if Ascii.eqb a c then EmptyString :: split_on c s'
      else match split_on c s' with
           | [] => [String a EmptyString]
           | seg :: segs => String a seg :: segs
           end
  end.

(** White space that [int()] strips, below 128: tab, line feed, vertical
    tab, form feed, carriage return, the four separators 28..31, space.
    ([int()] also strips white space above 127 and reads decimal digits of
    other scripts; such segments are read here as not numeric.) *)
Definition is_space (c : ascii) : bool :=
  ascii_in 9 13 c || ascii_in 28 32 c.

Fixpoint lstrip (s : string) : string :=
  match s with
  | EmptyString => EmptyString
  | String c s' => if is_space c then lstrip s' else s
  end.

Fixpoint rstrip (s : string) : string :=
  match s with
  | EmptyString => EmptyString
  | String c s' =>
      match rstrip s' with
      | EmptyString => if is_space c then EmptyString else String c EmptyString
      | r => String c r
      end
  end.

Definition strip (s : string) : string := rstrip (lstrip s).

Definition digit_of (c : ascii) : option Z :=
  if ascii_in 48 57 c then Some (Z.of_nat (nat_of_ascii c) - 48)%Z else None.

(** Digits with single underscores between them. *)
Fixpoint int_body (acc : Z) (after_underscore : bool) (s : string) : option Z :=
  match s with
  | EmptyString => if after_underscore then None else Some acc
  | String c s' =>
      match digit_of c with
      | Some d => int_body (10 * acc + d)%Z false s'
      | None =>
          if is_char "_"%char c && negb after_underscore
          then int_body acc true s'
          else None
      end
  end.

Definition int_unsigned (s : string) : option Z :=
  match s with
  | EmptyString => None
  | String c _ =>
      match digit_of c with
      | Some _ => int_body 0%Z false s
      | None => None
      end
  end.

Definition int_signed (s : string) : option Z :=
  match s with
  | String "-"%char s' => option_map Z.opp (int_unsigned s')
  | String "+"%char s' => int_unsigned s'
  | _ => int_unsigned s
  end.

(** [int(s)] for a string [s].  The interpreter's limit on the number of
    digits is left out. *)
Definition py_int (s : string) : result Z :=
  match int_signed (strip s) with
  | Some z => Ok z
  | None => Raise ValueError
  end.

(** *** [str()] and [repr()] *)

Definition squote : ascii := "'"%char.
Definition dquote : ascii := ascii_of_nat 34.
Definition backslash : ascii := ascii_of_nat 92.

Fixpoint contains_char (c : ascii) (s : string) : bool :=
  match s with
  | EmptyString => false
  | String a s' => Ascii.eqb a c || contains_char c s'
  end.

Definition hex_digit (n : nat) : ascii :=
  if (n <? 10)%nat then ascii_of_nat (48 + n) else ascii_of_nat (87 + n).

Definition str1 (c : ascii) : string := String c EmptyString.

(** One character of [repr(s)] inside the quote [q].  Bytes above 127
    belong to characters taken as printable and are kept. *)
Definition repr_char (q : ascii) (c : ascii) : string :=
  if Ascii.eqb c q || Ascii.eqb c backslash then String backslash (str1 c)
  else if Ascii.eqb c tab then String backslash "t"
  else if Ascii.eqb c (ascii_of_nat 10) then String backslash "n"
  else if Ascii.eqb c (ascii_of_nat 13) then String backslash "r"
  else if ascii_in 0 31 c || ascii_in 127 127 c then
    String backslash
      (String "x" (String (hex_digit (nat_of_ascii c / 16))
                          (str1 (hex_digit (nat_of_ascii c mod 16)))))
  else str1 c.

Fixpoint repr_chars (q : ascii) (s : string) : string :=
  match s with
  | EmptyString => EmptyString
  | String c s' => repr_char q c ++ repr_chars q s'
  end.

(** [repr(s)] of a string: double quotes only when [s] has a single quote
    and no double quote. *)
Definition repr_str (s : string) : string :=
  let q := if contains_char squote s && negb (contains_char dquote s)
           then dquote else squote in
  String q (repr_chars q s ++ str1 q).

Definition str_of_Z (z : Z) : string := NilZero.string_of_int (Z.to_int z).

Definition join_comma (l : list string) : string := String.concat ", " l.

Fixpoint py_repr (v : json) : string :=
  match v with
  | JNull => "None"
  | JBool true => "True"
  | JBool false => "False"
  | JInt z => str_of_Z z
  | JFloat f => float_str f
  | JStr s => repr_str s
  | JList l => "[" ++ join_comma (map py_repr l) ++ "]"
  | JDict d =>
      "{" ++ join_comma
               (map (fun kv => match kv with
                               | (k, x) => repr_str k ++ ": " ++ py_repr x
                               end) d) ++ "}"
  end.

(** [str(v)], also what an f-string field [{v}] expands to. *)
Definition py_str (v : json) : string :=
  match v with
  | JStr s => s
  | _ => py_repr v
  end.

(** ** The placeholder pattern *)

(** The pattern [\{([a-z_]+\.[a-zA-Z0-9_.]+)\}] uses two constructs: a
    literal character and a greedy [+] over a character class. *)
Inductive atom : Type :=
| Lit (c : ascii)
| Plus (cls : ascii -> bool).

Definition lower_us (c : ascii) : bool :=
  ascii_in 97 122 c || is_char "_"%char c.

Definition word_dot (c : ascii) : bool :=
  ascii_in 97 122 c || ascii_in 65 90 c || ascii_in 48 57 c
  || is_char "_"%char c || is_char dot c.

Definition pattern : list atom :=
  [Lit "{"%char; Plus lower_us; Lit dot; Plus word_dot; Lit "}"%char].

(** Greedy [cls+] followed by the continuation [k]: the longest run is
    tried first and shorter ones on failure.  The result is the matched
    text and what follows it. *)
Fixpoint match_plus (cls : ascii -> bool)
    (k : string -> option (string * string)) (s : string)
  : option (string * string) :=
  match s with
  | EmptyString => None
  | String a s' =>
      if cls a then
        match match_plus cls k s' with
        | Some (m, r) => Some (String a m, r)
        | None =>
            match k s' with
            | Some (m, r) => Some (String a m, r)
            | None => None
            end
        end
      else None
  end.

Fixpoint match_atoms (p : list atom) (s : string) : option (string * string) :=
  match p with
  | [] => Some (EmptyString, s)
  | Lit c :: p' =>
      match s with
      | EmptyString => None
      | String a s' =>
          if Ascii.eqb a c then
            match match_atoms p' s' with
            | Some (m, r) => Some (String a m, r)
            | None => None
            end
          else None
      end
  | Plus cls :: p' => match_plus cls (match_atoms p') s
  end.

(** A match of the pattern at the start of [s]: [group(0)] and the rest. *)
Definition match_here (s : string) : option (string * string) :=
  match_atoms pattern s.

Fixpoint drop_last (s : string) : string :=
  match s with
  | EmptyString => EmptyString
  | String _ EmptyString => EmptyString
  | String c s' => String c (drop_last s')
  end.

(** [group(1)]: the parentheses span all of the match between the braces. *)
Definition group1 (m : string) : string :=
  match m with
  | EmptyString => EmptyString
  | String _ m' => drop_last m'
  end.

(** [re.sub(pattern, repl, s)]: scan from the left; a match is replaced and
    scanning resumes after it, any other character is copied.  A match is
    never empty, so [fuel] equal to the length of [s] is enough. *)
Fixpoint re_sub_fuel (fuel : nat) (repl : string -> result string) (s : string)
  : result string :=
  match fuel with
  | O => Ok EmptyString
  | S fuel' =>
      match s with
      | EmptyString => Ok EmptyString
      | String a s' =>
          match match_here s with
          | Some (m, rest) =>
              r <- repl m ;;
              out <- re_sub_fuel fuel' repl rest ;;
              ret (r ++ out)
          | None =>
              out <- re_sub_fuel fuel' repl s' ;;
              ret (String a out)
          end
      end
  end.

Definition re_sub (repl : string -> result string) (s : string) : result string :=
  re_sub_fuel (String.length s) repl s.

(** ** DataSourceManager *)

Module DataSourceManager.

(** The traversal loop of [get] over [parts[1:]], with the final test
    for [None]. *)
Fixpoint get_loop (default value : json) (parts : list string) : result json :=
  match parts with
  | [] => Ok (if is_none value then default else value)
  | part :: rest =>
      match value with
      | JDict d =>
          if dict_mem part d then
            v <- getitem_dict d part ;; get_loop default v rest
          else Ok default
      | JList l =>
          match (i <- py_int part ;; getitem_list l i) with
          | Ok v => get_loop default v rest
          | Raise ValueError => Ok default
          | Raise IndexError => Ok default
          | Raise e => Raise e
          end
      | _ => Ok default
      end
  end.

(** [get(path, default)] over [self.sources]. *)
Definition get (sources : dict) (path : string) (default : json) : result json :=
  let parts := split_on dot path in
  if (length parts <? 2)%nat then Ok default
  else
    match parts with
    | [] => Raise IndexError
    | source_name :: rest =>
        if negb (dict_mem source_name sources) then Ok default
        else
          value <- getitem_dict sources source_name ;;
          get_loop default value rest
    end.

(** The inner function [replace_match] on [match.group(0)]. *)
Definition replace_match (sources : dict) (m : string) : result string :=
  let path := group1 m in
  value <- get sources path (JStr empty_str) ;;
  ret (if truthy value then py_str value else m).

(** [resolve_placeholders(text)]. *)
Definition resolve_placeholders (sources : dict) (text : json) : result json :=
  match text with
  | JStr s => out <- re_sub (replace_match sources) s ;; ret (JStr out)
  | _ => Ok text
  end.

End DataSourceManager.

(** ** Iteration and membership *)

(** Bytes 128..191 continue a UTF-8 sequence. *)
Definition is_continuation (c : ascii) : bool := ascii_in 128 191 c.

Definition starts_with_continuation (s : string) : bool :=
  match s with
  | EmptyString => false
  | String c _ => is_continuation c
  end.

(** The characters of a string, one string each. *)
Fixpoint chars (s : string) : list string :=
  match s with
  | EmptyString => []
  | String c s' =>
      if starts_with_continuation s' then
        match chars s' with
        | chunk :: chunks => String c chunk :: chunks
        | [] => [str1 c]
        end
      else str1 c :: chars s'
  end.

(** What [for x in v] runs over. *)
Definition py_iter (v : json) : result (list json) :=
  match v with
  | JList l => Ok l
  | JStr s => Ok (map JStr (chars s))
  | JDict d => Ok (map JStr (dict_keys d))
  | _ => Raise TypeError
  end.

(** [key in d] for a [dict] with string keys: a list or a dict cannot be
    hashed. *)
Definition py_in_dict (key : json) (d : dict) : result bool :=
  match key with
  | JStr k => Ok (dict_mem k d)
  | JList _ => Raise TypeError
  | JDict _ => Raise TypeError
  | _ => Ok false
  end.

(** [d[key]]. *)
Definition py_getitem_dict (d : dict) (key : json) : result json :=
  match key with
  | JStr k => getitem_dict d k
  | JList _ => Raise TypeError
  | JDict _ => Raise TypeError
  | _ => Raise KeyError
  end.

(** ** The document under construction *)

(** The generator only appends to the document.  A node records one append
    request with the text handed over and the formatting applied by the
    helper that issued it. *)
Inductive style : Type :=
| Plain        (* doc.add_paragraph(text) *)
| PlainBold    (* doc.add_paragraph(text), then _apply_style bold *)
| PlainRight   (* doc.add_paragraph(text), right aligned *)
| Body         (* _add_paragraph *)
| BoldRun      (* a bold Poppins run in a fresh paragraph *)
| Heading1     (* _add_heading1 *)
| Heading2     (* _add_heading2 *)
| Bullet       (* _add_bullet *)
| Nested.      (* a run in a paragraph indented by 0.75 inch *)

Inductive node : Type :=
| Blank
| Para (st : style) (text : json)
| PageBreak
| SectionBreak
| Table (header_vertical : bool) (columns : list string) (rows : list (list string)).

(** A generation step: it raises, or it returns a value and the nodes it
    appended. *)
Definition gen (A : Type) : Type := result (A * list node).

Definition gret {A : Type} (a : A) : gen A := Ok (a, []).

Definition gbind {A B : Type} (m : gen A) (k : A -> gen B) : gen B :=
  match m with
  | Ok (a, out) =>
      match k a with
      | Ok (b, out') => Ok (b, (out ++ out')%list)
      | Raise e => Raise e
      end
  | Raise e => Raise e
  end.

Notation "x <~ m ;; k" := (gbind m (fun x => k))
  (at level 61, m at next level, right associativity).
Notation "m ;> k" := (gbind m (fun _ => k))
  (at level 61, right associativity).

Definition lift {A : Type} (r : result A) : gen A :=
  match r with
  | Ok a => Ok (a, [])
  | Raise e => Raise e
  end.

Definition emit (n : node) : gen unit := Ok (tt, [n]).

Definition skip : gen unit := gret tt.

(** [for x in l: body]. *)
Fixpoint for_each {A : Type} (l : list A) (body : A -> gen unit) : gen unit :=
  match l with
  | [] => skip
  | x :: l' => body x ;> for_each l' body
  end.

Definition completes {A : Type} (m : gen A) : Prop := exists a out, m = Ok (a, out).

Definition empty : json := JStr EmptyString.
Definition empty_dict : json := JDict [].
Definition empty_list : json := JList [].

(** ** TemplateDocumentGenerator *)

Module TemplateDocumentGenerator.

Import DataSourceManager.

Section Generator.

(** [self.template] and [self.data.sources]. *)
Variable template : json.
Variable sources : dict.

(** [self.data.get(path)] with the default empty string; a path that
    is not a string has no [split]. *)
Definition data_get (path : json) : gen json :=
  match path with
  | JStr p => lift (get sources p empty)
  | _ => Raise AttributeError
  end.

(** [self.data.sources.get(name, {})]. *)
Definition source (name : string) : gen json :=
  lift (py_get (JDict sources) name empty_dict).

(** [v.get(k, default)]. *)
Definition dget (v : json) (k : string) (default : json) : gen json :=
  lift (py_get v k default).

(** *** Helper methods *)

Definition add_paragraph0 : gen unit := emit Blank.

Definition _add_paragraph (text : json) : gen unit := emit (Para Body text).

Definition _add_heading1 (text : json) : gen unit := emit (Para Heading1 text).

Definition _add_heading2 (text : json) : gen unit := emit (Para Heading2 text).

Definition _add_bullet (text : json) : gen unit :=
  emit (Para Bullet (JStr ("•" ++ str1 tab ++ py_str text))).

Definition add_page_break : gen unit := emit PageBreak.

(** The text of a data cell: [str(v)] when [v] is truthy, else the empty
    string. *)
Definition cell_text (v : json) : string :=
  if truthy v then py_str v else EmptyString.

Definition _create_table (columns : list string) (rows : list (list json))
    (header_vertical : bool) : gen unit :=
  emit (Table header_vertical columns (map (map cell_text) rows)).

(** *** Table methods *)

Definition _add_pension_arrangements_table : gen unit :=
  let columns := ["Provider Type of Plan / Plan Number"; "Current Value"; "Transfer Value"; "Ongoing Contribution"; "Proposed Action"] in
  c <~ source "cfr" ;;
  cfr <~ dget c "pension_arrangements" empty_dict ;;
  u <~ source "user_input" ;;
  user_input <~ dget u "part1_objectives" empty_dict ;;
  i <~ source "illustration" ;;
  illustration <~ dget i "aviva_plan" empty_dict ;;
  sjp <~ dget cfr "sjp_retirement_account" empty_dict ;;
  sjp1 <~ dget sjp "provider_plan" empty ;;
  sjp2 <~ dget sjp "current_value" empty ;;
  sjp3 <~ dget sjp "transfer_value" empty ;;
  sjp4 <~ dget sjp "ongoing_contribution" empty ;;
  sjp5 <~ dget sjp "proposed_action" empty ;;
  sw <~ dget cfr "scottish_widows" empty_dict ;;
  sw1 <~ dget sw "provider_plan" empty ;;
  sw2 <~ dget sw "current_value" empty ;;
  sw3 <~ dget sw "transfer_value" empty ;;
  sw4 <~ dget sw "ongoing_contribution" empty ;;
  sw5 <~ dget user_input "scottish_widows_proposed_action" (JStr "Transfer") ;;
  aviva <~ dget cfr "aviva" empty_dict ;;
  av1 <~ dget aviva "provider_plan" empty ;;
  av2 <~ dget illustration "current_value" empty ;;
  av3 <~ dget illustration "transfer_value" empty ;;
  av4 <~ dget illustration "ongoing_contribution" empty ;;
  av5 <~ dget user_input "aviva_proposed_action" (JStr "None") ;;
  _create_table columns
    [[sjp1; sjp2; sjp3; sjp4; sjp5];
     [sw1; sw2; sw3; sw4; sw5];
     [av1; av2; av3; av4; av5]] false.

Definition _add_recommendation_table : gen unit :=
  let columns := ["Source"; "Transfer/Redirection"; "Lump Sum Amount"; "Regular Contribution"; "Indexation"] in
  c <~ source "cfr" ;;
  cfr <~ dget c "part2_recommendation" empty_dict ;;
  u <~ source "user_input" ;;
  user_input <~ dget u "part2_recommendation" empty_dict ;;
  r1 <~ dget cfr "source_plan" empty ;;
  r3 <~ dget cfr "lump_sum_amount" empty ;;
  r4 <~ dget user_input "regular_contribution" (JStr "None") ;;
  _create_table columns [[r1; JStr "Transfer"; r3; r4; JStr "None"]] false.

Definition _add_employer_scheme_table : gen unit :=
  let columns := ["Contribution Type"; "Source"; "Can the employer accept this type of contribution?"; "Type of Employer Scheme"] in
  u <~ source "user_input" ;;
  employer <~ dget u "employer_scheme" empty_dict ;;
  r1 <~ dget employer "contribution_type" empty ;;
  r2 <~ dget employer "source" empty ;;
  r3 <~ dget employer "can_accept" empty ;;
  r4 <~ dget employer "scheme_type" empty ;;
  _create_table columns [[r1; r2; r3; r4]] false.

Definition _add_transfer_impact_table : gen unit :=
  let columns := ["Provider Plan"; "Transfer Value"; "Charge on Transfer"; "Protected Tax-Free Cash"; "Guarantees"; "Terminal Bonus"] in
  c <~ source "cfr" ;;
  cfr <~ dget c "part3_impact" empty_dict ;;
  ce <~ source "ceding_info" ;;
  ceding <~ dget ce "part3_transfer_details" empty_dict ;;
  r1 <~ dget cfr "provider_plan" empty ;;
  r2 <~ dget cfr "transfer_value" empty ;;
  r3 <~ dget ceding "charge_on_transfer" empty ;;
  r4 <~ dget ceding "protected_tfc" empty ;;
  r5 <~ dget ceding "guarantees" empty ;;
  r6 <~ dget ceding "terminal_bonus" empty ;;
  _create_table columns [[r1; r2; r3; r4; r5; r6]] false.

Definition _add_outperformance_table : gen unit :=
  let columns := ["Provider Plan"; "Action"; "Level of Outperformance Required"; "Monetary Equivalent in First Year"] in
  c <~ source "cfr" ;;
  cfr <~ dget c "part3_impact" empty_dict ;;
  cy <~ source "cyc" ;;
  cy1 <~ dget cy "outperformance_table" empty_dict ;;
  cyc <~ dget cy1 "scottish_widows" empty_dict ;;
  r1 <~ dget cfr "provider_plan" empty ;;
  r3 <~ dget cyc "level_of_outperformance" empty ;;
  r4 <~ dget cyc "monetary_equivalent" empty ;;
  _create_table columns [[r1; JStr "Transfer"; r3; r4]] false.

(** One pass of the loop over [funds]: the row of a fund. *)
Definition fund_row (fund : json) : gen (list json) :=
  r1 <~ dget fund "category" empty ;;
  r2 <~ dget fund "fund_selection" empty ;;
  r3 <~ dget fund "fund_type" empty ;;
  r4 <~ dget fund "risk_profile" empty ;;
  r5 <~ dget fund "percentage" empty ;;
  gret [r1; r2; r3; r4; r5].

Fixpoint fund_rows (funds : list json) : gen (list (list json)) :=
  match funds with
  | [] => gret []
  | fund :: funds' =>
      row <~ fund_row fund ;;
      rows <~ fund_rows funds' ;;
      gret (row :: rows)
  end.

Definition _add_fund_selection_table : gen unit :=
  let columns := ["Category"; "Fund Selection"; "Fund Type"; "Risk Profile"; "Percentage of investment"] in
  u <~ source "user_input" ;;
  fs <~ dget u "fund_selection" empty_dict ;;
  funds <~ dget fs "table" empty_list ;;
  fl <~ lift (py_iter funds) ;;
  rows <~ fund_rows fl ;;
  _create_table columns rows false.

Definition _add_product_comparison_table : gen unit :=
  let columns :=
    ["Provider Plan Name / Number"; "Initial Advice Charge"; "Ongoing Advice Charge"; "Ongoing Product Charge"; "Ongoing Fund Charge"; "Annual Management Charge"; "Early Withdrawal Charges"; "Allocation Rate";
     "Total External Management Charge"; "Plan Charge"; "Number of Funds"; "Maximum Number of Funds"; "Any Guarantees Applicable"] in
  cy <~ source "cyc" ;;
  cy1 <~ dget cy "product_comparison" empty_dict ;;
  cyc <~ dget cy1 "sjp_retirement_account" empty_dict ;;
  u <~ source "user_input" ;;
  user_input <~ dget u "product_comparison" empty_dict ;;
  ce <~ source "ceding_info" ;;
  ceding <~ dget ce "product_comparison_scottish_widows" empty_dict ;;
  a2 <~ dget cyc "initial_advice_charge" empty ;;
  a3 <~ dget cyc "ongoing_advice_charge" empty ;;
  a4 <~ dget cyc "ongoing_product_charge" empty ;;
  a5 <~ dget cyc "ongoing_fund_charge" empty ;;
  a8 <~ dget user_input "allocation_rate" empty ;;
  b1 <~ data_get (JStr "cfr.pension_arrangements.scottish_widows.provider_plan") ;;
  b2 <~ dget ceding "initial_advice_charge" empty ;;
  b3 <~ dget ceding "ongoing_advice_charge" empty ;;
  b4 <~ dget ceding "ongoing_product_charge" empty ;;
  b5 <~ dget ceding "ongoing_fund_charge" empty ;;
  b6 <~ dget ceding "annual_management_charge" empty ;;
  b7 <~ dget ceding "early_withdrawal_charges" empty ;;
  b8 <~ dget ceding "allocation_rate" empty ;;
  b9 <~ dget ceding "total_external_charge" empty ;;
  b10 <~ dget ceding "plan_charge" empty ;;
  b11 <~ dget ceding "number_of_funds" empty ;;
  b12 <~ dget ceding "max_funds" empty ;;
  b13 <~ dget ceding "guarantees" empty ;;
  _create_table columns
    [[JStr "St. James's Place Retirement Account"; a2; a3; a4; a5; JStr "None"; JStr "None"; a8; JStr "-";
      JStr "None"; JStr "43"; JStr "Unlimited"; JStr "None"];
     [b1; b2; b3; b4; b5; b6; b7; b8; b9; b10; b11; b12; b13]] true.

(** *** The content-item dispatcher *)

(** One pass of the loop over [keys] on the mapping [data]:
    [if key in data: self._add_bullet(doc, data[key])]. *)
Definition keyed_bullet (data : dict) (key : json) : gen unit :=
  present <~ lift (py_in_dict key data) ;;
  if (present : bool) then
    v <~ lift (py_getitem_dict data key) ;;
    _add_bullet v
  else skip.

Definition _process_content_item (item : json) : gen unit :=
  item_type <~ dget item "type" (JStr "paragraph") ;;
  if eq_str item_type "paragraph" then
    text <~ dget item "text" empty ;;
    resolved <~ lift (resolve_placeholders sources text) ;;
    add_paragraph0 ;>
    _add_paragraph resolved
  else if eq_str item_type "heading2" then
    text <~ dget item "text" empty ;;
    resolved <~ lift (resolve_placeholders sources text) ;;
    add_paragraph0 ;>
    _add_heading2 resolved
  else if eq_str item_type "bullet_list" then
    src <~ dget item "source" empty ;;
    add_paragraph0 ;>
    if truthy src then
      data <~ data_get src ;;
      match data with
      | JList l => for_each l _add_bullet
      | JDict d =>
          keys <~ dget item "keys" (JList (map JStr (dict_keys d))) ;;
          ks <~ lift (py_iter keys) ;;
          for_each ks (keyed_bullet d)
      | _ => skip
      end
    else skip
  else if eq_str item_type "table" then
    table_id <~ dget item "table_id" empty ;;
    add_paragraph0 ;>
    if eq_str table_id "pension_arrangements" then
      _add_pension_arrangements_table
    else if eq_str table_id "recommendation_table" then
      _add_recommendation_table
    else skip
  else skip.

(** [for item in part.get("content", []): self._process_content_item(doc, item)]. *)
Definition process_content (part : json) : gen unit :=
  content <~ dget part "content" empty_list ;;
  items <~ lift (py_iter content) ;;
  for_each items _process_content_item.

(** [for para_text in paragraphs]: resolve, append, blank line. *)
Definition resolved_paragraphs (paragraphs : json) : gen unit :=
  ps <~ lift (py_iter paragraphs) ;;
  for_each ps (fun para_text =>
    resolved <~ lift (resolve_placeholders sources para_text) ;;
    _add_paragraph resolved ;>
    add_paragraph0).

(** [for bullet in bullets: self._add_bullet(doc, bullet)]. *)
Definition bullets_of (bullets : json) : gen unit :=
  bs <~ lift (py_iter bullets) ;;
  for_each bs _add_bullet.

(** *** Generation phases *)

(** One pass of the loop over the address keys:
    [if recipient.get(key): self._add_paragraph(doc, recipient.get(key))]. *)
Definition address_line (recipient : json) (key : string) : gen unit :=
  line <~ dget recipient key JNull ;;
  if truthy line then
    line' <~ dget recipient key JNull ;;
    _add_paragraph line'
  else skip.

Definition _generate_letter : gen unit :=
  letter_template <~ dget template "template" empty_dict ;;
  l1 <~ dget letter_template "letter" empty_dict ;;
  confidential <~ dget l1 "confidential" (JStr "Private and Confidential") ;;
  emit (Para PlainBold confidential) ;>
  c <~ source "cfr" ;;
  recipient <~ dget c "recipient" empty_dict ;;
  title <~ dget recipient "title_and_name" empty ;;
  _add_paragraph title ;>
  for_each
    ["address_line_1"; "address_line_2"; "address_line_3";
     "address_line_4"; "address_line_5"]
    (address_line recipient) ;>
  add_paragraph0 ;>
  date_text <~ data_get (JStr "user_input.letter_details.date") ;;
  emit (Para PlainRight date_text) ;>
  client_name <~ data_get (JStr "user_input.letter_details.client_first_name") ;;
  _add_paragraph (JStr ("Dear " ++ py_str client_name ++ ",")) ;>
  add_paragraph0 ;>
  emit (Para PlainBold (JStr "RE: Retirement Planning")) ;>
  add_paragraph0 ;>
  intro_paragraphs <~ dget letter_template "intro_paragraphs" empty_list ;;
  resolved_paragraphs intro_paragraphs ;>
  parts_intro <~ dget letter_template "parts_intro" empty ;;
  _add_paragraph parts_intro ;>
  parts_bullets <~ dget letter_template "parts_bullets" empty_list ;;
  bullets_of parts_bullets ;>
  add_paragraph0 ;>
  appendix_intro <~ dget letter_template "appendix_intro" empty ;;
  _add_paragraph appendix_intro ;>
  add_paragraph0 ;>
  other_docs <~ dget letter_template "other_documentation" empty_dict ;;
  od_heading <~ dget other_docs "heading" empty ;;
  _add_heading2 od_heading ;>
  od_intro <~ dget other_docs "intro" empty ;;
  _add_paragraph od_intro ;>
  od_bullets <~ dget other_docs "bullets" empty_list ;;
  bullets_of od_bullets ;>
  add_paragraph0 ;>
  od_closing <~ dget other_docs "closing" empty ;;
  _add_paragraph od_closing ;>
  add_paragraph0 ;>
  ongoing <~ dget letter_template "ongoing_advice" empty_dict ;;
  og_heading <~ dget ongoing "heading" empty ;;
  _add_heading2 og_heading ;>
  og_paragraphs <~ dget ongoing "paragraphs" empty_list ;;
  resolved_paragraphs og_paragraphs ;>
  next_steps <~ dget letter_template "next_steps" empty_dict ;;
  ns_heading <~ dget next_steps "heading" empty ;;
  _add_heading2 ns_heading ;>
  ns_paragraphs <~ dget next_steps "paragraphs" empty_list ;;
  resolved_paragraphs ns_paragraphs ;>
  l2 <~ dget letter_template "letter" empty_dict ;;
  valediction <~ dget l2 "valediction" (JStr "Yours sincerely,") ;;
  _add_paragraph valediction ;>
  add_paragraph0 ;>
  add_paragraph0 ;>
  adviser_name <~ data_get (JStr "user_input.closing.adviser_name") ;;
  adviser_title <~ data_get (JStr "user_input.closing.adviser_title") ;;
  emit (Para BoldRun adviser_name) ;>
  _add_paragraph adviser_title ;>
  l3 <~ dget letter_template "letter" empty_dict ;;
  closing_company <~ dget l3 "closing_company" empty ;;
  _add_paragraph closing_company.

(** One pass of the loop over [investments]. *)
Definition investment_line (inv : json) : gen unit :=
  fund_name <~ dget inv "fund_name" empty ;;
  value <~ dget inv "value" empty ;;
  emit (Para Nested
          (JStr ("o   " ++ py_str fund_name ++ "                 " ++ py_str value))).

Definition _generate_scottish_widows_details : gen unit :=
  plan_name <~ data_get (JStr "cfr.pension_arrangements.scottish_widows.provider_plan") ;;
  add_paragraph0 ;>
  _add_heading2 plan_name ;>
  ce <~ source "ceding_info" ;;
  ceding <~ dget ce "scottish_widows_details" empty_dict ;;
  b1 <~ dget ceding "plan_commenced" empty ;;
  _add_bullet b1 ;>
  b2 <~ dget ceding "contribution_status" empty ;;
  _add_bullet b2 ;>
  b3 <~ dget ceding "last_contribution" empty ;;
  _add_bullet b3 ;>
  b4 <~ dget ceding "transfers_in" empty ;;
  _add_bullet b4 ;>
  b5 <~ dget ceding "bulk_transfer" empty ;;
  _add_bullet b5 ;>
  b6 <~ dget ceding "protected_tfc" empty ;;
  _add_bullet b6 ;>
  _add_bullet (JStr "Your plan is invested in as follows:") ;>
  investments <~ dget ceding "investments" empty_list ;;
  invs <~ lift (py_iter investments) ;;
  for_each invs investment_line ;>
  _add_bullet (JStr "The only charges applicable to the plan are:") ;>
  charges <~ dget ceding "charges" empty_dict ;;
  amc <~ dget charges "annual_management_charge" empty ;;
  emit (Para Nested (JStr ("o   Annual management charge                              " ++ py_str amc))) ;>
  fc <~ dget charges "fund_charge" empty ;;
  emit (Para Nested (JStr ("o   Fund charge                                           " ++ py_str fc))) ;>
  additional_info <~ dget ceding "additional_info" empty_list ;;
  bullets_of additional_info.

Definition _generate_lsa_lsdba_section : gen unit :=
  add_paragraph0 ;>
  _add_heading2 (JStr "Lump Sum Allowance (LSA) and Lump Sum and Death Benefit Allowance (LSDBA)") ;>
  add_paragraph0 ;>
  _add_paragraph (JStr "The Lump Sum Allowance (LSA) is the maximum amount of tax-free lump sum which could be paid from your pensions during your lifetime.") ;>
  add_paragraph0 ;>
  _add_paragraph (JStr "The Lump Sum and Death Benefit Allowance (LSDBA) is the maximum tax-free lump sum which can be paid from your pensions during your lifetime (but this is usually first limited by your LSA) and on your death if you die before age 75.") ;>
  add_paragraph0 ;>
  _add_paragraph (JStr "When drawing pension benefits during your lifetime, the tax-free lump sum available is dependent on the value of your pension, as well as your remaining LSA and LSDBA at that point. Lump sums withdrawn over your remaining allowances will be subject to Income Tax.") ;>
  add_paragraph0 ;>
  _add_paragraph (JStr "Your LSA is £268,275 and your LSDBA is £1.0731 million.") ;>
  add_paragraph0 ;>
  mpaa_statement <~ data_get (JStr "user_input.mpaa_statement") ;;
  emit (Para BoldRun mpaa_statement).

Definition _generate_part1 : gen unit :=
  part1 <~ dget template "part1" empty_dict ;;
  add_page_break ;>
  h1 <~ dget part1 "heading1" (JStr "Part 1 - Your Objectives, Needs and Circumstances") ;;
  _add_heading1 h1 ;>
  add_paragraph0 ;>
  h2 <~ dget part1 "heading2" (JStr "Your Immediate Objectives") ;;
  _add_heading2 h2 ;>
  process_content part1 ;>
  _generate_scottish_widows_details ;>
  _generate_lsa_lsdba_section.

Definition _generate_part2 : gen unit :=
  part2 <~ dget template "part2" empty_dict ;;
  add_page_break ;>
  h1 <~ dget part2 "heading1" (JStr "Part 2 - My Recommendation") ;;
  _add_heading1 h1 ;>
  add_paragraph0 ;>
  h2 <~ dget part2 "heading2" (JStr "Recommended Actions") ;;
  _add_heading2 h2 ;>
  process_content part2 ;>
  add_paragraph0 ;>
  _add_heading2 (JStr "Employer Schemes") ;>
  u <~ source "user_input" ;;
  employer <~ dget u "employer_scheme" empty_dict ;;
  cms <~ dget employer "contribution_matching_status" empty ;;
  _add_paragraph (JStr ("Your employer offers you the benefit of contribution matching for your current scheme. " ++ py_str cms)) ;>
  add_paragraph0 ;>
  _add_employer_scheme_table ;>
  add_paragraph0 ;>
  cy <~ source "cyc" ;;
  cyc <~ dget cy "employer_scheme_comparison" empty_dict ;;
  esc <~ dget cyc "employer_scheme_charge" empty ;;
  sjpc <~ dget cyc "sjp_charge" empty ;;
  opr <~ dget cyc "outperformance_required" empty ;;
  mefy <~ dget cyc "monetary_equivalent_first_year" empty ;;
  _add_paragraph
    (JStr ("Your employer's scheme has charges of " ++ py_str esc ++ " per annum compared to the charges on your St. James's Place Retirement Account of " ++ py_str sjpc ++ " per annum. This means the recommended plan would need to grow by "
           ++ py_str opr ++ " more per annum, or " ++ py_str mefy ++ " more in the first year, than your employer's scheme in order to match the fund you could have had if you had invested via your employer scheme.")) ;>
  add_paragraph0 ;>
  reason <~ dget employer "sjp_vs_employer_reason" empty ;;
  _add_paragraph (JStr ("Taking into account my calculations, I have recommended you contribute to a St. James's Place Retirement Account rather than your employer's scheme because " ++ py_str reason)) ;>
  add_paragraph0 ;>
  _add_heading2 (JStr "Salary Sacrifice") ;>
  salary_sacrifice <~ data_get (JStr "illustration.salary_sacrifice.description") ;;
  _add_paragraph salary_sacrifice ;>
  add_paragraph0 ;>
  _add_heading2 (JStr "Use of the Legacy Preservation Trust") ;>
  _add_paragraph (JStr "I have recommended you set up a Legacy Preservation Trust, a provision which we offer as part of our standard service and at no additional cost to you. It is specifically designed to receive death benefits, including accrued pension funds, from most pension schemes. If used on death, the trust will protect your pension benefits for your beneficiaries and will prevent the value of the pension forming part of their individual estates for Inheritance Tax purposes.") ;>
  add_paragraph0 ;>
  _add_paragraph (JStr "While you accepted my recommendation, you have not yet completed the necessary paperwork as you are still deciding on how to structure the Trust. I left the relevant paperwork with you, and you will look to complete this as soon as possible as you understand until this has been completed, the Trust will not be created.") ;>
  add_paragraph0 ;>
  _add_paragraph (JStr "I have also recommended you complete an Expression of Wish form, which you have agreed to. An Expression of Wish form ensures that your wishes are considered prior to payment of your pension death benefits. Please provide your completed form as soon as you can, and I will update your record.").

Definition _generate_part3 : gen unit :=
  part3 <~ dget template "part3" empty_dict ;;
  add_page_break ;>
  h1 <~ dget part3 "heading1" (JStr "Part 3 - Impact of Replacement") ;;
  _add_heading1 h1 ;>
  add_paragraph0 ;>
  h2 <~ dget part3 "heading2" (JStr "Pension Plans to be transferred") ;;
  _add_heading2 h2 ;>
  _add_transfer_impact_table ;>
  add_paragraph0 ;>
  plan_name <~ data_get (JStr "cfr.pension_arrangements.scottish_widows.provider_plan") ;;
  emit (Para BoldRun plan_name) ;>
  add_paragraph0 ;>
  _add_heading2 (JStr "Changes to Your Tax-Free Cash Entitlement") ;>
  _add_paragraph (JStr "There will be no change to your tax-free cash entitlement from the uncrystallised funds relating to the transfer of your plan from Scottish Widows.") ;>
  add_paragraph0 ;>
  _add_heading2 (JStr "The Impact of Charges on your Benefits") ;>
  _add_paragraph (JStr "Moving funds as recommended into a Retirement Account will usually mean there will be a change in the level of charges which you pay. As part of my recommendation, I have therefore considered the difference in charges between your existing arrangements and the Retirement Account and set out the results in the table below.") ;>
  add_paragraph0 ;>
  spread_period <~ data_get (JStr "cyc.charges_spread_period") ;;
  _add_paragraph (JStr ("Our comparison includes the product charge, fund charge, ongoing advice charge and initial charge (as detailed in appendix). For our calculations, the initial charge has been spread over " ++ py_str spread_period ++ ".")) ;>
  add_paragraph0 ;>
  _add_paragraph (JStr "The outperformance shown below is the additional growth your Retirement Account needs to achieve to match these funds, based on the increase in charges. If this level of outperformance is not achieved, your fund and therefore the benefits it can pay, will be lower than if you had not transferred.") ;>
  add_paragraph0 ;>
  _add_outperformance_table ;>
  add_paragraph0 ;>
  _add_heading2 (JStr "Potential Disadvantages of Replacing Your Existing Plan") ;>
  _add_paragraph (JStr "In addition to the above points the proposed Retirement Account has the following disadvantages:") ;>
  ce <~ source "ceding_info" ;;
  ceding <~ dget ce "disadvantages" empty_dict ;;
  cy <~ source "cyc" ;;
  cyc_disadvantages <~ dget cy "disadvantages" empty_dict ;;
  d1 <~ dget ceding "higher_charges" (JStr "Higher charges") ;;
  _add_bullet d1 ;>
  d2 <~ dget cyc_disadvantages "new_initial_advice_charge" (JStr "A new Initial Advice Charge will be applied") ;;
  _add_bullet d2 ;>
  d3 <~ dget ceding "fewer_funds" (JStr "Fewer funds to invest in") ;;
  _add_bullet d3 ;>
  d4 <~ dget ceding "loss_lifestyling" (JStr "Loss of Lifestyling") ;;
  _add_bullet d4 ;>
  d5 <~ dget ceding "loss_death_cover" (JStr "Loss of accidental death cover") ;;
  _add_bullet d5 ;>
  add_paragraph0 ;>
  _add_heading2 (JStr "Special terms") ;>
  cy' <~ source "cyc" ;;
  special_terms <~ dget cy' "special_terms" empty_dict ;;
  _add_paragraph (JStr "Following the calculation of the impact of the difference in charges between the recommended St. James's Place Retirement Account and your existing arrangements, I have arranged Special Terms to reduce the Initial Advice Charge payable on transfer to the St. James's Place Retirement Account. These are reflected in the reduced charges shown on the Illustration that accompanies this report.") ;>
  add_paragraph0 ;>
  co <~ dget special_terms "combined_outperformance" empty ;;
  me <~ dget special_terms "monetary_equivalent" empty ;;
  _add_paragraph (JStr ("After applying these terms, the combined outperformance is " ++ py_str co ++ " per annum which is equivalent to " ++ py_str me ++ " in the next twelve months.")) ;>
  add_paragraph0 ;>
  _add_paragraph (JStr "You understand past performance is no guide to future performance and there is no guarantee St. James's Place funds will outperform an existing provider. Having discussed this in detail, you felt there was a reasonable opportunity for sufficient growth to be achieved and you are willing to accept the risk it might not be.").

(** [if isinstance(bullets, list): for bullet in bullets: ...]. *)
Definition bullets_if_list (bullets : json) : gen unit :=
  match bullets with
  | JList l => for_each l _add_bullet
  | _ => skip
  end.

Definition _generate_part4 : gen unit :=
  part4 <~ dget template "part4" empty_dict ;;
  add_page_break ;>
  h1 <~ dget part4 "heading1" (JStr "Part 4 - Your Attitude to Risk and fund selection") ;;
  _add_heading1 h1 ;>
  add_paragraph0 ;>
  _add_paragraph (JStr "We had a conversation about investment risk as part of our discussions. Some key factors we discussed were your objectives, your investment experience, the time horizon over which you are investing and your attitude to, and ability to withstand, investment losses.") ;>
  add_paragraph0 ;>
  _add_paragraph (JStr "We also discussed the range of example portfolios and funds offered by St. James's Place, and the importance of holding a diversified range of investments.") ;>
  add_paragraph0 ;>
  _add_heading2 (JStr "Your investment knowledge and experience") ;>
  _add_paragraph (JStr "When considering your level of investment knowledge and experience, a key factor is the extent to which your existing or previous investments have been exposed to market volatility.") ;>
  add_paragraph0 ;>
  investment_intro <~ data_get (JStr "cfr.client_profile.investment_knowledge_intro") ;;
  _add_paragraph investment_intro ;>
  investment_bullets <~ data_get (JStr "cfr.client_profile.investment_knowledge_bullets") ;;
  bullets_if_list investment_bullets ;>
  add_paragraph0 ;>
  _add_heading2 (JStr "Your capacity for loss") ;>
  _add_paragraph (JStr "Capacity for loss relates to your ability to withstand investment losses and cope financially should there be a market downturn either at the point you need to access your investment, or if investment returns are less favourable than expected. Considering your capacity for loss, in conjunction with your investment knowledge and experience, is particularly important when making investment decisions.") ;>
  add_paragraph0 ;>
  capacity_intro <~ data_get (JStr "cfr.client_profile.capacity_for_loss_intro") ;;
  _add_paragraph capacity_intro ;>
  capacity_bullets <~ data_get (JStr "cfr.client_profile.capacity_for_loss_bullets") ;;
  bullets_if_list capacity_bullets ;>
  add_paragraph0 ;>
  emergency_fund <~ data_get (JStr "cfr.client_profile.emergency_fund") ;;
  _add_paragraph (JStr ("An emergency fund of " ++ py_str emergency_fund ++ " is held in accessible cash accounts.")) ;>
  add_paragraph0 ;>
  emergency_reason <~ data_get (JStr "user_input.client_profile.emergency_fund_reason") ;;
  _add_paragraph (JStr ("I believe that your emergency fund is sufficient for your needs because " ++ py_str emergency_reason)) ;>
  add_paragraph0 ;>
  _add_heading2 (JStr "Your Risk Profile") ;>
  risk_profile <~ data_get (JStr "user_input.client_profile.risk_profile") ;;
  _add_paragraph (JStr ("Taking into account all these factors, we agreed you are a " ++ py_str risk_profile ++ " Risk investor on our risk spectrum. Investors in this category are willing to take a balanced approach to investment risk. Such investors would like the value of their money to keep pace with inflation and are prepared to invest over a minimum of five years. However, neither do they want to take too much investment risk. Therefore, any investment in this category will be invested, either with a more balanced weighting between equities, bonds and gilts, or a higher weighting to equities. This is to enable moderate growth over the longer term, compared to investment solely into cash, bonds or gilts. Such investors can accept moderate to significant falls in the value of their investment and also understand it is possible to lose some of their initial money (capital).")) ;>
  add_paragraph0 ;>
  _add_paragraph (JStr "I recommended that you invest in a fund selection as follows:") ;>
  add_paragraph0 ;>
  _add_paragraph (JStr "Contribution: Transfer") ;>
  _add_fund_selection_table ;>
  add_paragraph0 ;>
  fund_reason <~ data_get (JStr "user_input.fund_selection.recommendation_reason") ;;
  _add_paragraph fund_reason ;>
  equity_content <~ data_get (JStr "illustration.fund_selection.overall_equity_content") ;;
  _add_paragraph equity_content ;>
  add_paragraph0 ;>
  additional_notes <~ data_get (JStr "user_input.fund_selection.additional_fund_notes") ;;
  _add_paragraph additional_notes.

Definition _generate_appendix_i : gen unit :=
  add_page_break ;>
  _add_heading1 (JStr "Appendix i - Further details to the background of the recommendation made") ;>
  add_paragraph0 ;>
  _add_paragraph (JStr "This Appendix summarises further factual information which I learnt during our discussions and acts as a useful aid to explaining the reasons for my recommendations.") ;>
  add_paragraph0 ;>
  _add_heading2 (JStr "Liabilities") ;>
  debts <~ data_get (JStr "user_input.client_profile.debts") ;;
  _add_paragraph (JStr ("There were " ++ py_str debts ++ " to consider as part of my recommendation")) ;>
  add_paragraph0 ;>
  _add_heading2 (JStr "Alternatives Available – Existing Provider(s)") ;>
  _add_paragraph (JStr "The plan being transferred could have been left as they are now, and an attempt made to resolve any concerns directly with the existing providers. This would avoid any increase in charges on transfer.") ;>
  add_paragraph0 ;>
  alternative_reason <~ data_get (JStr "user_input.client_profile.alternative_not_recommended_reason") ;;
  _add_paragraph (JStr ("Having considered this option and the reasons for wanting to transfer, this was not recommended because " ++ py_str alternative_reason)) ;>
  add_paragraph0 ;>
  _add_heading2 (JStr "Alternatives Available – Stakeholder Scheme") ;>
  _add_paragraph (JStr "The rules for a Stakeholder plan do not allow advice charges to be paid via the plan meaning these charges have to be paid separately from your taxed income. As a result of this, the overall cost difference is typically not material, depending on your fund selection. A recommendation for a St. James's Place Retirement Account allows access to the St. James's Place Approach to Investment Management at essentially no additional cost. A contribution into a Stakeholder plan has therefore not been considered.") ;>
  add_paragraph0 ;>
  _add_heading2 (JStr "Death Benefits") ;>
  _add_paragraph (JStr "On your death, your beneficiaries can take benefits from your pension fund as either; an income, a lump sum paid to them or paid to a trust, or a combination of these.") ;>
  add_paragraph0 ;>
  _add_paragraph (JStr "If you die before age 75, your pension death benefits can usually be paid tax free, as long as benefits are taken within two years of the scheme being notified of your death, and any relevant lump sum payments are within your remaining Lump Sum and Death Benefit Allowance (LSDBA). Relevant lump sum payments over your LSDBA that are paid to a beneficiary will be subject to Income Tax payable at their highest marginal rate, and if paid to a discretionary trust, tax will be payable at 45%.") ;>
  add_paragraph0 ;>
  _add_paragraph (JStr "If you die after you reach age 75, any benefits paid to your beneficiaries will be subject to Income Tax payable at their highest marginal rate. If benefits are paid to a discretionary trust, they will be subject to a 45% tax charge.") ;>
  add_paragraph0 ;>
  _add_paragraph (JStr "The October 2024 Budget announced that from April 2027, on death, most pension funds will form part of the estate for Inheritance Tax purposes, regardless of whether the benefit is paid to an individual or trust. Legislation is currently being drafted, so it is subject to change. As part of our ongoing reviews, we will consider the impact on your estate and any appropriate action required.") ;>
  add_paragraph0 ;>
  _add_heading2 (JStr "Further Relevant Client Specific Information") ;>
  annual_income <~ data_get (JStr "cfr.client_profile.annual_income") ;;
  tax_bracket <~ data_get (JStr "cfr.client_profile.tax_bracket") ;;
  _add_paragraph (JStr ("You have an income of " ++ py_str annual_income ++ " per annum which falls into the " ++ py_str tax_bracket ++ " tax bracket.")) ;>
  add_paragraph0 ;>
  has_will <~ data_get (JStr "cfr.client_profile.has_will") ;;
  _add_paragraph (JStr (py_str has_will ++ ", so I recommended you seek legal advice to review your Will arrangements.")) ;>
  add_paragraph0 ;>
  _add_paragraph (JStr "I recommend you seek legal advice to arrange a Power of Attorney to ensure someone you trust can manage your personal or financial affairs if you lose capacity.") ;>
  add_paragraph0 ;>
  _add_heading2 (JStr "Determining Your Attitude to Risk (ATR)") ;>
  _add_paragraph (JStr "We had a conversation about investment risk as part of our discussions. Some key factors we discussed were your objectives, your investment experience, the time horizon over which you are investing and your attitude to, and ability to withstand, investment losses.") ;>
  add_paragraph0 ;>
  investment_aim <~ data_get (JStr "user_input.client_profile.investment_aim") ;;
  _add_paragraph (JStr ("You intend to use your investment to " ++ py_str investment_aim ++ ".")) ;>
  add_paragraph0 ;>
  timeframe <~ data_get (JStr "illustration.investment_timeframe") ;;
  _add_paragraph (JStr ("With this aim in mind, the timeframe for your investment into your St. James's Place Retirement Account is " ++ py_str timeframe)).

Definition _generate_appendix : gen unit :=
  emit SectionBreak ;>
  appendix <~ dget template "appendix" empty_dict ;;
  title <~ dget appendix "title" (JStr "Appendix ii - Product Comparison") ;;
  _add_heading1 title ;>
  add_paragraph0 ;>
  _add_product_comparison_table.

(** [generate]: the phases from the letter to the second appendix, in
    their fixed order.  Page setup before them, page numbers and saving
    after them act on the document library only. *)
Definition generate : gen unit :=
  _generate_letter ;>
  _generate_part1 ;>
  _generate_part2 ;>
  _generate_part3 ;>
  _generate_part4 ;>
  _generate_appendix_i ;>
  _generate_appendix.

End Generator.

End TemplateDocumentGenerator.

(** * Vocabulary of the specification *)

(** The position [l[i]] reads, when [i] is in range. *)
Definition index_in_range (l : list json) (i : Z) : Prop :=
  (- Z.of_nat (length l) <= i < Z.of_nat (length l))%Z.

Definition index_position (l : list json) (i : Z) : nat :=
  Z.to_nat (if (i <? 0)%Z then i + Z.of_nat (length l) else i)%Z.

(** The spec's words: a segment resolves on a mapping when it is a
    present key, and on a sequence when it reads as an integer index
    within range. *)
Inductive segment_resolves : json -> string -> json -> Prop :=
| resolves_key (d : dict) (k : string) (v : json) :
    dict_find k d = Some v ->
    segment_resolves (JDict d) k v
| resolves_index (l : list json) (seg : string) (i : Z) (v : json) :
    py_int seg = Ok i ->
    index_in_range l i ->
    nth_error l (index_position l i) = Some v ->
    segment_resolves (JList l) seg v.

Inductive path_resolves : json -> list string -> json -> Prop :=
| resolves_done (v : json) : path_resolves v [] v
| resolves_step (v v' w : json) (seg : string) (rest : list string) :
    segment_resolves v seg v' ->
    path_resolves v' rest w ->
    path_resolves v (seg :: rest) w.



Fixpoint all_chars (cls : ascii -> bool) (s : string) : bool :=
  match s with
  | EmptyString => true
  | String c s' => cls c && all_chars cls s'
  end.

(** The placeholder syntax: an opening brace, one or more characters of
    [[a-z_]], a dot, one or more characters of [[a-zA-Z0-9_.]], a closing
    brace. *)
Definition token_of (a b : string) : string :=
  String "{"%char (a ++ String dot (b ++ "}")).

Definition is_token (t : string) : Prop :=
  exists a b,
    t = token_of a b /\
    a <> EmptyString /\ all_chars lower_us a = true /\
    b <> EmptyString /\ all_chars word_dot b = true.

(** [s] has a substring of the placeholder syntax. *)
Definition has_token (s : string) : Prop :=
  exists pre t post, s = pre ++ t ++ post /\ is_token t.

(** A text cut into placeholder tokens and single characters outside
    them, from the left. *)
Inductive piece : Type :=
| Text (c : ascii)
| Token (t : string).

Inductive pieces : string -> list piece -> Prop :=
| pieces_end : pieces EmptyString []
| pieces_token (t rest : string) (ps : list piece) :
    is_token t ->
    pieces rest ps ->
    pieces (t ++ rest) (Token t :: ps)
| pieces_text (c : ascii) (rest : string) (ps : list piece) :
    (forall t r, is_token t -> String c rest <> t ++ r) ->
    pieces rest ps ->
    pieces (String c rest) (Text c :: ps).

Fixpoint text_of (ps : list piece) : string :=
  match ps with
  | [] => EmptyString
  | Text c :: ps' => String c (text_of ps')
  | Token t :: ps' => t ++ text_of ps'
  end.

(** The pieces put together again with every token replaced by [repl]. *)
Fixpoint render (repl : string -> result string) (ps : list piece) : result string :=
  match ps with
  | [] => Ok EmptyString
  | Text c :: ps' => out <- render repl ps' ;; ret (String c out)
  | Token t :: ps' => r <- repl t ;; out <- render repl ps' ;; ret (r ++ out)
  end.

(** A decision of [has_token]: a match of the pattern starts somewhere. *)
Fixpoint has_token_b (s : string) : bool :=
  match s with
  | EmptyString => false
  | String _ s' =>
      match match_here s with
      | Some _ => true
      | None => has_token_b s'
      end
  end.

(** The node [_add_bullet] appends for a value. *)
Definition bullet_node (v : json) : node :=
  Para Bullet (JStr ("•" ++ str1 tab ++ py_str v)).

(** One bullet per key of [ks] in order, a key the mapping lacks giving
    none. *)
Definition bullets_for (m : dict) (ks : list string) : list node :=
  flat_map (fun k => match dict_find k m with
                     | Some v => [bullet_node v]
                     | None => []
                     end) ks.

Definition is_bullet (n : node) : bool :=
  match n with
  | Para Bullet _ => true
  | _ => false
  end.

(** [item.get(k, default)] of a content item given as a mapping. *)
Definition field (d : dict) (k : string) (default : json) : json :=
  match dict_find k d with
  | Some v => v
  | None => default
  end.

(** The key [key] is missing from the mapping [src.sec] of the sources:
    whatever mappings stand at [src] and at [sec], [key] is not in the
    latter. *)
Definition lacks (sources : dict) (src sec key : string) : Prop :=
  forall u o,
    dict_find src sources = Some (JDict u) ->
    dict_find sec u = Some (JDict o) ->
    dict_find key o = None.

(** The text of the cell in data row [r] and column [c], counted from 0. *)
Definition cell (rows : list (list string)) (r c : nat) : option string :=
  match nth_error rows r with
  | Some row => nth_error row c
  | None => None
  end.

(** ** Absent data *)

(** [prunes v' v]: [v'] is [v] with keys removed from mappings, at any
    depth; sequences keep their entries and scalars are unchanged. *)
Inductive prunes : json -> json -> Prop :=
| prunes_same (v : json) : prunes v v
| prunes_dict (d' d : dict) :
    (forall k x', dict_find k d' = Some x' ->
                  exists x, dict_find k d = Some x /\ prunes x' x) ->
    prunes (JDict d') (JDict d)
| prunes_list (l' l : list json) :
    Forall2 prunes l' l ->
    prunes (JList l') (JList l).

(** [absent_from sources' sources]: every source loaded in [sources'] is
    an empty mapping (its file was missing) or the source of the same name
    in [sources] with keys removed; a source may also be missing
    altogether. *)
Definition absent_from (sources' sources : dict) : Prop :=
  forall name v',
    dict_find name sources' = Some v' ->
    v' = empty_dict \/
    exists v, dict_find name sources = Some v /\ prunes v' v.





(** Every source of [names] loaded as an empty mapping, as when no data
    file is found. *)
Definition all_missing (names : list string) : dict :=
  map (fun name => (name, empty_dict)) names.

Definition source_names : list string :=
  ["cfr"; "cyc"; "illustration"; "ceding_info"; "user_input"].

(** ** Sample data *)




(** * Further vocabulary *)

(** The cells of the fund-selection row of a fund given as a mapping. *)
Definition fund_cells (fund : dict) : list string :=
  map TemplateDocumentGenerator.cell_text
    [field fund "category" empty; field fund "fund_selection" empty;
     field fund "fund_type" empty; field fund "risk_profile" empty;
     field fund "percentage" empty].

(** The address keys of the letter, in the order they are read. *)
Definition address_keys : list string :=
  ["address_line_1"; "address_line_2"; "address_line_3";
   "address_line_4"; "address_line_5"].

(** The exceptions the walk lets through. *)
Definition walk_exception (e : exn) : Prop := e = AttributeError \/ e = TypeError.

(** A table node whose data rows are as wide as its header row. *)
Definition table_ok (n : node) : Prop :=
  match n with
  | Table _ columns rows => Forall (fun row => length row = length columns) rows
  | _ => True
  end.

(** [safe Q m]: the step [m] raises nothing but an [AttributeError] or a
    [TypeError], and when it completes its value satisfies [Q] and every
    table it appended is well formed. *)
Definition safe {A : Type} (Q : A -> Prop) (m : gen A) : Prop :=
  match m with
  | Ok (a, out) => Q a /\ Forall table_ok out
  | Raise e => walk_exception e
  end.

Definition any {A : Type} (a : A) : Prop := True.

(** The outline of a document: its page breaks, section breaks and
    level-1 headings, in order. *)
Inductive tag : Type :=
| TPage
| TSection
| THeading1.

Definition tag_of (n : node) : list tag :=
  match n with
  | PageBreak => [TPage]
  | SectionBreak => [TSection]
  | Para Heading1 _ => [THeading1]
  | _ => []
  end.

Definition outline (out : list node) : list tag := flat_map tag_of out.

(** [outlined l m]: when the step [m] completes, the outline of the nodes
    it appended is [l]. *)
Definition outlined {A : Type} (l : list tag) (m : gen A) : Prop :=
  forall a out, m = Ok (a, out) -> outline out = l.

(** ** Loading the sources *)

(** [d[k] = v]: the value of a present key is replaced in place, a new key
    goes to the end. *)
Fixpoint dict_set (d : dict) (k : string) (v : json) : dict :=
  match d with
  | [] => [(k, v)]
  | (k', v') :: d' =>
      if String.eqb k' k then (k', v) :: d' else (k', v') :: dict_set d' k v
  end.

(** A data file as [json.load] finds it: text that parses to a value, or
    text that does not parse.  Failures of the operating system while
    reading are left out. *)
Inductive file : Type :=
| Parsed (v : json)
| Malformed.

(** The files that exist, by path. *)
Definition filesystem : Type := string -> option file.

(** [json.load(f)]: a [JSONDecodeError] is a [ValueError]. *)
Definition json_load (f : file) : result json :=
  match f with
  | Parsed v => Ok v
  | Malformed => Raise ValueError
  end.

Fixpoint ends_with_slash (s : string) : bool :=
  match s with
  | EmptyString => false
  | String c EmptyString => Ascii.eqb c "/"%char
  | String _ s' => ends_with_slash s'
  end.

(** [os.path.join(a, b)] with the separator [/]. *)
Definition path_join (a b : string) : string :=
  match b with
  | String "/"%char _ => b
  | _ =>
      match a with
      | EmptyString => b
      | _ => if ends_with_slash a then a ++ b else a ++ String "/"%char b
      end
  end.

Definition source_files : list (string * string) :=
  [("cfr", "cfr_data.json");
   ("cyc", "cyc_data.json");
   ("illustration", "illustration_data.json");
   ("ceding_info", "ceding_info.json");
   ("user_input", "user_input.json")].

(** The loop of [_load_all_sources] over the remaining [files], with
    [self.sources] as filled so far. *)
Fixpoint load_sources (fs : filesystem) (data_dir : string)
    (files : list (string * string)) (sources : dict) : result dict :=
  match files with
  | [] => Ok sources
  | (source_name, filename) :: files' =>
      let filepath := path_join data_dir filename in
      match fs filepath with
      | Some f =>
          v <- json_load f ;;
          load_sources fs data_dir files' (dict_set sources source_name v)
      | None =>
          load_sources fs data_dir files' (dict_set sources source_name empty_dict)
      end
  end.

(** [DataSourceManager(data_dir)]: [self.sources] after
    [_load_all_sources]. *)
Definition _load_all_sources (fs : filesystem) (data_dir : string) : result dict :=
  load_sources fs data_dir source_files [].

(** What a source holds after loading: the parsed file, or an empty
    mapping when the file does not exist. *)
Definition loaded_value (fs : filesystem) (data_dir filename : string) : json :=
  match fs (path_join data_dir filename) with
  | Some (Parsed v) => v
  | _ => empty_dict
  end.

(** No file of [files] that exists is malformed. *)
Definition readable (fs : filesystem) (data_dir : string)
    (files : list (string * string)) : Prop :=
  forall name filename,
    In (name, filename) files -> fs (path_join data_dir filename) <> Some Malformed.

(** * style_helpers.py *)

(** A table with string keys, looked up from the front. *)
Fixpoint assoc {A : Type} (k : string) (l : list (string * A)) : option A :=
  match l with
  | [] => None
  | (k', v) :: l' => if String.eqb k' k then Some v else assoc k l'
  end.

(** ** Colours *)

(** [s.lstrip(x)] for a one-character [x]. *)
Fixpoint lstrip_char (x : ascii) (s : string) : string :=
  match s with
  | EmptyString => EmptyString
  | String c s' => if Ascii.eqb c x then lstrip_char x s' else s
  end.

(** [s[i:j]] for constants [0 <= i <= j]: characters, not bytes. *)
Definition py_slice (i j : nat) (s : string) : string :=
  String.concat EmptyString (firstn (j - i) (skipn i (chars s))).

(** A digit of base 16, as [int(s, 16)] reads it below 128. *)
Definition hex_digit_of (c : ascii) : option Z :=
  if ascii_in 48 57 c then Some (Z.of_nat (nat_of_ascii c) - 48)%Z
  else if ascii_in 97 102 c then Some (Z.of_nat (nat_of_ascii c) - 87)%Z
  else if ascii_in 65 70 c then Some (Z.of_nat (nat_of_ascii c) - 55)%Z
  else None.

(** Digits of base 16 with single underscores between them. *)
Fixpoint hex_body (acc : Z) (after_underscore : bool) (s : string) : option Z :=
  match s with
  | EmptyString => if after_underscore then None else Some acc
  | String c s' =>
      match hex_digit_of c with
      | Some d => hex_body (16 * acc + d)%Z false s'
      | None =>
          if is_char "_"%char c && negb after_underscore
          then hex_body acc true s'
          else None
      end
  end.

Definition hex_digits (s : string) : option Z :=
  match s with
  | EmptyString => None
  | String c _ =>
      match hex_digit_of c with
      | Some _ => hex_body 0%Z false s
      | None => None
      end
  end.

(** The prefix [0x] or [0X] may come first, and one underscore after it. *)
Definition hex_unsigned (s : string) : option Z :=
  match s with
  | String "0"%char (String x s') =>
      if is_char "x"%char x || is_char "X"%char x then
        match s' with
        | String "_"%char s'' => hex_digits s''
        | _ => hex_digits s'
        end
      else hex_digits s
  | _ => hex_digits s
  end.

Definition hex_signed (s : string) : option Z :=
  match s with
  | String "-"%char s' => option_map Z.opp (hex_unsigned s')
  | String "+"%char s' => hex_unsigned s'
  | _ => hex_unsigned s
  end.

(** [int(s, 16)] for a string [s], with the white space and the digits of
    [py_int]. *)
Definition py_int16 (s : string) : result Z :=
  match hex_signed (strip s) with
  | Some z => Ok z
  | None => Raise ValueError
  end.

Definition is_byte (v : Z) : bool := (0 <=? v)%Z && (v <=? 255)%Z.

(** [RGBColor(r, g, b)] of the document library: three integers between 0
    and 255, a [ValueError] otherwise. *)
Definition RGBColor (r g b : Z) : result (Z * Z * Z) :=
  if is_byte r && is_byte g && is_byte b then Ok (r, g, b)
  else Raise ValueError.

(** Only a [str] among the values of a style has [lstrip]. *)
Definition hex_to_rgb (hex_color : json) : result (Z * Z * Z) :=
  match hex_color with
  | JStr s =>
      let hex_color := lstrip_char "#"%char s in
      r <- py_int16 (py_slice 0 2 hex_color) ;;
      g <- py_int16 (py_slice 2 4 hex_color) ;;
      b <- py_int16 (py_slice 4 6 hex_color) ;;
      RGBColor r g b
  | _ => Raise AttributeError
  end.

(** The string of [n] characters [#]. *)
Fixpoint hashes (n : nat) : string :=
  match n with
  | O => EmptyString
  | S n' => String "#"%char (hashes n')
  end.

(** ** Style table *)

Definition one_point_zero : json := JFloat (mkfloat true "1.0").

Definition DEFAULT_STYLES : list (string * dict) :=
  [("document",
    [("font_family", JStr "Poppins");
     ("font_size", JInt 10);
     ("font_color", JStr "000000");
     ("line_spacing", one_point_zero);
     ("line_spacing_rule", JStr "SINGLE");
     ("space_before", JInt 0);
     ("space_after", JInt 0);
     ("alignment", JStr "LEFT")]);
   ("heading1",
    [("font_family", JStr "Noe Display SJP Bold");
     ("font_size", JInt 20);
     ("font_color", JStr "0F1E3C");
     ("bold", JBool false);
     ("space_before", JInt 0);
     ("space_after", JInt 6);
     ("alignment", JStr "LEFT");
     ("page_break_before", JBool true);
     ("keep_with_next", JBool true)]);
   ("heading2",
    [("font_family", JStr "Poppins SemiBold");
     ("font_size", JInt 12);
     ("font_color", JStr "0F1E3C");
     ("bold", JBool false);
     ("space_before", JInt 6);
     ("space_after", JInt 6);
     ("line_spacing", one_point_zero);
     ("alignment", JStr "LEFT");
     ("keep_with_next", JBool true)]);
   ("heading3",
    [("font_family", JStr "Poppins SemiBold");
     ("font_size", JInt 11);
     ("font_color", JStr "0F1E3C");
     ("bold", JBool false);
     ("space_before", JInt 0);
     ("space_after", JInt 0);
     ("alignment", JStr "LEFT");
     ("keep_with_next", JBool true)]);
   ("bullet",
    [("font_family", JStr "Poppins");
     ("font_size", JInt 10);
     ("font_color", JStr "000000");
     ("line_spacing", one_point_zero);
     ("space_before", JInt 0);
     ("space_after", JInt 0);
     ("alignment", JStr "LEFT");
     ("left_indent", JFloat (mkfloat true "0.4958"));
     ("hanging_indent", JFloat (mkfloat true "0.2479"))]);
   ("table_header",
    [("font_family", JStr "Poppins");
     ("font_size", JInt 8);
     ("font_color", JStr "000000");
     ("bold", JBool true);
     ("alignment", JStr "CENTER");
     ("vertical_alignment", JStr "CENTER");
     ("background_color", JStr "3FDCC8")]);
   ("table_cell",
    [("font_family", JStr "Poppins");
     ("font_size", JInt 8);
     ("font_color", JStr "000000");
     ("alignment", JStr "CENTER");
     ("vertical_alignment", JStr "CENTER")]);
   ("footnote",
    [("font_family", JStr "Poppins");
     ("font_size", JInt 9);
     ("font_color", JStr "000000");
     ("italic", JBool true);
     ("space_after", JInt 0);
     ("alignment", JStr "LEFT")]);
   ("closing",
    [("font_family", JStr "Poppins");
     ("font_size", JInt 10);
     ("font_color", JStr "000000");
     ("space_before", JInt 0);
     ("space_after", JInt 0);
     ("alignment", JStr "LEFT")])].

(** [DEFAULT_STYLES.get(style_name, DEFAULT_STYLES['document'])]. *)
Definition default_style (style_name : string) : dict :=
  match assoc style_name DEFAULT_STYLES with
  | Some style => style
  | None =>
      match assoc "document" DEFAULT_STYLES with
      | Some style => style
      | None => []
      end
  end.

(** [d.update(other)] on a copy of [d]. *)
Definition dict_update (d other : dict) : dict :=
  fold_left (fun acc kv => dict_set acc (fst kv) (snd kv)) other d.

(** [overrides] is [None] or a mapping. *)
Definition get_style_config (style_name : string) (overrides : option dict) : dict :=
  let base_style := default_style style_name in
  match overrides with
  | Some o => if truthy (JDict o) then dict_update base_style o else base_style
  | None => base_style
  end.

(** ** Superscripts *)

Definition SUPERSCRIPT_MAP : list (string * string) :=
  [("¹", "1"); ("²", "2"); ("³", "3"); ("⁴", "4"); ("⁵", "5");
   ("⁶", "6"); ("⁷", "7"); ("⁸", "8"); ("⁹", "9"); ("⁰", "0")].

(** [char in text] for a one-character [char]. *)
Definition py_in_str (char text : string) : bool :=
  existsb (String.eqb char) (chars text).

Definition has_superscript_chars (text : string) : bool :=
  existsb (fun char => py_in_str char text) (map fst SUPERSCRIPT_MAP).

(** [text[i:j]] over the characters of [text], for [i <= j]. *)
Definition slice (i j : nat) (text : list string) : string :=
  String.concat EmptyString (firstn (j - i) (skipn i text)).

(** A run of a paragraph: its text and the style applied to it. *)
Definition run : Type := (string * dict)%type.

Definition sup_config (style_config : dict) : dict :=
  dict_set style_config "superscript" (JBool true).

Section Superscript.

(** [apply_run_style] sets the properties of a style on a run of the
    document library; what it does is left open, it may raise. *)
Variable apply_run_style : dict -> result unit.

(** [run = paragraph.add_run(t); apply_run_style(run, config)]. *)
Definition add_run (t : string) (config : dict) : result (list run) :=
  _ <- apply_run_style config ;; Ok [(t, config)].

(** The loop of [add_text_with_superscript] from the character at index
    [i] on, [todo] being the characters left: [current_pos] at the end and
    the runs added. *)
Fixpoint superscript_loop (style_config : dict) (text : list string)
    (i current_pos : nat) (todo : list string) : result (nat * list run) :=
  match todo with
  | [] => Ok (current_pos, [])
  | char :: todo' =>
      match assoc char SUPERSCRIPT_MAP with
      | Some digit =>
          before <- (if (current_pos <? i)%nat
                     then add_run (slice current_pos i text) style_config
                     else Ok []) ;;
          raised <- add_run digit (sup_config style_config) ;;
          rest <- superscript_loop style_config text (S i) (S i) todo' ;;
          Ok (fst rest, (before ++ raised ++ snd rest)%list)
      | None => superscript_loop style_config text (S i) current_pos todo'
      end
  end.

(** The runs added to the paragraph, for a [str] and a style mapping. *)
Definition add_text_with_superscript (text : string) (style_config : dict)
    : result (list run) :=
  let cs := chars text in
  looped <- superscript_loop style_config cs 0 0 cs ;;
  let current_pos := fst looped in
  remaining <- (if (current_pos <? length cs)%nat
                then add_run (slice current_pos (length cs) cs) style_config
                else Ok []) ;;
  Ok (snd looped ++ remaining)%list.

End Superscript.

(** What a character becomes in the runs. *)
Definition lowered (char : string) : string :=
  match assoc char SUPERSCRIPT_MAP with
  | Some digit => digit
  | None => char
  end.

(** A run in the base style: one or more characters of the text, none of
    them a superscript. *)
Definition plain_run (style_config : dict) (text : list string) (r : run) : Prop :=
  snd r = style_config /\
  exists l, l <> [] /\ fst r = String.concat EmptyString l /\
            Forall (fun c => In c text /\ assoc c SUPERSCRIPT_MAP = None) l.

(** A raised run: the digit of a superscript of the text. *)
Definition raised_run (style_config : dict) (text : list string) (r : run) : Prop :=
  snd r = sup_config style_config /\
  exists c, In c text /\ assoc c SUPERSCRIPT_MAP = Some (fst r).

Definition always_styles : dict -> result unit := fun _ => Ok tt.

(** ** Sample data for the walk *)

Definition sample_template : json :=
  JDict
    [("part1",
      JDict [("heading1", JStr "Part 1");
             ("content",
              JList [JDict [("type", JStr "table");
                            ("table_id", JStr "pension_arrangements")];
                     JDict [("type", JStr "table");
                            ("table_id", JStr "recommendation_table")]])])].

Definition sample_sources : dict :=
  [("cfr", JDict [("recipient", JDict [("title_and_name", JStr "Mr Lee")])]);
   ("user_input",
    JDict [("fund_selection",
            JDict [("table", JList [JDict [("category", JStr "Equity")];
                                    JDict [("category", JStr "Bond")]])])])].

Definition sample_files : filesystem :=
  fun path =>
    if String.eqb path "data/cfr_data.json"
    then Some (Parsed (JDict [("plan", JStr "Group PP")]))
    else if String.eqb path "data/user_input.json"
    then Some (Parsed (JDict [("name", JStr "Ann")]))
    else None.

(** * Properties *)

(** ** Examples from the specification *)

Example get_negative_example :
  DataSourceManager.get
    [("user_input", JDict [("name", JStr "Ann"); ("items", JList [JInt 1; JInt 2; JNull])])]
    "user_input.items.-2" (JStr "dflt") = Ok (JInt 2).
Proof. reflexivity. Qed.

Example get_non_numeric_example :
  DataSourceManager.get
    [("path", JDict [("items", JList [JInt 1; JInt 2])])]
    "path.items.foo" (JStr "dflt") = Ok (JStr "dflt").
Proof. reflexivity. Qed.

Example resolve_example :
  DataSourceManager.resolve_placeholders
    [("user_input", JDict [("name", JStr "Ann")])]
    (JStr "Hello {user_input.name}") = Ok (JStr "Hello Ann").
Proof. reflexivity. Qed.

Example resolve_missing_example :
  DataSourceManager.resolve_placeholders
    [("user_input", JDict [])]
    (JStr "Hello {user_input.name}") = Ok (JStr "Hello {user_input.name}").
Proof. reflexivity. Qed.

Example resolve_adjacent_example :
  DataSourceManager.resolve_placeholders
    [("user_input", JDict [("name", JStr "Ann"); ("n", JInt 0)])]
    (JStr "Hello {user_input.name}{user_input.n} {user_input.zz}{user_input.name}")
  = Ok (JStr "Hello Ann{user_input.n} {user_input.zz}Ann").
Proof. reflexivity. Qed.

(** ** Results and list indexing *)

Lemma getitem_list_in_range (l : list json) (i : Z) :
  index_in_range l i ->
  exists v, nth_error l (index_position l i) = Some v /\ getitem_list l i = Ok v.
Proof.
  unfold index_in_range, index_position, getitem_list. intros Hr.
  set (n := Z.of_nat (length l)) in *.
  set (j := (if (i <? 0)%Z then (i + n)%Z else i)).
  assert (Hj : (0 <= j < n)%Z).
  { subst j. destruct (Z.ltb_spec i 0); lia. }
  replace ((j <? 0)%Z || (n <=? j)%Z) with false.
  2:{ symmetry. apply orb_false_iff. split; [apply Z.ltb_ge | apply Z.leb_gt]; lia. }
  destruct (nth_error l (Z.to_nat j)) as [v|] eqn:E.
  - exists v. split; reflexivity.
  - apply nth_error_None in E. subst n. lia.
Qed.

Lemma getitem_list_out_of_range (l : list json) (i : Z) :
  ~ index_in_range l i -> getitem_list l i = Raise IndexError.
Proof.
  unfold index_in_range, getitem_list. intros Hr.
  set (n := Z.of_nat (length l)) in *.
  destruct (Z.ltb_spec i 0) as [Hi|Hi].
  - replace ((i + n <? 0)%Z || (n <=? i + n)%Z) with true; [reflexivity|].
    symmetry. apply orb_true_iff. left. apply Z.ltb_lt. lia.
  - replace ((i <? 0)%Z || (n <=? i)%Z) with true; [reflexivity|].
    symmetry. apply orb_true_iff. right. apply Z.leb_le. lia.
Qed.

Lemma index_in_range_dec (l : list json) (i : Z) :
  {index_in_range l i} + {~ index_in_range l i}.
Proof.
  unfold index_in_range.
  destruct (Z_le_dec (- Z.of_nat (length l)) i);
    destruct (Z_lt_dec i (Z.of_nat (length l))); (left; lia) || (right; lia).
Qed.

Lemma py_int_cases (s : string) :
  (exists i, py_int s = Ok i) \/ py_int s = Raise ValueError.
Proof.
  unfold py_int. destruct (int_signed (strip s)); [left; eauto | right; reflexivity].
Qed.

(** ** Dotted paths *)

Section DottedPath.

Import DataSourceManager.

Lemma segment_resolves_fun (v : json) (seg : string) (x y : json) :
  segment_resolves v seg x -> segment_resolves v seg y -> x = y.
Proof.
  intros Hx Hy. inversion Hx; subst; inversion Hy; subst; congruence.
Qed.

(** One pass of the loop body on a segment that resolves. *)
Lemma get_loop_step (default v v' : json) (seg : string) (rest : list string) :
  segment_resolves v seg v' ->
  get_loop default v (seg :: rest) = get_loop default v' rest.
Proof.
  intros H. inversion H; subst; simpl.
  - unfold dict_mem, getitem_dict. rewrite H0. reflexivity.
  - rewrite H0. simpl.
    destruct (getitem_list_in_range l i H1) as [x [Hx ->]].
    congruence.
Qed.

(** One pass of the loop body on a segment that does not resolve. *)
Lemma get_loop_stuck (default v : json) (seg : string) (rest : list string) :
  (forall v', ~ segment_resolves v seg v') ->
  get_loop default v (seg :: rest) = Ok default.
Proof.
  intros H. destruct v; simpl; try reflexivity.
  - destruct (py_int_cases seg) as [[i Hi] | Hi]; rewrite Hi; simpl; [|reflexivity].
    destruct (index_in_range_dec l i) as [Hr | Hr].
    + destruct (getitem_list_in_range l i Hr) as [x [Hx _]].
      exfalso. apply (H x). econstructor; eassumption.
    + rewrite (getitem_list_out_of_range l i Hr). reflexivity.
  - unfold dict_mem. destruct (dict_find seg d) as [x|] eqn:E; [|reflexivity].
    exfalso. apply (H x). constructor. exact E.
Qed.

Lemma segment_resolves_dec (v : json) (seg : string) :
  (exists v', segment_resolves v seg v') \/ (forall v', ~ segment_resolves v seg v').
Proof.
  destruct v; try (right; intros v' H; inversion H; fail).
  - destruct (py_int_cases seg) as [[i Hi] | Hi].
    + destruct (index_in_range_dec l i) as [Hr | Hr].
      * destruct (getitem_list_in_range l i Hr) as [x [Hx _]].
        left. exists x. econstructor; eassumption.
      * right. intros v' H. inversion H; subst. congruence.
    + right. intros v' H. inversion H; subst. congruence.
  - destruct (dict_find seg d) as [x|] eqn:E.
    + left. exists x. constructor. exact E.
    + right. intros v' H. inversion H; subst. congruence.
Qed.

Lemma get_loop_resolves (default v w : json) (parts : list string) :
  path_resolves v parts w ->
  get_loop default v parts = Ok (if is_none w then default else w).
Proof.
  induction 1.
  - reflexivity.
  - rewrite (get_loop_step default v v' seg rest H). exact IHpath_resolves.
Qed.

Lemma get_loop_unresolved (default v : json) (parts : list string) :
  (forall w, ~ path_resolves v parts w) ->
  get_loop default v parts = Ok default.
Proof.
  revert v. induction parts as [|seg rest IH]; intros v H.
  - exfalso. apply (H v). constructor.
  - destruct (segment_resolves_dec v seg) as [[v' Hv'] | Hno].
    + rewrite (get_loop_step default v v' seg rest Hv').
      apply IH. intros w Hw. apply (H w). econstructor; eassumption.
    + apply get_loop_stuck. exact Hno.
Qed.

Lemma path_resolves_dec (v : json) (parts : list string) :
  (exists w, path_resolves v parts w) \/ (forall w, ~ path_resolves v parts w).
Proof.
  revert v. induction parts as [|seg rest IH]; intros v.
  - left. exists v. constructor.
  - destruct (segment_resolves_dec v seg) as [[v' Hv'] | Hno].
    + destruct (IH v') as [[w Hw] | Hn].
      * left. exists w. econstructor; eassumption.
      * right. intros w Hw. inversion Hw; subst.
        rewrite (segment_resolves_fun _ _ _ _ H2 Hv') in H4. exact (Hn w H4).
    + right. intros w Hw. inversion Hw; subst. exact (Hno _ H2).
Qed.

Lemma get_loop_returns (default v : json) (parts : list string) :
  exists r, get_loop default v parts = Ok r.
Proof.
  destruct (path_resolves_dec v parts) as [[w Hw] | Hn].
  - rewrite (get_loop_resolves default v w parts Hw). eauto.
  - rewrite (get_loop_unresolved default v parts Hn). eauto.
Qed.

(** [get] once the path is split. *)
Lemma get_split (sources : dict) (path src : string) (rest : list string) (default : json) :
  split_on dot path = src :: rest ->
  rest <> [] ->
  get sources path default =
    match dict_find src sources with
    | Some v0 => get_loop default v0 rest
    | None => Ok default
    end.
Proof.
  intros Hs Hr. unfold get. rewrite Hs.
  destruct rest as [|seg rest]; [congruence|]. simpl.
  unfold dict_mem, getitem_dict.
  destruct (dict_find src sources); reflexivity.
Qed.

Lemma get_returns (sources : dict) (path : string) (default : json) :
  exists r, get sources path default = Ok r.
Proof.
  destruct (split_on dot path) as [|src rest] eqn:Hs.
  - unfold get. rewrite Hs. simpl. eauto.
  - destruct rest as [|seg rest].
    + unfold get. rewrite Hs. simpl. eauto.
    + rewrite (get_split sources path src (seg :: rest) default Hs); [|discriminate].
      destruct (dict_find src sources) as [v0|]; [|eauto].
      apply get_loop_returns.
Qed.





End DottedPath.



(** ** Strings *)

Lemma append_assoc (a b c : string) : (a ++ b) ++ c = a ++ (b ++ c).
Proof. induction a; simpl; congruence. Qed.

Lemma length_append (a b : string) :
  String.length (a ++ b) = String.length a + String.length b.
Proof. induction a; simpl; congruence. Qed.

Lemma contains_char_append (c : ascii) (a b : string) :
  contains_char c (a ++ b) = contains_char c a || contains_char c b.
Proof.
  induction a; simpl; [reflexivity|]. rewrite IHa. apply orb_assoc.
Qed.

(** Two ways to cut one string: one cut lies in the other's left part. *)
Lemma append_eq_cases (a b c d : string) :
  a ++ b = c ++ d ->
  (exists x, c = a ++ x /\ b = x ++ d) \/
  (exists y z, a = c ++ String y z /\ d = String y z ++ b).
Proof.
  revert c. induction a as [|h a IH]; intros c H.
  - left. exists c. split; [reflexivity | exact H].
  - destruct c as [|h' c].
    + right. exists h, a. split; [reflexivity | simpl in *; congruence].
    + simpl in H. injection H as -> H.
      destruct (IH c H) as [[x [-> ->]] | [y [z [-> ->]]]].
      * left. exists x. split; reflexivity.
      * right. exists y, z. split; reflexivity.
Qed.

(** ** The matcher and the placeholder syntax *)

Section Matcher.

Variable cls : ascii -> bool.
Variable k : string -> option (string * string).

Lemma match_plus_sound (s m r : string) :
  match_plus cls k s = Some (m, r) ->
  exists a s' m',
    a <> EmptyString /\ all_chars cls a = true /\
    s = a ++ s' /\ m = a ++ m' /\ k s' = Some (m', r).
Proof.
  revert m r. induction s as [|c s IH]; intros m r H; simpl in H; [discriminate|].
  destruct (cls c) eqn:Hc; [|discriminate].
  destruct (match_plus cls k s) as [[m1 r1]|] eqn:E.
  - injection H as <- <-.
    destruct (IH m1 r1 eq_refl) as (a & s' & m' & Ha & Hall & -> & -> & Hk).
    exists (String c a), s', m'. simpl. rewrite Hc, Hall.
    repeat split; [discriminate | exact Hk].
  - destruct (k s) as [[m1 r1]|] eqn:Ek; [|discriminate].
    injection H as <- <-.
    exists (String c EmptyString), s, m1. simpl. rewrite Hc.
    repeat split; [discriminate | exact Ek].
Qed.

(** A run of the class that stops before [s'] is taken whole. *)
Lemma match_plus_run (a s' m' r : string) :
  a <> EmptyString ->
  all_chars cls a = true ->
  match_plus cls k s' = None ->
  k s' = Some (m', r) ->
  match_plus cls k (a ++ s') = Some (a ++ m', r).
Proof.
  intros Ha Hall Hstop Hk.
  induction a as [|c a IH]; [congruence|].
  simpl in Hall. apply andb_true_iff in Hall as [Hc Hall].
  simpl. rewrite Hc.
  destruct a as [|c' a].
  - simpl. rewrite Hstop, Hk. reflexivity.
  - rewrite IH; [reflexivity | discriminate | exact Hall].
Qed.

Lemma match_plus_stop (c : ascii) (s : string) :
  cls c = false -> match_plus cls k (String c s) = None.
Proof. intros H. simpl. rewrite H. reflexivity. Qed.

End Matcher.

Lemma lower_us_not_dot : lower_us dot = false.
Proof. reflexivity. Qed.

Lemma word_dot_not_close : word_dot "}"%char = false.
Proof. reflexivity. Qed.

Lemma lower_us_not_open (c : ascii) : lower_us c = true -> c <> "{"%char.
Proof. intros H ->. discriminate. Qed.

Lemma word_dot_not_open (c : ascii) : word_dot c = true -> c <> "{"%char.
Proof. intros H ->. discriminate. Qed.

(** The matcher accepts exactly the placeholder syntax. *)
Lemma match_here_token (s m r : string) :
  match_here s = Some (m, r) <-> is_token m /\ s = m ++ r.
Proof.
  unfold match_here, pattern. split.
  - intros H. simpl in H.
    destruct s as [|c0 s]; [discriminate|].
    destruct (Ascii.eqb_spec c0 "{"%char) as [->|]; [|discriminate].
    destruct (match_plus lower_us _ s) as [[m1 r1]|] eqn:E1; [|discriminate].
    injection H as <- <-.
    apply match_plus_sound in E1 as (a & s1 & m2 & Ha & Halla & -> & -> & E2).
    destruct s1 as [|c1 s1]; [discriminate|].
    destruct (Ascii.eqb_spec c1 dot) as [->|]; [|discriminate].
    destruct (match_plus word_dot _ s1) as [[m3 r3]|] eqn:E3; [|discriminate].
    injection E2 as <- <-.
    apply match_plus_sound in E3 as (b & s2 & m4 & Hb & Hallb & -> & -> & E4).
    destruct s2 as [|c2 s2]; [discriminate|].
    destruct (Ascii.eqb_spec c2 "}"%char) as [->|]; [|discriminate].
    injection E4 as <- <-.
    split.
    + exists a, b. unfold token_of. repeat split; assumption.
    + simpl. f_equal. rewrite append_assoc. simpl. f_equal. f_equal.
      rewrite append_assoc. reflexivity.
  - intros [(a & b & -> & Ha & Halla & Hb & Hallb) ->].
    unfold token_of. simpl.
    rewrite append_assoc. simpl. rewrite append_assoc. simpl.
    rewrite (match_plus_run lower_us _ a _ (String dot (b ++ "}")) r Ha Halla).
    + reflexivity.
    + apply match_plus_stop. exact lower_us_not_dot.
    + simpl.
      rewrite (match_plus_run word_dot _ b _ "}" r Hb Hallb).
      * reflexivity.
      * apply match_plus_stop. exact word_dot_not_close.
      * reflexivity.
Qed.

Lemma is_token_shape (t : string) :
  is_token t ->
  exists t', t = String "{"%char t' /\ contains_char "{"%char t' = false.
Proof.
  intros (a & b & -> & Ha & Halla & Hb & Hallb).
  exists (a ++ String dot (b ++ "}")). split; [reflexivity|].
  assert (Hno : forall cls s, (forall c, cls c = true -> c <> "{"%char) ->
                  all_chars cls s = true -> contains_char "{"%char s = false).
  { intros cls s Hcls. induction s as [|c s IH]; simpl; [reflexivity|].
    intros H. apply andb_true_iff in H as [Hc Hs].
    rewrite (IH Hs), orb_false_r.
    destruct (Ascii.eqb_spec c "{"%char) as [->|]; [|reflexivity].
    exfalso. exact (Hcls _ Hc eq_refl). }
  rewrite contains_char_append. simpl. rewrite contains_char_append. simpl.
  rewrite (Hno lower_us a lower_us_not_open Halla).
  rewrite (Hno word_dot b word_dot_not_open Hallb). reflexivity.
Qed.

Lemma is_token_nonempty (t : string) : is_token t -> t <> EmptyString.
Proof. intros H. destruct (is_token_shape t H) as [t' [-> _]]. discriminate. Qed.

(** A token at the start of a string is the only one there. *)
Lemma token_prefix_unique (t1 r1 t2 r2 : string) :
  is_token t1 -> is_token t2 -> t1 ++ r1 = t2 ++ r2 -> t1 = t2 /\ r1 = r2.
Proof.
  intros H1 H2 E.
  assert (M1 : match_here (t1 ++ r1) = Some (t1, r1)) by (apply match_here_token; auto).
  assert (M2 : match_here (t1 ++ r1) = Some (t2, r2)) by (apply match_here_token; auto).
  rewrite M1 in M2. injection M2 as -> ->. auto.
Qed.



(** ** Substitution *)

Lemma match_here_shorter (s m r : string) :
  match_here s = Some (m, r) -> String.length r < String.length s.
Proof.
  intros H. apply match_here_token in H as [Ht ->].
  rewrite length_append.
  destruct (is_token_shape m Ht) as [t' [-> _]]. simpl. lia.
Qed.

Section Substitution.

Variable repl : string -> result string.

Lemma re_sub_fuel_enough (n m : nat) (s : string) :
  String.length s <= n -> String.length s <= m ->
  re_sub_fuel n repl s = re_sub_fuel m repl s.
Proof.
  revert m s. induction n as [|n IH]; intros m s Hn Hm.
  - destruct s; [|simpl in Hn; lia]. destruct m; reflexivity.
  - destruct m as [|m].
    + destruct s; [reflexivity | simpl in Hm; lia].
    + destruct s as [|a s]; [reflexivity|].
      simpl in Hn, Hm. cbn [re_sub_fuel].
      destruct (match_here (String a s)) as [[t rest]|] eqn:E.
      * apply match_here_shorter in E. simpl in E.
        rewrite (IH m rest); [reflexivity | lia | lia].
      * rewrite (IH m s); [reflexivity | lia | lia].
Qed.

Lemma re_sub_match (s m rest : string) :
  match_here s = Some (m, rest) ->
  re_sub repl s = (r <- repl m ;; out <- re_sub repl rest ;; ret (r ++ out)).
Proof.
  intros E. pose proof (match_here_shorter _ _ _ E) as Hlt.
  unfold re_sub. destruct s as [|a s]; [simpl in Hlt; lia|].
  cbn [String.length re_sub_fuel]. rewrite E.
  rewrite (re_sub_fuel_enough (String.length s) (String.length rest) rest);
    [reflexivity | simpl in Hlt; lia | lia].
Qed.

Lemma re_sub_copy (a : ascii) (s : string) :
  match_here (String a s) = None ->
  re_sub repl (String a s) = (out <- re_sub repl s ;; ret (String a out)).
Proof.
  intros E. unfold re_sub. cbn [String.length re_sub_fuel]. rewrite E. reflexivity.
Qed.

Lemma no_token_prefix (c : ascii) (rest : string) :
  match_here (String c rest) = None <->
  (forall t r, is_token t -> String c rest <> t ++ r).
Proof.
  split.
  - intros E t r Ht Heq.
    assert (M : match_here (String c rest) = Some (t, r))
      by (apply match_here_token; auto).
    congruence.
  - intros H. destruct (match_here (String c rest)) as [[t r]|] eqn:E; [|reflexivity].
    apply match_here_token in E as [Ht Heq]. exfalso. exact (H t r Ht Heq).
Qed.

(** The scan replaces the token pieces and copies the others. *)
Lemma re_sub_pieces (s : string) (ps : list piece) :
  pieces s ps -> re_sub repl s = render repl ps.
Proof.
  induction 1 as [| t rest ps Ht Hps IH | c rest ps Hno Hps IH].
  - reflexivity.
  - rewrite (re_sub_match (t ++ rest) t rest).
    + simpl. rewrite IH. reflexivity.
    + apply match_here_token. auto.
  - rewrite re_sub_copy by (apply no_token_prefix; exact Hno).
    simpl. rewrite IH. reflexivity.
Qed.

End Substitution.

Lemma pieces_exist (s : string) : exists ps, pieces s ps.
Proof.
  remember (String.length s) as n eqn:Hn.
  revert s Hn. induction n as [n IH] using lt_wf_ind. intros s Hn.
  destruct s as [|c s].
  - exists []. constructor.
  - destruct (match_here (String c s)) as [[t r]|] eqn:E.
    + pose proof (match_here_shorter _ _ _ E) as Hlt.
      destruct (IH (String.length r) ltac:(lia) r eq_refl) as [ps Hps].
      apply match_here_token in E as [Ht ->].
      exists (Token t :: ps). constructor; assumption.
    + destruct (IH (String.length s) ltac:(simpl in Hn; lia) s eq_refl) as [ps Hps].
      exists (Text c :: ps). constructor; [|assumption].
      apply no_token_prefix. exact E.
Qed.

Lemma pieces_text_of (s : string) (ps : list piece) :
  pieces s ps -> text_of ps = s.
Proof. induction 1; simpl; congruence. Qed.

(** Every placeholder token of the text is one of its token pieces, and
    the pieces before and after it cut the text before and after it. *)
Lemma pieces_complete (s : string) (ps : list piece) :
  pieces s ps ->
  forall pre t post,
    s = pre ++ t ++ post -> is_token t ->
    exists ps1 ps2,
      ps = (ps1 ++ Token t :: ps2)%list /\ pieces pre ps1 /\ pieces post ps2.
Proof.
  induction 1 as [| t0 rest ps Ht0 Hps IH | c rest ps Hno Hps IH];
    intros pre t post Hs Ht.
  - exfalso. destruct pre; [|discriminate].
    destruct (is_token_shape t Ht) as [t' [-> _]]. discriminate.
  - destruct (append_eq_cases _ _ _ _ Hs) as [[x [-> Hrest]] | [y [z [Et0 Hpost]]]].
    + (* the token starts at or after the end of t0 *)
      destruct (IH x t post Hrest Ht) as (ps1 & ps2 & -> & Hp1 & Hp2).
      exists (Token t0 :: ps1), ps2. repeat split; [|assumption].
      constructor; assumption.
    + destruct pre as [|p pre].
      * (* both tokens start the text *)
        simpl in Hs.
        destruct (token_prefix_unique t0 rest t post Ht0 Ht Hs) as [-> ->].
        exists [], ps. repeat split; [constructor | assumption].
      * (* the token would start inside t0 *)
        exfalso.
        destruct (is_token_shape t0 Ht0) as [t0' [E0 Hno0]].
        destruct (is_token_shape t Ht) as [t' [-> _]].
        simpl in Hpost. injection Hpost as <- _.
        rewrite Et0 in E0. simpl in E0. injection E0 as _ <-.
        rewrite contains_char_append in Hno0. simpl in Hno0.
        rewrite orb_true_r in Hno0. discriminate.
  - destruct pre as [|p pre].
    + exfalso. simpl in Hs. exact (Hno t post Ht Hs).
    + simpl in Hs. injection Hs as <- Hrest.
      destruct (IH pre t post Hrest Ht) as (ps1 & ps2 & -> & Hp1 & Hp2).
      exists (Text c :: ps1), ps2. repeat split; [|assumption].
      constructor; [|assumption].
      intros t1 r1 Ht1 E1.
      apply (Hno t1 (r1 ++ t ++ post) Ht1).
      rewrite Hrest. change (String c pre ++ (t ++ post) = t1 ++ r1 ++ t ++ post).
      rewrite E1. apply append_assoc.
Qed.



(** A text without a placeholder token is copied. *)
Lemma re_sub_no_token (repl : string -> result string) (s : string) :
  ~ has_token s -> re_sub repl s = Ok s.
Proof.
  induction s as [|c s IH]; intros Hno; [reflexivity|].
  rewrite re_sub_copy.
  - rewrite IH; [reflexivity|].
    intros (pre & t & post & -> & Ht). apply Hno.
    exists (String c pre), t, post. split; [reflexivity | exact Ht].
  - apply no_token_prefix. intros t r Ht E. apply Hno.
    exists EmptyString, t, r. split; [exact E | exact Ht].
Qed.

Lemma has_token_b_spec (s : string) : has_token_b s = true <-> has_token s.
Proof.
  induction s as [|c s IH].
  - split; [discriminate|].
    intros (pre & t & post & E & Ht). exfalso.
    destruct pre; [|discriminate].
    destruct (is_token_shape t Ht) as [t' [-> _]]. discriminate.
  - cbn [has_token_b].
    destruct (match_here (String c s)) as [[t r]|] eqn:E.
    + split; [|reflexivity]. intros _.
      apply match_here_token in E as [Ht E].
      exists EmptyString, t, r. split; [exact E | exact Ht].
    + rewrite IH. split.
      * intros (pre & t & post & -> & Ht).
        exists (String c pre), t, post. split; [reflexivity | exact Ht].
      * intros (pre & t & post & Es & Ht).
        destruct pre as [|p pre].
        -- exfalso. simpl in Es.
           exact (proj1 (no_token_prefix c s) E t post Ht Es).
        -- simpl in Es. injection Es as _ ->.
           exists pre, t, post. split; [reflexivity | exact Ht].
Qed.

Lemma render_returns (repl : string -> result string) (ps : list piece) :
  (forall m, exists r, repl m = Ok r) -> exists out, render repl ps = Ok out.
Proof.
  intros Hr. induction ps as [|[c|t] ps [out IH]]; simpl.
  - eauto.
  - rewrite IH. simpl. eauto.
  - destruct (Hr t) as [r ->]. rewrite IH. simpl. eauto.
Qed.

Lemma re_sub_returns (repl : string -> result string) (s : string) :
  (forall m, exists r, repl m = Ok r) -> exists out, re_sub repl s = Ok out.
Proof.
  intros Hr. destruct (pieces_exist s) as [ps Hps].
  rewrite (re_sub_pieces repl s ps Hps). apply render_returns. exact Hr.
Qed.

(** ** Placeholder resolution *)

Section Placeholders.

Import DataSourceManager.

Variable sources : dict.

Lemma replace_match_returns (m : string) :
  exists r, replace_match sources m = Ok r.
Proof.
  unfold replace_match.
  destruct (get_returns sources (group1 m) (JStr empty_str)) as [v ->].
  simpl. eauto.
Qed.


Lemma resolve_placeholders_returns (text : json) :
  exists r, resolve_placeholders sources text = Ok r.
Proof.
  destruct text; simpl; eauto.
  destruct (re_sub_returns (replace_match sources) s replace_match_returns) as [out ->].
  simpl. eauto.
Qed.


(** C3. [resolve_placeholders] returns a value that is not a string as it
    is, and a string without a substring of the placeholder syntax as it
    is; applying it again to such a result changes nothing. *)
Theorem resolve_placeholders_identity :
  (forall v, (forall s, v <> JStr s) -> resolve_placeholders sources v = Ok v) /\
  (forall s, ~ has_token s ->
             resolve_placeholders sources (JStr s) = Ok (JStr s)) /\
  (forall v,
      (forall s, v = JStr s -> ~ has_token s) ->
      (r <- resolve_placeholders sources v ;; resolve_placeholders sources r)
      = resolve_placeholders sources v).
Proof.
  assert (H1 : forall v, (forall s, v <> JStr s) -> resolve_placeholders sources v = Ok v).
  { intros v Hv. destruct v; try reflexivity. exfalso. exact (Hv s eq_refl). }
  assert (H2 : forall s, ~ has_token s ->
                 resolve_placeholders sources (JStr s) = Ok (JStr s)).
  { intros s Hs. unfold resolve_placeholders.
    rewrite (re_sub_no_token _ s Hs). reflexivity. }
  split; [exact H1|]. split; [exact H2|].
  intros v Hv. destruct v; try reflexivity.
  rewrite (H2 s (Hv s eq_refl)). simpl bind. exact (H2 s (Hv s eq_refl)).
Qed.

(** C4. A string is cut from the left into single characters and
    tokens of the placeholder syntax.  [resolve_placeholders] replaces
    the tokens and copies every other character.  Every substring of the
    placeholder syntax is one of the tokens replaced, so two tokens with
    nothing between them are both replaced, and every piece replaced has
    the placeholder syntax. *)
Theorem resolve_placeholders_tokens (s : string) :
  exists ps,
    pieces s ps /\
    text_of ps = s /\
    resolve_placeholders sources (JStr s) =
      (out <- render (replace_match sources) ps ;; ret (JStr out)) /\
    (forall t, In (Token t) ps -> is_token t) /\
    (forall pre t post,
        s = pre ++ t ++ post -> is_token t ->
        exists ps1 ps2,
          ps = (ps1 ++ Token t :: ps2)%list /\
          text_of ps1 = pre /\ text_of ps2 = post) /\
    (forall pre t1 t2 post,
        s = pre ++ t1 ++ t2 ++ post -> is_token t1 -> is_token t2 ->
        exists ps1 ps2,
          ps = (ps1 ++ Token t1 :: Token t2 :: ps2)%list /\
          text_of ps1 = pre /\ text_of ps2 = post).
Proof.
  destruct (pieces_exist s) as [ps Hps]. exists ps.
  split; [exact Hps|].
  split; [exact (pieces_text_of s ps Hps)|].
  split.
  { unfold resolve_placeholders.
    rewrite (re_sub_pieces _ s ps Hps). reflexivity. }
  split.
  { clear - Hps. induction Hps; intros t' Hin; simpl in Hin.
    - contradiction.
    - destruct Hin as [E | Hin]; [injection E as <-; assumption | auto].
    - destruct Hin as [E | Hin]; [discriminate | auto]. }
  split.
  { intros pre t post Hs Ht.
    destruct (pieces_complete s ps Hps pre t post Hs Ht)
      as (ps1 & ps2 & E & Hp1 & Hp2).
    exists ps1, ps2. split; [exact E|].
    split; apply pieces_text_of; assumption. }
  intros pre t1 t2 post Hs Ht1 Ht2.
  destruct (pieces_complete s ps Hps pre t1 (t2 ++ post) Hs Ht1)
    as (ps1 & ps2 & E & Hp1 & Hp2).
  destruct (pieces_complete _ ps2 Hp2 EmptyString t2 post eq_refl Ht2)
    as (ps3 & ps4 & E' & Hp3 & Hp4).
  inversion Hp3; subst.
  - exists ps1, ps4. split; [reflexivity|].
    split; apply pieces_text_of; assumption.
  - exfalso. match goal with H : is_token ?t, E : ?t ++ _ = EmptyString |- _ =>
      apply (is_token_nonempty t H); destruct t; [reflexivity | discriminate] end.
Qed.

End Placeholders.


Lemma resolve_placeholders_identity_witness :
  DataSourceManager.resolve_placeholders
    [("user_input", JDict [("name", JStr "Ann")])]
    (JStr "Dear {client}, see { a.b } and {A.b}")
  = Ok (JStr "Dear {client}, see { a.b } and {A.b}").
Proof.
  apply (proj1 (proj2 (resolve_placeholders_identity
                         [("user_input", JDict [("name", JStr "Ann")])]))).
  intros H. apply has_token_b_spec in H. vm_compute in H. discriminate.
Defined.

(** ** Generation steps *)

Lemma gbind_ret_l {A B : Type} (a : A) (k : A -> gen B) :
  gbind (Ok (a, [])) k = k a.
Proof. unfold gbind. destruct (k a) as [[b out]|e]; reflexivity. Qed.

Lemma gbind_assoc {A B C : Type} (m : gen A) (k : A -> gen B) (h : B -> gen C) :
  gbind (gbind m k) h = gbind m (fun a => gbind (k a) h).
Proof.
  unfold gbind. destruct m as [[a out]|e]; [|reflexivity].
  destruct (k a) as [[b out']|e]; [|reflexivity].
  destruct (h b) as [[c out'']|e]; [|reflexivity].
  rewrite app_assoc. reflexivity.
Qed.

Lemma gbind_emit {B : Type} (n : node) (k : unit -> gen B) :
  gbind (emit n) k =
  match k tt with
  | Ok (b, out) => Ok (b, n :: out)
  | Raise e => Raise e
  end.
Proof. reflexivity. Qed.

Lemma for_each_app {A : Type} (l1 l2 : list A) (body : A -> gen unit) :
  for_each (l1 ++ l2)%list body = (for_each l1 body ;> for_each l2 body).
Proof.
  induction l1 as [|x l1 IH]; cbn [app for_each].
  - unfold skip, gret. rewrite gbind_ret_l. reflexivity.
  - rewrite IH, gbind_assoc. reflexivity.
Qed.

Section ContentItems.

Import DataSourceManager TemplateDocumentGenerator.

Variable sources : dict.

Lemma dget_dict (d : dict) (k : string) (default : json) :
  dget (JDict d) k default = Ok (field d k default, []).
Proof. unfold dget, field. simpl. destruct (dict_find k d); reflexivity. Qed.

Lemma eq_str_false (v : json) (s : string) :
  v <> JStr s -> eq_str v s = false.
Proof.
  intros H. destruct v; try reflexivity. simpl.
  apply String.eqb_neq. congruence.
Qed.

Lemma for_each_bullets (l : list json) :
  for_each l _add_bullet = Ok (tt, map bullet_node l).
Proof.
  induction l as [|v l IH]; [reflexivity|].
  simpl. rewrite IH. reflexivity.
Qed.

Lemma for_each_keys (m : dict) (ks : list string) :
  for_each (map JStr ks) (keyed_bullet m) = Ok (tt, bullets_for m ks).
Proof.
  induction ks as [|k ks IH]; [reflexivity|].
  cbn [map for_each bullets_for flat_map]. rewrite IH.
  unfold keyed_bullet, py_in_dict, py_getitem_dict, dict_mem, getitem_dict.
  destruct (dict_find k m) as [v|]; reflexivity.
Qed.

Lemma bullets_for_own_keys (m : dict) :
  NoDup (dict_keys m) ->
  bullets_for m (dict_keys m) = map (fun kv => bullet_node (snd kv)) m.
Proof.
  unfold bullets_for.
  assert (G : forall pre, NoDup (dict_keys m) ->
            (forall k, In k (dict_keys m) -> dict_find k pre = None) ->
            flat_map (fun k => match dict_find k (pre ++ m)%list with
                               | Some v => [bullet_node v]
                               | None => []
                               end) (dict_keys m)
            = map (fun kv => bullet_node (snd kv)) m).
  { induction m as [|[k v] m IH]; intros pre Hnd Hpre; [reflexivity|].
    simpl in Hnd. inversion Hnd as [|? ? Hnotin Hnd']; subst.
    cbn [dict_keys map fst flat_map snd].
    assert (Hk : dict_find k (pre ++ (k, v) :: m)%list = Some v).
    { assert (Hp := Hpre k (or_introl eq_refl)). clear - Hp.
      induction pre as [|[k' v'] pre IHp]; simpl in *.
      - rewrite String.eqb_refl. reflexivity.
      - destruct (String.eqb k' k); [discriminate | auto]. }
    rewrite Hk. simpl. f_equal.
    specialize (IH (pre ++ [(k, v)])%list Hnd').
    rewrite <- app_assoc in IH. simpl in IH. apply IH.
    intros k0 Hin.
    assert (Hp := Hpre k0 (or_intror Hin)).
    assert (Hne : k <> k0) by (intros ->; exact (Hnotin Hin)).
    clear - Hp Hne. induction pre as [|[k' v'] pre IHp]; simpl in *.
    - apply String.eqb_neq in Hne. rewrite Hne. reflexivity.
    - destruct (String.eqb k' k0); [discriminate | auto]. }
  intros Hnd. apply (G [] Hnd). reflexivity.
Qed.

(** C6. A content item whose [type] is none of [paragraph], [heading2],
    [bullet_list], [table] appends no node and raises nothing, and a list
    of items is processed as if the item were not in it. *)
Theorem unknown_item_type_skipped (d : dict) (ty : json) :
  dict_find "type" d = Some ty ->
  ty <> JStr "paragraph" ->
  ty <> JStr "heading2" ->
  ty <> JStr "bullet_list" ->
  ty <> JStr "table" ->
  _process_content_item sources (JDict d) = Ok (tt, []) /\
  forall before after,
    for_each (before ++ JDict d :: after)%list (_process_content_item sources)
    = for_each (before ++ after)%list (_process_content_item sources).
Proof.
  intros Hty H1 H2 H3 H4.
  assert (E : _process_content_item sources (JDict d) = Ok (tt, [])).
  { unfold _process_content_item. rewrite dget_dict, gbind_ret_l.
    unfold field. rewrite Hty.
    rewrite (eq_str_false _ _ H1), (eq_str_false _ _ H2),
            (eq_str_false _ _ H3), (eq_str_false _ _ H4).
    reflexivity. }
  split; [exact E|].
  intros before after. rewrite !for_each_app.
  cbn [for_each]. rewrite E, gbind_ret_l. reflexivity.
Qed.

(** C10. A content item without a [type] field is processed as a
    paragraph: its [text] (the empty string when absent) has its
    placeholders resolved and is appended after a blank line as a body
    paragraph, the same as with [type] set to [paragraph], and unlike an
    item of unknown type it does append nodes. *)
Theorem missing_item_type_is_paragraph (d : dict) :
  dict_find "type" d = None ->
  exists resolved,
    resolve_placeholders sources (field d "text" empty) = Ok resolved /\
    _process_content_item sources (JDict d)
      = Ok (tt, [Blank; Para Body resolved]) /\
    _process_content_item sources (JDict d)
      = _process_content_item sources (JDict (("type", JStr "paragraph") :: d)) /\
    _process_content_item sources (JDict d) <> Ok (tt, []).
Proof.
  intros Hty.
  destruct (resolve_placeholders_returns sources (field d "text" empty))
    as [resolved Hres].
  assert (E : _process_content_item sources (JDict d)
              = Ok (tt, [Blank; Para Body resolved])).
  { unfold _process_content_item. rewrite dget_dict, gbind_ret_l; cbv beta.
    unfold field at 1. rewrite Hty. cbn [eq_str String.eqb Ascii.eqb Bool.eqb].
    rewrite dget_dict, gbind_ret_l; cbv beta. rewrite Hres. reflexivity. }
  exists resolved. split; [exact Hres|]. split; [exact E|]. split.
  - assert (F : field (("type", JStr "paragraph") :: d) "text" empty
                = field d "text" empty) by reflexivity.
    rewrite E. unfold _process_content_item. rewrite dget_dict, gbind_ret_l; cbv beta.
    unfold field at 1. cbn [dict_find String.eqb Ascii.eqb Bool.eqb eq_str].
    rewrite dget_dict, gbind_ret_l; cbv beta.
    rewrite F, Hres. reflexivity.
  - rewrite E. discriminate.
Qed.

(** C5. A [bullet_list] item with a non-empty [source] path appends a
    blank line and then: for a sequence, one bullet per element in order;
    for a mapping, one bullet per key of the item's [keys] in that order,
    or of the mapping's own keys in their order when the item has no
    [keys], a key the mapping lacks giving no bullet; for any other
    value, no bullet. *)
Theorem bullet_list_item (d : dict) (path : string) :
  dict_find "type" d = Some (JStr "bullet_list") ->
  dict_find "source" d = Some (JStr path) ->
  path <> EmptyString ->
  (forall l,
      get sources path empty = Ok (JList l) ->
      _process_content_item sources (JDict d)
        = Ok (tt, Blank :: map bullet_node l) /\
      length (filter is_bullet (Blank :: map bullet_node l)) = length l) /\
  (forall m,
      get sources path empty = Ok (JDict m) ->
      (forall ks,
          dict_find "keys" d = Some (JList (map JStr ks)) ->
          _process_content_item sources (JDict d)
            = Ok (tt, Blank :: bullets_for m ks)) /\
      (dict_find "keys" d = None ->
       _process_content_item sources (JDict d)
         = Ok (tt, Blank :: bullets_for m (dict_keys m)) /\
       (NoDup (dict_keys m) ->
        bullets_for m (dict_keys m) = map (fun kv => bullet_node (snd kv)) m))) /\
  (forall v,
      get sources path empty = Ok v ->
      (forall l, v <> JList l) -> (forall m, v <> JDict m) ->
      _process_content_item sources (JDict d) = Ok (tt, [Blank])).
Proof.
  intros Hty Hsrc Hne.
  assert (Htruthy : truthy (JStr path) = true).
  { simpl. apply negb_true_iff. apply String.eqb_neq. exact Hne. }
  assert (E : _process_content_item sources (JDict d) =
              (add_paragraph0 ;>
               data <~ data_get sources (JStr path) ;;
               match data with
               | JList l => for_each l _add_bullet
               | JDict m =>
                   keys <~ dget (JDict d) "keys" (JList (map JStr (dict_keys m))) ;;
                   ks <~ lift (py_iter keys) ;;
                   for_each ks (keyed_bullet m)
               | _ => skip
               end)).
  { unfold _process_content_item. rewrite dget_dict, gbind_ret_l; cbv beta.
    unfold field. rewrite Hty.
    cbn [eq_str String.eqb Ascii.eqb Bool.eqb].
    rewrite dget_dict, gbind_ret_l; cbv beta. unfold field. rewrite Hsrc, Htruthy.
    reflexivity. }
  rewrite E. unfold add_paragraph0, data_get. rewrite gbind_emit.
  split; [|split].
  - intros l Hg. rewrite Hg. cbn [lift]. rewrite gbind_ret_l; cbv beta. rewrite for_each_bullets.
    split; [reflexivity|].
    cbn [filter is_bullet]. clear. induction l; simpl; congruence.
  - intros m Hg. rewrite Hg. cbn [lift]. rewrite gbind_ret_l; cbv beta.
    split.
    + intros ks Hk. rewrite dget_dict, gbind_ret_l; cbv beta. unfold field. rewrite Hk.
      cbn [py_iter lift]. rewrite gbind_ret_l; cbv beta. rewrite for_each_keys. reflexivity.
    + intros Hk. split; [|apply bullets_for_own_keys].
      rewrite dget_dict, gbind_ret_l; cbv beta. unfold field. rewrite Hk.
      cbn [py_iter lift]. rewrite gbind_ret_l; cbv beta. rewrite for_each_keys. reflexivity.
  - intros v Hg Hl Hm. rewrite Hg. cbn [lift]. rewrite gbind_ret_l; cbv beta.
    destruct v; try reflexivity.
    + exfalso. exact (Hl _ eq_refl).
    + exfalso. exact (Hm _ eq_refl).
Qed.

End ContentItems.

Lemma bullet_list_item_witness :
  TemplateDocumentGenerator._process_content_item
    [("cfr", JDict [("items", JList [JStr "a"; JStr "b"; JStr "c"])])]
    (JDict [("type", JStr "bullet_list"); ("source", JStr "cfr.items")])
  = Ok (tt, Blank :: map bullet_node [JStr "a"; JStr "b"; JStr "c"]).
Proof.
  apply (proj1 (bullet_list_item
                  [("cfr", JDict [("items", JList [JStr "a"; JStr "b"; JStr "c"])])]
                  [("type", JStr "bullet_list"); ("source", JStr "cfr.items")]
                  "cfr.items" eq_refl eq_refl ltac:(discriminate))
               [JStr "a"; JStr "b"; JStr "c"]).
  reflexivity.
Defined.

Lemma unknown_item_type_skipped_witness :
  TemplateDocumentGenerator._process_content_item
    [("cfr", JDict [])]
    (JDict [("type", JStr "image"); ("text", JStr "logo")])
  = Ok (tt, []).
Proof.
  apply (unknown_item_type_skipped
           [("cfr", JDict [])]
           [("type", JStr "image"); ("text", JStr "logo")] (JStr "image")).
  - reflexivity.
  - discriminate.
  - discriminate.
  - discriminate.
  - discriminate.
Defined.

Lemma missing_item_type_is_paragraph_witness :
  exists resolved,
    DataSourceManager.resolve_placeholders
      [("user_input", JDict [("name", JStr "Ann")])]
      (field [("text", JStr "Hello {user_input.name}")] "text" empty)
      = Ok resolved /\
    TemplateDocumentGenerator._process_content_item
      [("user_input", JDict [("name", JStr "Ann")])]
      (JDict [("text", JStr "Hello {user_input.name}")])
      = Ok (tt, [Blank; Para Body resolved]) /\
    TemplateDocumentGenerator._process_content_item
      [("user_input", JDict [("name", JStr "Ann")])]
      (JDict [("text", JStr "Hello {user_input.name}")])
      = TemplateDocumentGenerator._process_content_item
          [("user_input", JDict [("name", JStr "Ann")])]
          (JDict [("type", JStr "paragraph");
                  ("text", JStr "Hello {user_input.name}")]) /\
    TemplateDocumentGenerator._process_content_item
      [("user_input", JDict [("name", JStr "Ann")])]
      (JDict [("text", JStr "Hello {user_input.name}")])
      <> Ok (tt, []).
Proof.
  apply (missing_item_type_is_paragraph
           [("user_input", JDict [("name", JStr "Ann")])]
           [("text", JStr "Hello {user_input.name}")]).
  reflexivity.
Defined.

(** ** Table builders *)

Lemma completes_raise {A : Type} (e : exn) : ~ completes (@Raise (A * list node) e).
Proof. intros (a & out & H). discriminate. Qed.

Section Tables.

Import DataSourceManager TemplateDocumentGenerator.

Variable sources : dict.

Lemma source_field (name : string) :
  source sources name = Ok (field sources name empty_dict, []).
Proof. unfold source. fold (dget (JDict sources) name empty_dict). apply dget_dict. Qed.

Lemma dget_not_dict {B : Type} (v : json) (k : string) (default : json)
    (f : json -> gen B) :
  (forall d, v <> JDict d) -> gbind (dget v k default) f = Raise AttributeError.
Proof.
  intros H. destruct v; try reflexivity. exfalso. exact (H _ eq_refl).
Qed.

(** A step [x <~ dget v k default ;; f x] that completes reads a mapping. *)
Lemma dget_completes_inv {B : Type} (v : json) (k : string) (default : json)
    (f : json -> gen B) :
  completes (gbind (dget v k default) f) ->
  exists d, v = JDict d /\
            gbind (dget v k default) f = f (field d k default) /\
            completes (f (field d k default)).
Proof.
  intros H. destruct v;
    try (exfalso; rewrite dget_not_dict in H by (intros; discriminate);
         exact (completes_raise _ H)).
  exists d. rewrite dget_dict, gbind_ret_l in *. auto.
Qed.

Lemma lacks_field (src sec key : string) (u o : dict) :
  lacks sources src sec key ->
  field sources src empty_dict = JDict u ->
  field u sec empty_dict = JDict o ->
  dict_find key o = None.
Proof.
  unfold lacks, field, empty_dict. intros Hl Hu Ho.
  destruct (dict_find src sources) as [x|] eqn:Ex.
  - subst x. destruct (dict_find sec u) as [y|] eqn:Ey.
    + subst y. exact (Hl u o eq_refl Ey).
    + injection Ho as <-. reflexivity.
  - injection Hu as <-. simpl in Ho. injection Ho as <-. reflexivity.
Qed.

End Tables.

(** Take one [dget] step of a builder that completes, in the hypothesis
    and in the goal. *)
Ltac dget_step H :=
  let d := fresh "d" in
  let E := fresh "E" in
  let H' := fresh "H" in
  apply dget_completes_inv in H as (d & E & -> & H');
  cbv beta in H';
  try (injection E as <-);
  rename H' into H.

Ltac table_step H :=
  lazymatch type of H with
  | completes (gbind (Ok (_, [])) _) =>
      rewrite gbind_ret_l in H; rewrite gbind_ret_l; cbv beta in H |- *
  | completes (gbind (TemplateDocumentGenerator.dget _ _ _) _) => dget_step H
  end.

Section TableFallbacks.

Import DataSourceManager TemplateDocumentGenerator.

Variable sources : dict.

(** C7. In the pension-arrangements table the Proposed Action cell of
    the Scottish Widows row is [Transfer] and that of the Aviva row is
    [None] when [user_input.part1_objectives] lacks the key of the cell.
    In the recommendation table the Transfer/Redirection cell is
    [Transfer] and the Indexation cell is [None] always, and the Regular
    Contribution cell is [None] when [user_input.part2_recommendation]
    lacks [regular_contribution]. *)
Theorem table_fallbacks :
  (completes (_add_pension_arrangements_table sources) ->
   exists rows,
     _add_pension_arrangements_table sources =
       Ok (tt, [Table false
                  ["Provider Type of Plan / Plan Number"; "Current Value";
                   "Transfer Value"; "Ongoing Contribution"; "Proposed Action"]
                  rows]) /\
     length rows = 3 /\
     (lacks sources "user_input" "part1_objectives" "scottish_widows_proposed_action" ->
      cell rows 1 4 = Some "Transfer") /\
     (lacks sources "user_input" "part1_objectives" "aviva_proposed_action" ->
      cell rows 2 4 = Some "None")) /\
  (completes (_add_recommendation_table sources) ->
   exists rows,
     _add_recommendation_table sources =
       Ok (tt, [Table false
                  ["Source"; "Transfer/Redirection"; "Lump Sum Amount";
                   "Regular Contribution"; "Indexation"]
                  rows]) /\
     length rows = 1 /\
     cell rows 0 1 = Some "Transfer" /\
     cell rows 0 4 = Some "None" /\
     (lacks sources "user_input" "part2_recommendation" "regular_contribution" ->
      cell rows 0 3 = Some "None")).
Proof.
  split.
  - intros H. unfold _add_pension_arrangements_table in *.
    rewrite ?source_field in *.
    do 30 (try table_step H).
    eexists. split; [reflexivity|]. split; [reflexivity|].
    split; intros Hl; unfold cell; cbn [nth_error map].
    + unfold field at 1.
      rewrite (lacks_field sources _ _ _ _ _ Hl E0 E13). reflexivity.
    + unfold field at 1.
      rewrite (lacks_field sources _ _ _ _ _ Hl E0 E19). reflexivity.
  - intros H. unfold _add_recommendation_table in *.
    rewrite ?source_field in *.
    do 12 (try table_step H).
    eexists. split; [reflexivity|]. split; [reflexivity|].
    split; [reflexivity|]. split; [reflexivity|].
    intros Hl. unfold cell. cbn [nth_error map].
    unfold field at 1.
    match goal with
    | Eu : field sources "user_input" empty_dict = JDict ?u,
      Eo : field ?u "part2_recommendation" empty_dict = JDict ?o
      |- context [dict_find "regular_contribution" ?o] =>
        rewrite (lacks_field sources _ _ _ _ _ Hl Eu Eo)
    end.
    reflexivity.
Qed.

End TableFallbacks.

Lemma table_fallbacks_witness :
  exists rows,
    TemplateDocumentGenerator._add_pension_arrangements_table
      [("cfr", JDict [("pension_arrangements",
                       JDict [("aviva", JDict [("provider_plan", JStr "Aviva PP")])])]);
       ("user_input", JDict [("part1_objectives", JDict [])])] =
      Ok (tt, [Table false
                 ["Provider Type of Plan / Plan Number"; "Current Value";
                  "Transfer Value"; "Ongoing Contribution"; "Proposed Action"]
                 rows]) /\
    length rows = 3 /\
    cell rows 1 4 = Some "Transfer" /\
    cell rows 2 4 = Some "None".
Proof.
  destruct (proj1 (table_fallbacks
      [("cfr", JDict [("pension_arrangements",
                       JDict [("aviva", JDict [("provider_plan", JStr "Aviva PP")])])]);
       ("user_input", JDict [("part1_objectives", JDict [])])]))
    as (rows & E & Hlen & Hsw & Hav).
  - eexists. eexists. vm_compute. reflexivity.
  - exists rows. split; [exact E|]. split; [exact Hlen|]. split.
    + apply Hsw. intros u o Hu Ho.
      vm_compute in Hu. injection Hu as <-.
      vm_compute in Ho. injection Ho as <-. reflexivity.
    + apply Hav. intros u o Hu Ho.
      vm_compute in Hu. injection Hu as <-.
      vm_compute in Ho. injection Ho as <-. reflexivity.
Defined.

(** ** Absent data never makes the walk raise *)







Section Absence.

Import DataSourceManager TemplateDocumentGenerator.








Lemma dict_find_keys (k : string) (d : dict) :
  In k (dict_keys d) <-> exists x, dict_find k d = Some x.
Proof.
  induction d as [|[k0 v0] d IH]; simpl.
  - split; [contradiction | intros [x H]; discriminate].
  - destruct (String.eqb_spec k0 k) as [->|Hne].
    + split; [eauto | auto].
    + rewrite <- IH. split; [intros [H|H]; [contradiction | exact H] | auto].
Qed.








End Absence.

Section AbsenceWalk.

Import DataSourceManager TemplateDocumentGenerator.




End AbsenceWalk.






Section AbsenceTables.

Import DataSourceManager TemplateDocumentGenerator.

Variables sources' sources : dict.
Hypothesis Habsent : absent_from sources' sources.







End AbsenceTables.


Section AbsenceLoops.

Import DataSourceManager TemplateDocumentGenerator.












End AbsenceLoops.




Section AbsenceItems.

Import DataSourceManager TemplateDocumentGenerator.

Variables sources' sources : dict.
Hypothesis Habsent : absent_from sources' sources.






End AbsenceItems.



Section AbsencePhases.

Import DataSourceManager TemplateDocumentGenerator.

Variable template : json.
Variables sources' sources : dict.
Hypothesis Habsent : absent_from sources' sources.











End AbsencePhases.

Lemma absent_all_missing (names : list string) (sources : dict) :
  absent_from (all_missing names) sources.
Proof.
  intros name v' H. left.
  induction names as [|n names IH]; simpl in H; [discriminate|].
  destruct (String.eqb n name); [congruence | auto].
Qed.




(** * Further properties of the generator *)

Section MoreLookups.

Import DataSourceManager.

Lemma get_loop_not_none (default v r : json) (parts : list string) :
  get_loop default v parts = Ok r -> r = default \/ is_none r = false.
Proof.
  revert v. induction parts as [|part rest IH]; intros v H.
  - simpl in H. injection H as <-.
    destruct (is_none v) eqn:E; [left; reflexivity | right; exact E].
  - cbn [get_loop] in H. destruct v; try (injection H as <-; left; reflexivity).
    + destruct (py_int_cases part) as [[i Hi] | Hi]; rewrite Hi in H; simpl bind in H.
      * destruct (getitem_list l i) as [x|e].
        -- exact (IH x H).
        -- destruct e; try discriminate; injection H as <-; left; reflexivity.
      * injection H as <-. left. reflexivity.
    + unfold dict_mem, getitem_dict in H.
      destruct (dict_find part d) as [x|].
      * simpl in H. exact (IH x H).
      * injection H as <-. left. reflexivity.
Qed.

(** X1. [get] hands back [None] only when the caller's default is [None]:
    with any other default the result is never null. *)
Theorem get_never_none (sources : dict) (path : string) (default : json) :
  default <> JNull -> get sources path default <> Ok JNull.
Proof.
  intros Hd H.
  assert (G : JNull = default \/ is_none JNull = false).
  { unfold get in H.
    destruct (length (split_on dot path) <? 2)%nat.
    - injection H as H. left. symmetry. exact H.
    - destruct (split_on dot path) as [|src rest]; [discriminate|].
      destruct (negb (dict_mem src sources)).
      + injection H as H. left. symmetry. exact H.
      + destruct (getitem_dict sources src) as [v0|e]; [|discriminate].
        simpl in H. exact (get_loop_not_none default v0 JNull rest H). }
  destruct G as [G | G]; [congruence | discriminate].
Qed.

End MoreLookups.

Lemma get_never_none_witness :
  DataSourceManager.get
    [("cfr", JDict [("plan", JNull)])] "cfr.plan" (JStr "n/a") <> Ok JNull.
Proof.
  apply (get_never_none [("cfr", JDict [("plan", JNull)])] "cfr.plan" (JStr "n/a")).
  discriminate.
Defined.

Section MorePlaceholders.

Import DataSourceManager.

Lemma render_tokens_kept (repl : string -> result string) (s : string) (ps : list piece) :
  pieces s ps ->
  (forall t, is_token t -> repl t = Ok t) ->
  render repl ps = Ok s.
Proof.
  intros Hps Hr. induction Hps as [| t rest ps Ht _ IH | c rest ps _ _ IH]; simpl.
  - reflexivity.
  - rewrite (Hr t Ht), IH. reflexivity.
  - rewrite IH. reflexivity.
Qed.

Lemma get_all_missing (names : list string) (path : string) (default : json) :
  get (all_missing names) path default = Ok default.
Proof.
  destruct (split_on dot path) as [|src rest] eqn:Hs.
  { unfold get. rewrite Hs. reflexivity. }
  destruct rest as [|seg rest].
  { unfold get. rewrite Hs. reflexivity. }
  rewrite (get_split _ path src (seg :: rest) default Hs) by discriminate.
  destruct (dict_find src (all_missing names)) as [v|] eqn:E; [|reflexivity].
  destruct (absent_all_missing names [] src v E) as [-> | (x & Hx & _)].
  - reflexivity.
  - discriminate.
Qed.

(** X2. [resolve_placeholders] never raises, and it gives a string for a
    string.  When every lookup of the sources is falsy, as when every
    source is an empty mapping, it returns every text as it is, tokens
    included. *)
Theorem resolve_placeholders_total (sources : dict) (text : json) :
  (exists r, resolve_placeholders sources text = Ok r /\
             (forall s, text = JStr s -> exists s', r = JStr s')) /\
  ((forall path v, get sources path empty = Ok v -> truthy v = false) ->
   resolve_placeholders sources text = Ok text) /\
  (forall names, resolve_placeholders (all_missing names) text = Ok text).
Proof.
  assert (Hfalsy : forall src,
             (forall path v, get src path empty = Ok v -> truthy v = false) ->
             resolve_placeholders src text = Ok text).
  { intros src Hf. destruct text; try reflexivity.
    unfold resolve_placeholders.
    destruct (pieces_exist s) as [ps Hps].
    rewrite (re_sub_pieces _ s ps Hps).
    rewrite (render_tokens_kept _ s ps Hps); [reflexivity|].
    intros t _. unfold replace_match.
    destruct (get_returns src (group1 t) (JStr empty_str)) as [v Hv].
    rewrite Hv. simpl. rewrite (Hf _ _ Hv). reflexivity. }
  split; [|split].
  - destruct text; try (eexists; split; [reflexivity | intros ? ?; discriminate]).
    unfold resolve_placeholders.
    destruct (re_sub_returns (replace_match sources) s (replace_match_returns sources))
      as [out ->].
    exists (JStr out). split; [reflexivity|]. intros _ _. exists out. reflexivity.
  - apply Hfalsy.
  - intros names. apply Hfalsy. intros path v Hv.
    unfold empty in Hv. rewrite get_all_missing in Hv. injection Hv as <-. reflexivity.
Qed.

End MorePlaceholders.

Lemma resolve_placeholders_total_witness :
  DataSourceManager.resolve_placeholders
    [("user_input", JDict [("count", JInt 0); ("note", JStr empty_str)])]
    (JStr "Count {user_input.count}, note {user_input.note}")
  = Ok (JStr "Count {user_input.count}, note {user_input.note}").
Proof.
  apply (proj1 (proj2 (resolve_placeholders_total
           [("user_input", JDict [("count", JInt 0); ("note", JStr empty_str)])]
           (JStr "Count {user_input.count}, note {user_input.note}")))).
  intros path v H.
  destruct (split_on dot path) as [|src rest] eqn:Hs.
  { unfold DataSourceManager.get in H. rewrite Hs in H. injection H as <-. reflexivity. }
  destruct rest as [|seg rest].
  { unfold DataSourceManager.get in H. rewrite Hs in H. injection H as <-. reflexivity. }
  rewrite (get_split _ path src (seg :: rest) empty Hs) in H by discriminate.
  cbn [dict_find] in H.
  destruct (String.eqb "user_input" src); [|injection H as <-; reflexivity].
  cbn [DataSourceManager.get_loop] in H.
  unfold dict_mem, getitem_dict in H. cbn [dict_find] in H.
  destruct (String.eqb "count" seg).
  - simpl in H. destruct rest; simpl in H; injection H as <-; reflexivity.
  - destruct (String.eqb "note" seg).
    + simpl in H. destruct rest; simpl in H; injection H as <-; reflexivity.
    + injection H as <-. reflexivity.
Defined.

Section MoreItems.

Import DataSourceManager TemplateDocumentGenerator.

Variable sources : dict.

(** X3. The address loop of the letter appends one body paragraph per
    address line whose value is truthy, in the order of the keys, and
    nothing for a line that is missing, empty or otherwise falsy. *)
Theorem address_lines_truthy (d : dict) (keys : list string) :
  for_each keys (address_line (JDict d)) =
  Ok (tt, map (Para Body) (filter truthy (map (fun k => field d k JNull) keys))).
Proof.
  induction keys as [|k keys IH]; [reflexivity|].
  cbn [for_each map filter]. rewrite IH. unfold address_line.
  rewrite dget_dict, gbind_ret_l.
  destruct (truthy (field d k JNull)).
  - rewrite gbind_ret_l. reflexivity.
  - reflexivity.
Qed.

(** X4. A [bullet_list] item whose [source] is missing or falsy and a
    [table] item whose [table_id] names neither built table still append
    their blank paragraph, and nothing else. *)
Theorem item_with_nothing_to_add (d : dict) :
  (dict_find "type" d = Some (JStr "bullet_list") ->
   truthy (field d "source" empty) = false ->
   _process_content_item sources (JDict d) = Ok (tt, [Blank])) /\
  (dict_find "type" d = Some (JStr "table") ->
   field d "table_id" empty <> JStr "pension_arrangements" ->
   field d "table_id" empty <> JStr "recommendation_table" ->
   _process_content_item sources (JDict d) = Ok (tt, [Blank])).
Proof.
  split.
  - intros Hty Hsrc. unfold _process_content_item.
    rewrite dget_dict, gbind_ret_l; cbv beta. unfold field at 1 2 3 4. rewrite Hty.
    cbn [eq_str String.eqb Ascii.eqb Bool.eqb].
    rewrite dget_dict, gbind_ret_l; cbv beta. rewrite Hsrc. reflexivity.
  - intros Hty H1 H2. unfold _process_content_item.
    rewrite dget_dict, gbind_ret_l; cbv beta. unfold field at 1 2 3 4. rewrite Hty.
    cbn [eq_str String.eqb Ascii.eqb Bool.eqb].
    rewrite dget_dict, gbind_ret_l; cbv beta.
    rewrite (eq_str_false _ _ H1), (eq_str_false _ _ H2). reflexivity.
Qed.

(** X5. Malformed content items raise [AttributeError]: an item that is
    not a mapping, and a [bullet_list] item whose [source] is truthy but
    not a string. *)
Theorem malformed_item_raises (item : json) :
  ((forall d, item <> JDict d) ->
   _process_content_item sources item = Raise AttributeError) /\
  (forall d src,
      item = JDict d ->
      dict_find "type" d = Some (JStr "bullet_list") ->
      dict_find "source" d = Some src ->
      truthy src = true ->
      (forall s, src <> JStr s) ->
      _process_content_item sources item = Raise AttributeError).
Proof.
  split.
  - intros H. unfold _process_content_item. apply dget_not_dict. exact H.
  - intros d src -> Hty Hsrc Ht Hs. unfold _process_content_item.
    rewrite dget_dict, gbind_ret_l; cbv beta. unfold field at 1 2 3 4. rewrite Hty.
    cbn [eq_str String.eqb Ascii.eqb Bool.eqb].
    rewrite dget_dict, gbind_ret_l; cbv beta. unfold field. rewrite Hsrc, Ht.
    destruct src; try reflexivity. exfalso. exact (Hs _ eq_refl).
Qed.

Lemma fund_rows_mappings (funds : list dict) :
  fund_rows (map JDict funds) =
  Ok (map (fun f => [field f "category" empty; field f "fund_selection" empty;
                     field f "fund_type" empty; field f "risk_profile" empty;
                     field f "percentage" empty]) funds, []).
Proof.
  induction funds as [|f funds IH]; [reflexivity|].
  cbn [map fund_rows]. rewrite IH. unfold fund_row.
  rewrite !dget_dict. reflexivity.
Qed.

(** X6. The fund-selection table has one data row per entry of
    [user_input.fund_selection.table], in the order of the entries, each
    row holding the five fields of its fund in the order of the columns. *)
Theorem fund_selection_rows (u fs : dict) (funds : list dict) :
  dict_find "user_input" sources = Some (JDict u) ->
  dict_find "fund_selection" u = Some (JDict fs) ->
  dict_find "table" fs = Some (JList (map JDict funds)) ->
  _add_fund_selection_table sources =
    Ok (tt, [Table false
               ["Category"; "Fund Selection"; "Fund Type"; "Risk Profile";
                "Percentage of investment"]
               (map fund_cells funds)]) /\
  length (map fund_cells funds) = length funds.
Proof.
  intros Hu Hfs Ht. split; [|apply length_map].
  unfold _add_fund_selection_table.
  rewrite source_field, gbind_ret_l; cbv beta. unfold field at 1. rewrite Hu.
  rewrite dget_dict, gbind_ret_l; cbv beta. unfold field at 1. rewrite Hfs.
  rewrite dget_dict, gbind_ret_l; cbv beta. unfold field at 1. rewrite Ht.
  cbn [py_iter lift]. rewrite gbind_ret_l; cbv beta.
  rewrite fund_rows_mappings, gbind_ret_l; cbv beta.
  unfold _create_table, fund_cells. rewrite map_map. reflexivity.
Qed.

End MoreItems.

Lemma item_with_nothing_to_add_witness :
  TemplateDocumentGenerator._process_content_item
    [("cfr", JDict [])]
    (JDict [("type", JStr "table"); ("table_id", JStr "fund_selection")])
  = Ok (tt, [Blank]).
Proof.
  apply (proj2 (item_with_nothing_to_add
                  [("cfr", JDict [])]
                  [("type", JStr "table"); ("table_id", JStr "fund_selection")])).
  - reflexivity.
  - discriminate.
  - discriminate.
Defined.

Lemma malformed_item_raises_witness :
  TemplateDocumentGenerator._process_content_item
    [("cfr", JDict [])] (JStr "a line of text") = Raise AttributeError.
Proof.
  apply (proj1 (malformed_item_raises [("cfr", JDict [])] (JStr "a line of text"))).
  intros d. discriminate.
Defined.

Lemma fund_selection_rows_witness :
  TemplateDocumentGenerator._add_fund_selection_table
    [("user_input",
      JDict [("fund_selection",
              JDict [("table",
                      JList (map JDict
                        [[("category", JStr "Equity"); ("percentage", JInt 60)];
                         [("category", JStr "Bond"); ("percentage", JInt 0)]]))])])]
  = Ok (tt, [Table false
               ["Category"; "Fund Selection"; "Fund Type"; "Risk Profile";
                "Percentage of investment"]
               (map fund_cells
                  [[("category", JStr "Equity"); ("percentage", JInt 60)];
                   [("category", JStr "Bond"); ("percentage", JInt 0)]])]) /\
  length (map fund_cells
            [[("category", JStr "Equity"); ("percentage", JInt 60)];
             [("category", JStr "Bond"); ("percentage", JInt 0)]]) = 2.
Proof.
  apply (fund_selection_rows
           [("user_input",
             JDict [("fund_selection",
                     JDict [("table",
                             JList (map JDict
                               [[("category", JStr "Equity"); ("percentage", JInt 60)];
                                [("category", JStr "Bond"); ("percentage", JInt 0)]]))])])]
           [("fund_selection",
             JDict [("table",
                     JList (map JDict
                       [[("category", JStr "Equity"); ("percentage", JInt 60)];
                        [("category", JStr "Bond"); ("percentage", JInt 0)]]))])]
           [("table",
             JList (map JDict
               [[("category", JStr "Equity"); ("percentage", JInt 60)];
                [("category", JStr "Bond"); ("percentage", JInt 0)]]))]
           [[("category", JStr "Equity"); ("percentage", JInt 60)];
            [("category", JStr "Bond"); ("percentage", JInt 0)]]).
  - reflexivity.
  - reflexivity.
  - reflexivity.
Defined.

(** ** What the walk can raise, and the tables it builds *)

Lemma safe_bind {A B : Type} (Q : A -> Prop) (R : B -> Prop)
    (m : gen A) (k : A -> gen B) :
  safe Q m -> (forall a, Q a -> safe R (k a)) -> safe R (gbind m k).
Proof.
  unfold safe, gbind. intros Hm Hk.
  destruct m as [[a out]|e]; [|exact Hm].
  destruct Hm as [Ha Hout]. specialize (Hk a Ha).
  destruct (k a) as [[b out']|e]; [|exact Hk].
  destruct Hk as [Hb Hout']. split; [exact Hb|].
  apply Forall_app. split; assumption.
Qed.

Lemma safe_any {A : Type} (Q : A -> Prop) (m : gen A) : safe Q m -> safe any m.
Proof.
  unfold safe. destruct m as [[a out]|e]; [|auto].
  intros [_ H]. split; [exact I | exact H].
Qed.

Lemma safe_lift_ok {A : Type} (r : result A) :
  (exists a, r = Ok a) -> safe any (lift r).
Proof. intros [a ->]. simpl. split; [exact I | constructor]. Qed.

Lemma safe_emit (n : node) : table_ok n -> safe any (emit n).
Proof. intros H. simpl. split; [exact I|]. constructor; [exact H | constructor]. Qed.

Lemma safe_gret {A : Type} (a : A) : safe any (gret a).
Proof. simpl. split; [exact I | constructor]. Qed.

Lemma safe_for_each {A : Type} (l : list A) (body : A -> gen unit) :
  (forall x, safe any (body x)) -> safe any (for_each l body).
Proof.
  intros H. induction l as [|x l IH]; cbn [for_each].
  - apply safe_gret.
  - apply (safe_bind any any); [apply H | intros _ _; exact IH].
Qed.

Section SafeSteps.

Import DataSourceManager TemplateDocumentGenerator.

Lemma safe_dget (v : json) (k : string) (d : json) : safe any (dget v k d).
Proof.
  destruct v; try (left; reflexivity).
  rewrite dget_dict. apply safe_gret.
Qed.

Lemma safe_source (sources : dict) (name : string) : safe any (source sources name).
Proof. rewrite source_field. apply safe_gret. Qed.

Lemma safe_data_get (sources : dict) (p : json) : safe any (data_get sources p).
Proof.
  destruct p; try (left; reflexivity).
  unfold data_get. apply safe_lift_ok. apply get_returns.
Qed.

Lemma safe_iter (v : json) : safe any (lift (py_iter v)).
Proof.
  destruct v; try (right; reflexivity); apply safe_lift_ok; simpl; eauto.
Qed.

Lemma safe_resolve (sources : dict) (text : json) :
  safe any (lift (resolve_placeholders sources text)).
Proof. apply safe_lift_ok. apply resolve_placeholders_returns. Qed.

Lemma safe_para (st : style) (text : json) : safe any (emit (Para st text)).
Proof. apply safe_emit. exact I. Qed.

Lemma safe_create_table (columns : list string) (rows : list (list json)) (hv : bool) :
  Forall (fun row => length row = length columns) rows ->
  safe any (_create_table columns rows hv).
Proof.
  intros H. apply safe_emit. simpl.
  induction H as [|row rows Hrow _ IH]; constructor.
  - rewrite length_map. exact Hrow.
  - exact IH.
Qed.

(** The guard [key in data] keeps [data[key]] from raising. *)
Lemma safe_keyed_bullet (d : dict) (key : json) : safe any (keyed_bullet d key).
Proof.
  unfold keyed_bullet, py_in_dict, py_getitem_dict, dict_mem, getitem_dict.
  destruct key; try (simpl; split; [exact I | constructor]);
    try (right; reflexivity).
  destruct (dict_find s d); simpl; split; try exact I; repeat constructor.
Qed.

Lemma safe_bullets (l : list json) : safe any (for_each l _add_bullet).
Proof. apply safe_for_each. intros x. apply safe_para. Qed.

End SafeSteps.

Ltac safe_leaf :=
  idtac;
  lazymatch goal with
  | |- safe _ (TemplateDocumentGenerator.dget _ _ _) => apply safe_dget
  | |- safe _ (TemplateDocumentGenerator.source _ _) => apply safe_source
  | |- safe _ (TemplateDocumentGenerator.data_get _ _) => apply safe_data_get
  | |- safe _ (lift (py_iter _)) => apply safe_iter
  | |- safe _ (lift (DataSourceManager.resolve_placeholders _ _)) => apply safe_resolve
  | |- safe _ (emit (Para _ _)) => apply safe_para
  | |- safe _ (emit _) => apply safe_emit; exact I
  | |- safe _ (TemplateDocumentGenerator.add_paragraph0) => apply safe_emit; exact I
  | |- safe _ (TemplateDocumentGenerator.add_page_break) => apply safe_emit; exact I
  | |- safe _ (TemplateDocumentGenerator._add_paragraph _) => apply safe_para
  | |- safe _ (TemplateDocumentGenerator._add_heading1 _) => apply safe_para
  | |- safe _ (TemplateDocumentGenerator._add_heading2 _) => apply safe_para
  | |- safe _ (TemplateDocumentGenerator._add_bullet _) => apply safe_para
  | |- safe _ (TemplateDocumentGenerator._create_table _ _ _) =>
      apply safe_create_table; repeat constructor
  | |- safe _ (skip) => apply safe_gret
  | |- safe _ (gret _) => apply safe_gret
  | |- safe _ (for_each _ TemplateDocumentGenerator._add_bullet) => apply safe_bullets
  | |- safe _ (for_each _ (TemplateDocumentGenerator.keyed_bullet _)) =>
      apply safe_for_each; intros ?; apply safe_keyed_bullet
  end.

Ltac safe_walk step :=
  repeat lazymatch goal with
    | |- safe _ (gbind _ _) =>
        eapply safe_bind; [first [safe_leaf | step] | intros ? _]
    | |- safe _ (if ?c then _ else _) => destruct c
    | |- safe _ (match ?v with JNull => _ | _ => _ end) => destruct v
    end;
  try solve [first [safe_leaf | step] | eapply safe_any; first [safe_leaf | step]].

Section SafeTables.

Import DataSourceManager TemplateDocumentGenerator.

Variable sources : dict.

Lemma safe_pension_arrangements_table :
  safe any (_add_pension_arrangements_table sources).
Proof. unfold _add_pension_arrangements_table. safe_walk fail. Qed.

Lemma safe_recommendation_table : safe any (_add_recommendation_table sources).
Proof. unfold _add_recommendation_table. safe_walk fail. Qed.

Lemma safe_employer_scheme_table : safe any (_add_employer_scheme_table sources).
Proof. unfold _add_employer_scheme_table. safe_walk fail. Qed.

Lemma safe_transfer_impact_table : safe any (_add_transfer_impact_table sources).
Proof. unfold _add_transfer_impact_table. safe_walk fail. Qed.

Lemma safe_outperformance_table : safe any (_add_outperformance_table sources).
Proof. unfold _add_outperformance_table. safe_walk fail. Qed.

Lemma safe_product_comparison_table :
  safe any (_add_product_comparison_table sources).
Proof. unfold _add_product_comparison_table. safe_walk fail. Qed.

End SafeTables.

Ltac safe_table :=
  idtac;
  lazymatch goal with
  | |- safe _ (TemplateDocumentGenerator._add_pension_arrangements_table _) =>
      apply safe_pension_arrangements_table
  | |- safe _ (TemplateDocumentGenerator._add_recommendation_table _) =>
      apply safe_recommendation_table
  end.

Section SafeWalk.

Import DataSourceManager TemplateDocumentGenerator.

Variable template : json.
Variable sources : dict.

Lemma safe_fund_row (fund : json) :
  safe (fun row => length row = 5) (fund_row fund).
Proof.
  unfold fund_row. safe_walk fail.
  simpl. split; [reflexivity | constructor].
Qed.

Lemma safe_fund_rows (funds : list json) :
  safe (Forall (fun row => length row = 5)) (fund_rows funds).
Proof.
  induction funds as [|fund funds IH]; cbn [fund_rows].
  - simpl. split; constructor.
  - eapply safe_bind; [apply safe_fund_row | intros row Hrow].
    eapply safe_bind; [exact IH | intros rows Hrows].
    simpl. split; [constructor; assumption | constructor].
Qed.

Lemma safe_fund_selection_table : safe any (_add_fund_selection_table sources).
Proof.
  unfold _add_fund_selection_table. safe_walk fail.
  eapply safe_bind; [apply safe_fund_rows | intros rows Hrows].
  apply safe_create_table. exact Hrows.
Qed.

Lemma safe_investment_line (inv : json) : safe any (investment_line inv).
Proof. unfold investment_line. safe_walk fail. Qed.

Lemma safe_address_line (recipient : json) (key : string) :
  safe any (address_line recipient key).
Proof. unfold address_line. safe_walk fail. Qed.

Lemma safe_bullets_of (bullets : json) : safe any (bullets_of bullets).
Proof. unfold bullets_of. safe_walk fail. Qed.

Lemma safe_bullets_if_list (bullets : json) : safe any (bullets_if_list bullets).
Proof. unfold bullets_if_list. destruct bullets; safe_walk fail. Qed.

Lemma safe_resolved_paragraphs (ps : json) :
  safe any (resolved_paragraphs sources ps).
Proof.
  unfold resolved_paragraphs. safe_walk fail.
  apply safe_for_each. intros para_text. safe_walk fail.
Qed.

Lemma safe_process_content_item (item : json) :
  safe any (_process_content_item sources item).
Proof.
  unfold _process_content_item.
  safe_walk safe_table.
Qed.

Lemma safe_process_content (part : json) : safe any (process_content sources part).
Proof.
  unfold process_content. safe_walk fail.
  apply safe_for_each. exact safe_process_content_item.
Qed.

End SafeWalk.

Ltac safe_part :=
  idtac;
  lazymatch goal with
  | |- safe _ (TemplateDocumentGenerator._add_pension_arrangements_table _) =>
      apply safe_pension_arrangements_table
  | |- safe _ (TemplateDocumentGenerator._add_recommendation_table _) =>
      apply safe_recommendation_table
  | |- safe _ (TemplateDocumentGenerator._add_employer_scheme_table _) =>
      apply safe_employer_scheme_table
  | |- safe _ (TemplateDocumentGenerator._add_transfer_impact_table _) =>
      apply safe_transfer_impact_table
  | |- safe _ (TemplateDocumentGenerator._add_outperformance_table _) =>
      apply safe_outperformance_table
  | |- safe _ (TemplateDocumentGenerator._add_product_comparison_table _) =>
      apply safe_product_comparison_table
  | |- safe _ (TemplateDocumentGenerator._add_fund_selection_table _) =>
      apply safe_fund_selection_table
  | |- safe _ (TemplateDocumentGenerator.resolved_paragraphs _ _) =>
      apply safe_resolved_paragraphs
  | |- safe _ (TemplateDocumentGenerator.process_content _ _) =>
      apply safe_process_content
  | |- safe _ (TemplateDocumentGenerator.bullets_of _) => apply safe_bullets_of
  | |- safe _ (TemplateDocumentGenerator.bullets_if_list _) =>
      apply safe_bullets_if_list
  | |- safe _ (for_each _ TemplateDocumentGenerator.investment_line) =>
      apply safe_for_each; exact safe_investment_line
  | |- safe _ (for_each _ (TemplateDocumentGenerator.address_line _)) =>
      apply safe_for_each; intros ?; apply safe_address_line
  end.

Section SafePhases.

Import DataSourceManager TemplateDocumentGenerator.

Variable template : json.
Variable sources : dict.

Lemma safe_generate_letter : safe any (_generate_letter template sources).
Proof. unfold _generate_letter. safe_walk safe_part. Qed.

Lemma safe_generate_scottish_widows_details :
  safe any (_generate_scottish_widows_details sources).
Proof. unfold _generate_scottish_widows_details. safe_walk safe_part. Qed.

Lemma safe_generate_lsa_lsdba_section : safe any (_generate_lsa_lsdba_section sources).
Proof. unfold _generate_lsa_lsdba_section. safe_walk safe_part. Qed.

Lemma safe_generate_part1 : safe any (_generate_part1 template sources).
Proof.
  unfold _generate_part1.
  safe_walk ltac:(first
    [ safe_part
    | lazymatch goal with
      | |- safe _ (_generate_scottish_widows_details _) =>
          apply safe_generate_scottish_widows_details
      | |- safe _ (_generate_lsa_lsdba_section _) =>
          apply safe_generate_lsa_lsdba_section
      end ]).
Qed.

Lemma safe_generate_part2 : safe any (_generate_part2 template sources).
Proof. unfold _generate_part2. safe_walk safe_part. Qed.

Lemma safe_generate_part3 : safe any (_generate_part3 template sources).
Proof. unfold _generate_part3. safe_walk safe_part. Qed.

Lemma safe_generate_part4 : safe any (_generate_part4 template sources).
Proof. unfold _generate_part4. safe_walk safe_part. Qed.

Lemma safe_generate_appendix_i : safe any (_generate_appendix_i sources).
Proof. unfold _generate_appendix_i. safe_walk safe_part. Qed.

Lemma safe_generate_appendix : safe any (_generate_appendix template sources).
Proof. unfold _generate_appendix. safe_walk safe_part. Qed.

Lemma safe_generate : safe any (generate template sources).
Proof.
  unfold generate.
  eapply safe_bind; [apply safe_generate_letter | intros _ _].
  eapply safe_bind; [apply safe_generate_part1 | intros _ _].
  eapply safe_bind; [apply safe_generate_part2 | intros _ _].
  eapply safe_bind; [apply safe_generate_part3 | intros _ _].
  eapply safe_bind; [apply safe_generate_part4 | intros _ _].
  eapply safe_bind; [apply safe_generate_appendix_i | intros _ _].
  apply safe_generate_appendix.
Qed.


(** X8. Every table the walk appends has data rows as wide as its header
    row, so filling the cells by column index stays within the table. *)
Theorem generate_tables_well_formed (out : list node) :
  generate template sources = Ok (tt, out) ->
  forall hv columns rows,
    In (Table hv columns rows) out ->
    forall row, In row rows -> length row = length columns.
Proof.
  intros H hv columns rows Hin row Hrow.
  pose proof safe_generate as S. unfold safe in S. rewrite H in S.
  destruct S as [_ S]. rewrite Forall_forall in S.
  specialize (S _ Hin). simpl in S. rewrite Forall_forall in S. exact (S row Hrow).
Qed.

End SafePhases.

(** ** The outline of the document *)

Lemma outline_app (o1 o2 : list node) : outline (o1 ++ o2)%list = (outline o1 ++ outline o2)%list.
Proof. unfold outline. apply flat_map_app. Qed.

Lemma outlined_bind {A B : Type} (l1 l2 : list tag) (m : gen A) (k : A -> gen B) :
  outlined l1 m -> (forall a, outlined l2 (k a)) ->
  outlined (l1 ++ l2)%list (gbind m k).
Proof.
  intros Hm Hk b out H. unfold gbind in H.
  destruct m as [[a o]|e]; [|discriminate].
  destruct (k a) as [[b0 o0]|e] eqn:Ek; [|discriminate].
  injection H as <- <-. rewrite outline_app.
  rewrite (Hm a o eq_refl), (Hk a b0 o0 Ek). reflexivity.
Qed.

Lemma outlined_eq {A : Type} (l l' : list tag) (m : gen A) :
  outlined l m -> l = l' -> outlined l' m.
Proof. intros H <-. exact H. Qed.

Lemma outlined_lift {A : Type} (r : result A) : outlined [] (lift r).
Proof. intros a out H. destruct r; [|discriminate]. injection H as _ <-. reflexivity. Qed.

Lemma outlined_emit (n : node) : outlined (tag_of n) (emit n).
Proof.
  intros a out H. injection H as _ <-. unfold outline. simpl. apply app_nil_r.
Qed.

Lemma outlined_emit_as (n : node) (l : list tag) :
  tag_of n = l -> outlined l (emit n).
Proof. intros <-. apply outlined_emit. Qed.

Lemma outlined_gret {A : Type} (a : A) : outlined [] (gret a).
Proof. intros a' out H. injection H as _ <-. reflexivity. Qed.

Lemma outlined_for_each {A : Type} (l : list A) (body : A -> gen unit) :
  (forall x, outlined [] (body x)) -> outlined [] (for_each l body).
Proof.
  intros H. induction l as [|x l IH]; cbn [for_each].
  - apply outlined_gret.
  - apply (outlined_bind [] []); [apply H | intros _; exact IH].
Qed.

Section OutlineSteps.

Import DataSourceManager TemplateDocumentGenerator.

Lemma outlined_dget (v : json) (k : string) (d : json) : outlined [] (dget v k d).
Proof. apply outlined_lift. Qed.

Lemma outlined_source (sources : dict) (name : string) :
  outlined [] (source sources name).
Proof. apply outlined_lift. Qed.

Lemma outlined_data_get (sources : dict) (p : json) :
  outlined [] (data_get sources p).
Proof. destruct p; try (intros a out H; discriminate). apply outlined_lift. Qed.

End OutlineSteps.

Ltac outline_emit := eapply outlined_emit_as; cbn [tag_of]; reflexivity.

Ltac outline_leaf :=
  idtac;
  lazymatch goal with
  | |- outlined _ (TemplateDocumentGenerator.dget _ _ _) => apply outlined_dget
  | |- outlined _ (TemplateDocumentGenerator.source _ _) => apply outlined_source
  | |- outlined _ (TemplateDocumentGenerator.data_get _ _) => apply outlined_data_get
  | |- outlined _ (lift _) => apply outlined_lift
  | |- outlined _ (emit _) => outline_emit
  | |- outlined _ (TemplateDocumentGenerator.add_paragraph0) => outline_emit
  | |- outlined _ (TemplateDocumentGenerator.add_page_break) => outline_emit
  | |- outlined _ (TemplateDocumentGenerator._add_paragraph _) => outline_emit
  | |- outlined _ (TemplateDocumentGenerator._add_heading1 _) => outline_emit
  | |- outlined _ (TemplateDocumentGenerator._add_heading2 _) => outline_emit
  | |- outlined _ (TemplateDocumentGenerator._add_bullet _) => outline_emit
  | |- outlined _ (TemplateDocumentGenerator._create_table _ _ _) => outline_emit
  | |- outlined _ (skip) => apply outlined_gret
  | |- outlined _ (gret _) => apply outlined_gret
  | |- outlined _ (for_each _ TemplateDocumentGenerator._add_bullet) =>
      apply outlined_for_each; intros ?; outline_emit
  end.

(** Walk a step: the outline of a sequence is left as a concatenation to
    be computed at the end. *)
Ltac outline_walk step :=
  repeat lazymatch goal with
    | |- outlined _ (gbind _ _) =>
        eapply outlined_bind; [first [outline_leaf | step] | intros ?]
    | |- outlined _ (if ?c then _ else _) => destruct c
    end;
  try solve [first [outline_leaf | step]].

Ltac outline_of step :=
  eapply outlined_eq; [outline_walk step | reflexivity].

Section OutlineTables.

Import DataSourceManager TemplateDocumentGenerator.

Variable sources : dict.

Lemma outlined_pension_arrangements_table :
  outlined [] (_add_pension_arrangements_table sources).
Proof. unfold _add_pension_arrangements_table. outline_of fail. Qed.

Lemma outlined_recommendation_table :
  outlined [] (_add_recommendation_table sources).
Proof. unfold _add_recommendation_table. outline_of fail. Qed.

Lemma outlined_employer_scheme_table :
  outlined [] (_add_employer_scheme_table sources).
Proof. unfold _add_employer_scheme_table. outline_of fail. Qed.

Lemma outlined_transfer_impact_table :
  outlined [] (_add_transfer_impact_table sources).
Proof. unfold _add_transfer_impact_table. outline_of fail. Qed.

Lemma outlined_outperformance_table :
  outlined [] (_add_outperformance_table sources).
Proof. unfold _add_outperformance_table. outline_of fail. Qed.

Lemma outlined_product_comparison_table :
  outlined [] (_add_product_comparison_table sources).
Proof. unfold _add_product_comparison_table. outline_of fail. Qed.

End OutlineTables.

Ltac outline_table :=
  idtac;
  lazymatch goal with
  | |- outlined _ (TemplateDocumentGenerator._add_pension_arrangements_table _) =>
      apply outlined_pension_arrangements_table
  | |- outlined _ (TemplateDocumentGenerator._add_recommendation_table _) =>
      apply outlined_recommendation_table
  | |- outlined _ (TemplateDocumentGenerator._add_employer_scheme_table _) =>
      apply outlined_employer_scheme_table
  | |- outlined _ (TemplateDocumentGenerator._add_transfer_impact_table _) =>
      apply outlined_transfer_impact_table
  | |- outlined _ (TemplateDocumentGenerator._add_outperformance_table _) =>
      apply outlined_outperformance_table
  | |- outlined _ (TemplateDocumentGenerator._add_product_comparison_table _) =>
      apply outlined_product_comparison_table
  end.

Section OutlineWalk.

Import DataSourceManager TemplateDocumentGenerator.

Variable sources : dict.

Lemma outlined_fund_row (fund : json) : outlined [] (fund_row fund).
Proof. unfold fund_row. outline_of fail. Qed.

Lemma outlined_fund_rows (funds : list json) : outlined [] (fund_rows funds).
Proof.
  induction funds as [|fund funds IH]; cbn [fund_rows].
  - apply outlined_gret.
  - apply (outlined_bind [] []); [apply outlined_fund_row | intros row].
    apply (outlined_bind [] []); [exact IH | intros rows]. apply outlined_gret.
Qed.

Lemma outlined_fund_selection_table :
  outlined [] (_add_fund_selection_table sources).
Proof.
  unfold _add_fund_selection_table.
  outline_of ltac:(idtac;
                   lazymatch goal with
                   | |- outlined _ (fund_rows _) => apply outlined_fund_rows
                   end).
Qed.

Lemma outlined_investment_line (inv : json) : outlined [] (investment_line inv).
Proof. unfold investment_line. outline_of fail. Qed.

Lemma outlined_address_line (recipient : json) (key : string) :
  outlined [] (address_line recipient key).
Proof. unfold address_line. outline_of fail. Qed.

Lemma outlined_keyed_bullet (d : dict) (key : json) : outlined [] (keyed_bullet d key).
Proof. unfold keyed_bullet. outline_of fail. Qed.

Lemma outlined_bullets_of (bullets : json) : outlined [] (bullets_of bullets).
Proof. unfold bullets_of. outline_of fail. Qed.

Lemma outlined_bullets_if_list (bullets : json) :
  outlined [] (bullets_if_list bullets).
Proof. unfold bullets_if_list. destruct bullets; outline_walk fail. Qed.

Lemma outlined_resolved_paragraphs (ps : json) :
  outlined [] (resolved_paragraphs sources ps).
Proof.
  unfold resolved_paragraphs.
  apply (outlined_bind [] []); [apply outlined_lift | intros items].
  apply outlined_for_each. intros para_text. outline_of fail.
Qed.

Lemma outlined_bullet_data (item data : json) :
  outlined []
    (match data with
     | JList l => for_each l _add_bullet
     | JDict d =>
         keys <~ dget item "keys" (JList (map JStr (dict_keys d))) ;;
         ks <~ lift (py_iter keys) ;;
         for_each ks (keyed_bullet d)
     | _ => skip
     end).
Proof.
  destruct data; try apply outlined_gret.
  - apply outlined_for_each. intros x. outline_emit.
  - apply (outlined_bind [] []); [apply outlined_dget | intros keys].
    apply (outlined_bind [] []); [apply outlined_lift | intros ks].
    apply outlined_for_each. intros key. apply outlined_keyed_bullet.
Qed.

Lemma outlined_process_content_item (item : json) :
  outlined [] (_process_content_item sources item).
Proof.
  unfold _process_content_item.
  apply (outlined_bind [] []); [apply outlined_dget | intros item_type].
  destruct (eq_str item_type "paragraph"); [outline_of fail|].
  destruct (eq_str item_type "heading2"); [outline_of fail|].
  destruct (eq_str item_type "bullet_list").
  { apply (outlined_bind [] []); [apply outlined_dget | intros src].
    apply (outlined_bind [] []); [outline_emit | intros _].
    destruct (truthy src); [|apply outlined_gret].
    apply (outlined_bind [] []); [apply outlined_data_get | intros data].
    apply outlined_bullet_data. }
  destruct (eq_str item_type "table"); [|apply outlined_gret].
  apply (outlined_bind [] []); [apply outlined_dget | intros table_id].
  apply (outlined_bind [] []); [outline_emit | intros _].
  destruct (eq_str table_id "pension_arrangements"); [outline_table|].
  destruct (eq_str table_id "recommendation_table"); [outline_table|].
  apply outlined_gret.
Qed.

Lemma outlined_process_content (part : json) :
  outlined [] (process_content sources part).
Proof.
  unfold process_content.
  apply (outlined_bind [] []); [apply outlined_dget | intros content].
  apply (outlined_bind [] []); [apply outlined_lift | intros items].
  apply outlined_for_each. exact outlined_process_content_item.
Qed.

End OutlineWalk.

Ltac outline_part :=
  idtac;
  first
    [ outline_table
    | lazymatch goal with
      | |- outlined _ (TemplateDocumentGenerator._add_fund_selection_table _) =>
          apply outlined_fund_selection_table
      | |- outlined _ (TemplateDocumentGenerator.resolved_paragraphs _ _) =>
          apply outlined_resolved_paragraphs
      | |- outlined _ (TemplateDocumentGenerator.process_content _ _) =>
          apply outlined_process_content
      | |- outlined _ (TemplateDocumentGenerator.bullets_of _) =>
          apply outlined_bullets_of
      | |- outlined _ (TemplateDocumentGenerator.bullets_if_list _) =>
          apply outlined_bullets_if_list
      | |- outlined _ (for_each _ TemplateDocumentGenerator.investment_line) =>
          apply outlined_for_each; exact outlined_investment_line
      | |- outlined _ (for_each _ (TemplateDocumentGenerator.address_line _)) =>
          apply outlined_for_each; intros ?; apply outlined_address_line
      end ].

Section OutlinePhases.

Import DataSourceManager TemplateDocumentGenerator.

Variable template : json.
Variable sources : dict.

Lemma outlined_generate_letter : outlined [] (_generate_letter template sources).
Proof. unfold _generate_letter. outline_of outline_part. Qed.

Lemma outlined_generate_scottish_widows_details :
  outlined [] (_generate_scottish_widows_details sources).
Proof. unfold _generate_scottish_widows_details. outline_of outline_part. Qed.

Lemma outlined_generate_lsa_lsdba_section :
  outlined [] (_generate_lsa_lsdba_section sources).
Proof. unfold _generate_lsa_lsdba_section. outline_of outline_part. Qed.

Lemma outlined_generate_part1 :
  outlined [TPage; THeading1] (_generate_part1 template sources).
Proof.
  unfold _generate_part1.
  outline_of ltac:(first
    [ outline_part
    | lazymatch goal with
      | |- outlined _ (_generate_scottish_widows_details _) =>
          apply outlined_generate_scottish_widows_details
      | |- outlined _ (_generate_lsa_lsdba_section _) =>
          apply outlined_generate_lsa_lsdba_section
      end ]).
Qed.

Lemma outlined_generate_part2 :
  outlined [TPage; THeading1] (_generate_part2 template sources).
Proof. unfold _generate_part2. outline_of outline_part. Qed.

Lemma outlined_generate_part3 :
  outlined [TPage; THeading1] (_generate_part3 template sources).
Proof. unfold _generate_part3. outline_of outline_part. Qed.

Lemma outlined_generate_part4 :
  outlined [TPage; THeading1] (_generate_part4 template sources).
Proof. unfold _generate_part4. outline_of outline_part. Qed.

Lemma outlined_generate_appendix_i :
  outlined [TPage; THeading1] (_generate_appendix_i sources).
Proof. unfold _generate_appendix_i. outline_of outline_part. Qed.

Lemma outlined_generate_appendix :
  outlined [TSection; THeading1] (_generate_appendix template sources).
Proof. unfold _generate_appendix. outline_of outline_part. Qed.

(** X9. Whatever the template and the sources, the document of a walk
    that completes has exactly six level-1 headings: the first five each
    come right after a page break, the last right after the section break
    of the landscape appendix, and there is no other page or section
    break. *)
Theorem generate_outline (out : list node) :
  generate template sources = Ok (tt, out) ->
  outline out =
    [TPage; THeading1; TPage; THeading1; TPage; THeading1; TPage; THeading1;
     TPage; THeading1; TSection; THeading1].
Proof.
  assert (H : outlined
                [TPage; THeading1; TPage; THeading1; TPage; THeading1;
                 TPage; THeading1; TPage; THeading1; TSection; THeading1]
                (generate template sources)).
  { unfold generate.
    apply (outlined_bind [] _); [apply outlined_generate_letter | intros _].
    apply (outlined_bind [TPage; THeading1] _);
      [apply outlined_generate_part1 | intros _].
    apply (outlined_bind [TPage; THeading1] _);
      [apply outlined_generate_part2 | intros _].
    apply (outlined_bind [TPage; THeading1] _);
      [apply outlined_generate_part3 | intros _].
    apply (outlined_bind [TPage; THeading1] _);
      [apply outlined_generate_part4 | intros _].
    apply (outlined_bind [TPage; THeading1] [TSection; THeading1]);
      [apply outlined_generate_appendix_i | intros _].
    apply outlined_generate_appendix. }
  intros E. exact (H tt out E).
Qed.

End OutlinePhases.


Lemma generate_tables_well_formed_witness :
  exists out,
    TemplateDocumentGenerator.generate sample_template sample_sources = Ok (tt, out) /\
    forall hv columns rows,
      In (Table hv columns rows) out ->
      forall row, In row rows -> length row = length columns.
Proof.
  assert (E : exists out,
             TemplateDocumentGenerator.generate sample_template sample_sources
             = Ok (tt, out)).
  { eexists. vm_compute. reflexivity. }
  destruct E as [out E]. exists out. split; [exact E|].
  exact (generate_tables_well_formed sample_template sample_sources out E).
Defined.

Lemma generate_outline_witness :
  exists out,
    TemplateDocumentGenerator.generate sample_template sample_sources = Ok (tt, out) /\
    outline out =
      [TPage; THeading1; TPage; THeading1; TPage; THeading1; TPage; THeading1;
       TPage; THeading1; TSection; THeading1].
Proof.
  assert (E : exists out,
             TemplateDocumentGenerator.generate sample_template sample_sources
             = Ok (tt, out)).
  { eexists. vm_compute. reflexivity. }
  destruct E as [out E]. exists out. split; [exact E|].
  exact (generate_outline sample_template sample_sources out E).
Defined.

(** ** Values of the wrong kind *)

Section WrongKind.

Import DataSourceManager TemplateDocumentGenerator.

Lemma dget_raises_through {B : Type} (v : json) (k : string) (d : json)
    (f : json -> gen B) :
  (forall x, f x = Raise AttributeError) ->
  gbind (dget v k d) f = Raise AttributeError.
Proof.
  intros H. destruct v; try reflexivity.
  rewrite dget_dict, gbind_ret_l. apply H.
Qed.

Lemma emit_raises_through {B : Type} (n : node) (f : unit -> gen B) (e : exn) :
  f tt = Raise e -> gbind (emit n) f = Raise e.
Proof. intros H. rewrite gbind_emit, H. reflexivity. Qed.

(** X10. Absence is tolerated, a value of the wrong kind is not: when the
    [cfr] source is loaded and is not a mapping, or its [recipient] is
    present and is not a mapping ([null] included), the walk raises
    [AttributeError], whatever the template. *)
Theorem non_mapping_recipient_raises (template : json) (sources : dict) (c : json) :
  dict_find "cfr" sources = Some c ->
  (forall d, c = JDict d ->
             exists r, dict_find "recipient" d = Some r /\ forall d', r <> JDict d') ->
  generate template sources = Raise AttributeError.
Proof.
  intros Hc Hr.
  assert (L : _generate_letter template sources = Raise AttributeError).
  { unfold _generate_letter.
    apply dget_raises_through; intros letter_template.
    apply dget_raises_through; intros l1.
    apply dget_raises_through; intros confidential.
    apply emit_raises_through.
    rewrite source_field, gbind_ret_l. unfold field at 1. rewrite Hc.
    destruct c; try reflexivity.
    destruct (Hr d eq_refl) as (r & Hrec & Hnot).
    rewrite dget_dict, gbind_ret_l. unfold field at 1. rewrite Hrec.
    apply dget_not_dict. exact Hnot. }
  unfold generate. rewrite L. reflexivity.
Qed.

End WrongKind.

Lemma non_mapping_recipient_raises_witness :
  TemplateDocumentGenerator.generate sample_template
    [("cfr", JDict [("recipient", JNull)])] = Raise AttributeError.
Proof.
  apply (non_mapping_recipient_raises sample_template
           [("cfr", JDict [("recipient", JNull)])] (JDict [("recipient", JNull)])).
  - reflexivity.
  - intros d E. injection E as <-. exists JNull. split; [reflexivity|].
    intros d'. discriminate.
Defined.

(** ** Loading *)

Lemma dict_find_set_same (d : dict) (k : string) (v : json) :
  dict_find k (dict_set d k v) = Some v.
Proof.
  induction d as [|[k' v'] d IH]; simpl.
  - rewrite String.eqb_refl. reflexivity.
  - destruct (String.eqb k' k) eqn:E; simpl; rewrite E; [reflexivity | exact IH].
Qed.

Lemma dict_find_set_other (d : dict) (k k0 : string) (v : json) :
  k <> k0 -> dict_find k0 (dict_set d k v) = dict_find k0 d.
Proof.
  intros Hne. induction d as [|[k' v'] d IH]; simpl.
  - apply String.eqb_neq in Hne. rewrite Hne. reflexivity.
  - destruct (String.eqb_spec k' k) as [->|Hk]; simpl.
    + apply String.eqb_neq in Hne. rewrite Hne. reflexivity.
    + destruct (String.eqb k' k0); [reflexivity | exact IH].
Qed.

Lemma dict_keys_set_new (d : dict) (k : string) (v : json) :
  dict_find k d = None -> dict_keys (dict_set d k v) = (dict_keys d ++ [k])%list.
Proof.
  induction d as [|[k' v'] d IH]; simpl; intros H; [reflexivity|].
  destruct (String.eqb k' k); [discriminate|].
  simpl. f_equal. exact (IH H).
Qed.

Section Loading.

Variable fs : filesystem.
Variable data_dir : string.

Lemma load_sources_ok (files : list (string * string)) (acc : dict) :
  NoDup (map fst files) ->
  (forall name, In name (map fst files) -> dict_find name acc = None) ->
  readable fs data_dir files ->
  exists sources,
    load_sources fs data_dir files acc = Ok sources /\
    dict_keys sources = (dict_keys acc ++ map fst files)%list /\
    (forall name filename,
        In (name, filename) files ->
        dict_find name sources = Some (loaded_value fs data_dir filename)) /\
    (forall name, ~ In name (map fst files) ->
                  dict_find name sources = dict_find name acc).
Proof.
  revert acc. induction files as [|[name filename] files IH]; intros acc Hnd Hfresh Hread.
  - exists acc. simpl. rewrite app_nil_r. repeat split; auto. intros ? ? [].
  - simpl in Hnd. inversion Hnd as [|? ? Hnotin Hnd']; subst.
    set (v := loaded_value fs data_dir filename).
    assert (Estep : load_sources fs data_dir ((name, filename) :: files) acc
                    = load_sources fs data_dir files (dict_set acc name v)).
    { cbn [load_sources]. subst v. unfold loaded_value.
      destruct (fs (path_join data_dir filename)) as [[x|]|] eqn:E; try reflexivity.
      exfalso. exact (Hread name filename (or_introl eq_refl) E). }
    destruct (IH (dict_set acc name v) Hnd') as (sources & Eload & Hkeys & Hvals & Hrest).
    + intros n Hn. rewrite dict_find_set_other.
      * apply Hfresh. right. exact Hn.
      * intros ->. exact (Hnotin Hn).
    + intros n f Hin. apply (Hread n f). right. exact Hin.
    + exists sources. rewrite Estep. split; [exact Eload|]. split; [|split].
      * rewrite Hkeys, dict_keys_set_new by (apply Hfresh; left; reflexivity).
        rewrite <- app_assoc. reflexivity.
      * intros n f [E | Hin].
        -- injection E as <- <-. rewrite Hrest by exact Hnotin.
           apply dict_find_set_same.
        -- exact (Hvals n f Hin).
      * intros n Hn. rewrite Hrest.
        -- apply dict_find_set_other. intros ->. apply Hn. left. reflexivity.
        -- intros Hin. apply Hn. right. exact Hin.
Qed.

Lemma load_sources_malformed (files : list (string * string)) (acc : dict) :
  ~ readable fs data_dir files -> load_sources fs data_dir files acc = Raise ValueError.
Proof.
  revert acc. induction files as [|[name filename] files IH]; intros acc Hbad.
  - exfalso. apply Hbad. intros ? ? [].
  - cbn [load_sources].
    destruct (fs (path_join data_dir filename)) as [[x|]|] eqn:E; try reflexivity.
    + simpl. apply IH. intros Hread. apply Hbad.
      intros n f [Ein | Hin]; [injection Ein as <- <-; congruence | exact (Hread n f Hin)].
    + apply IH. intros Hread. apply Hbad.
      intros n f [Ein | Hin]; [injection Ein as <- <-; congruence | exact (Hread n f Hin)].
Qed.

Lemma load_all_sources_ok :
  readable fs data_dir source_files ->
  exists sources,
    _load_all_sources fs data_dir = Ok sources /\
    dict_keys sources = source_names /\
    forall name filename,
      In (name, filename) source_files ->
      dict_find name sources = Some (loaded_value fs data_dir filename).
Proof.
  intros Hread.
  destruct (load_sources_ok source_files [] ) as (sources & E & Hk & Hv & _).
  - repeat constructor; simpl; intuition discriminate.
  - reflexivity.
  - exact Hread.
  - exists sources. split; [exact E|]. split; [exact Hk | exact Hv].
Qed.

(** X11. Loading gives [self.sources] the five source names, in their
    fixed order, whenever no data file is malformed: each source holds the
    parsed value of its file, or an empty mapping when the file does not
    exist.  A malformed file makes loading raise [ValueError]. *)
Theorem load_all_sources_result :
  (readable fs data_dir source_files ->
   exists sources,
     _load_all_sources fs data_dir = Ok sources /\
     dict_keys sources = source_names /\
     forall name filename,
       In (name, filename) source_files ->
       dict_find name sources = Some (loaded_value fs data_dir filename)) /\
  (~ readable fs data_dir source_files ->
   _load_all_sources fs data_dir = Raise ValueError).
Proof.
  split.
  - exact load_all_sources_ok.
  - apply load_sources_malformed.
Qed.

(** X12. After loading, a lookup in a source whose file does not exist
    gives the default for every path, and the walk finds each of the five
    sources to be a mapping or what its file holds. *)
Theorem get_from_missing_file (sources : dict) (name filename path : string)
    (rest : list string) (default : json) :
  _load_all_sources fs data_dir = Ok sources ->
  In (name, filename) source_files ->
  fs (path_join data_dir filename) = None ->
  split_on dot path = name :: rest ->
  DataSourceManager.get sources path default = Ok default /\
  TemplateDocumentGenerator.source sources name = Ok (empty_dict, []).
Proof.
  intros Eload Hin Hnone Hsplit.
  assert (Hread : readable fs data_dir source_files).
  { intros n f Hnf Hbad.
    assert (Hr : ~ readable fs data_dir source_files)
      by (intros Hr; exact (Hr n f Hnf Hbad)).
    apply (load_sources_malformed source_files []) in Hr.
    unfold _load_all_sources in Eload. congruence. }
  destruct (load_all_sources_ok Hread) as (s' & E' & _ & Hv).
  rewrite Eload in E'. injection E' as <-.
  pose proof (Hv name filename Hin) as Hfind.
  unfold loaded_value in Hfind. rewrite Hnone in Hfind.
  split.
  - destruct rest as [|seg rest].
    + unfold DataSourceManager.get. rewrite Hsplit. reflexivity.
    + rewrite (get_split sources path name (seg :: rest) default Hsplit) by discriminate.
      rewrite Hfind. reflexivity.
  - rewrite source_field. unfold field. rewrite Hfind. reflexivity.
Qed.

End Loading.

Lemma sample_files_readable : readable sample_files "data" source_files.
Proof.
  intros name filename Hin.
  simpl in Hin.
  repeat (destruct Hin as [Hin | Hin];
          [injection Hin as <- <-; vm_compute; discriminate|]).
  contradiction.
Qed.

Lemma load_all_sources_result_witness :
  readable sample_files "data" source_files /\
  exists sources,
    _load_all_sources sample_files "data" = Ok sources /\
    dict_keys sources = source_names /\
    dict_find "cfr" sources = Some (JDict [("plan", JStr "Group PP")]) /\
    dict_find "cyc" sources = Some empty_dict.
Proof.
  split; [exact sample_files_readable|].
  destruct (proj1 (load_all_sources_result sample_files "data")
              sample_files_readable) as (sources & E & Hk & Hv).
  exists sources. split; [exact E|]. split; [exact Hk|]. split.
  - apply (Hv "cfr" "cfr_data.json"). simpl. auto.
  - apply (Hv "cyc" "cyc_data.json"). simpl. auto.
Defined.

Lemma get_from_missing_file_witness :
  exists sources,
    _load_all_sources sample_files "data" = Ok sources /\
    In ("cyc", "cyc_data.json") source_files /\
    sample_files (path_join "data" "cyc_data.json") = None /\
    split_on dot "cyc.anything" = ["cyc"; "anything"] /\
    DataSourceManager.get sources "cyc.anything" (JStr "n/a") = Ok (JStr "n/a") /\
    TemplateDocumentGenerator.source sources "cyc" = Ok (empty_dict, []).
Proof.
  destruct (load_all_sources_ok sample_files "data" sample_files_readable)
    as (sources & E & _).
  exists sources.
  assert (Hin : In ("cyc", "cyc_data.json") source_files) by (simpl; auto).
  assert (Hnone : sample_files (path_join "data" "cyc_data.json") = None)
    by reflexivity.
  assert (Hsplit : split_on dot "cyc.anything" = ["cyc"; "anything"])
    by reflexivity.
  split; [exact E|]. split; [exact Hin|]. split; [exact Hnone|].
  split; [exact Hsplit|].
  exact (get_from_missing_file sample_files "data" sources "cyc" "cyc_data.json"
           "cyc.anything" ["anything"] (JStr "n/a") E Hin Hnone Hsplit).
Defined.

(** * Properties of style_helpers.py *)

(** ** Colours *)

Lemma hex_digit_of_table (c : ascii) (v : Z) :
  hex_digit_of c = Some v ->
  In (c, v)
    [("0"%char, 0%Z); ("1"%char, 1%Z); ("2"%char, 2%Z); ("3"%char, 3%Z);
     ("4"%char, 4%Z); ("5"%char, 5%Z); ("6"%char, 6%Z); ("7"%char, 7%Z);
     ("8"%char, 8%Z); ("9"%char, 9%Z);
     ("a"%char, 10%Z); ("b"%char, 11%Z); ("c"%char, 12%Z); ("d"%char, 13%Z);
     ("e"%char, 14%Z); ("f"%char, 15%Z);
     ("A"%char, 10%Z); ("B"%char, 11%Z); ("C"%char, 12%Z); ("D"%char, 13%Z);
     ("E"%char, 14%Z); ("F"%char, 15%Z)].
Proof.
  destruct c as [[] [] [] [] [] [] [] []]; vm_compute; intros H;
    try discriminate H; injection H as <-; tauto.
Qed.

Lemma py_int16_two_digits (c1 c2 : ascii) (v1 v2 : Z) :
  hex_digit_of c1 = Some v1 -> hex_digit_of c2 = Some v2 ->
  py_int16 (String c1 (String c2 EmptyString)) = Ok (16 * v1 + v2)%Z /\
  is_byte (16 * v1 + v2) = true.
Proof.
  intros H1 H2.
  apply hex_digit_of_table in H1. apply hex_digit_of_table in H2.
  simpl in H1, H2.
  repeat (destruct H1 as [H1 | H1]; [injection H1 as <- <- |]);
    try contradiction;
    repeat (destruct H2 as [H2 | H2]; [injection H2 as <- <- |]);
    try contradiction; split; reflexivity.
Qed.

Lemma hex_digit_plain (c : ascii) (v : Z) :
  hex_digit_of c = Some v ->
  is_continuation c = false /\ Ascii.eqb c "#"%char = false.
Proof.
  intros H. apply hex_digit_of_table in H. simpl in H.
  repeat (destruct H as [H | H]; [injection H as <- <-; split; reflexivity |]).
  contradiction.
Qed.

Lemma lstrip_hashes (n : nat) (c : ascii) (s : string) :
  Ascii.eqb c "#"%char = false ->
  lstrip_char "#"%char (hashes n ++ String c s) = String c s.
Proof.
  intros H. induction n as [|n IH]; simpl.
  - rewrite H. reflexivity.
  - exact IH.
Qed.

Lemma py_int16_raises (s : string) (e : exn) :
  py_int16 s = Raise e -> e = ValueError.
Proof.
  unfold py_int16. destruct (hex_signed (strip s)); congruence.
Qed.

Lemma skipn_short {A : Type} (n : nat) (l : list A) :
  (length l <= n)%nat -> skipn n l = [].
Proof.
  revert l. induction n as [|n IH]; intros [|x l] H; simpl in *;
    try reflexivity; try lia.
  apply IH. lia.
Qed.

(** X13. A colour written as six digits of base 16, after any number of
    [#] and before anything else, is read as its three components: each is
    sixteen times the first digit of its pair plus the second.  What comes
    after the sixth digit is not looked at. *)
Theorem hex_to_rgb_decodes (n : nat) (c1 c2 c3 c4 c5 c6 : ascii)
    (v1 v2 v3 v4 v5 v6 : Z) (rest : string) :
  hex_digit_of c1 = Some v1 -> hex_digit_of c2 = Some v2 ->
  hex_digit_of c3 = Some v3 -> hex_digit_of c4 = Some v4 ->
  hex_digit_of c5 = Some v5 -> hex_digit_of c6 = Some v6 ->
  starts_with_continuation rest = false ->
  hex_to_rgb
    (JStr (hashes n ++
           String c1 (String c2 (String c3 (String c4 (String c5 (String c6 rest)))))))
  = Ok ((16 * v1 + v2)%Z, (16 * v3 + v4)%Z, (16 * v5 + v6)%Z).
Proof.
  intros H1 H2 H3 H4 H5 H6 Hrest.
  destruct (hex_digit_plain c1 v1 H1) as [K1 N1].
  destruct (hex_digit_plain c2 v2 H2) as [K2 _].
  destruct (hex_digit_plain c3 v3 H3) as [K3 _].
  destruct (hex_digit_plain c4 v4 H4) as [K4 _].
  destruct (hex_digit_plain c5 v5 H5) as [K5 _].
  destruct (hex_digit_plain c6 v6 H6) as [K6 _].
  unfold hex_to_rgb. rewrite (lstrip_hashes n c1 _ N1).
  unfold py_slice.
  cbn [chars starts_with_continuation].
  rewrite K2, K3, K4, K5, K6, Hrest.
  cbn [skipn firstn Nat.sub String.concat str1 append].
  unfold str1.
  destruct (py_int16_two_digits c1 c2 v1 v2 H1 H2) as [-> B1].
  destruct (py_int16_two_digits c3 c4 v3 v4 H3 H4) as [-> B2].
  destruct (py_int16_two_digits c5 c6 v5 v6 H5 H6) as [-> B3].
  cbn [bind]. unfold RGBColor. rewrite B1, B2, B3. reflexivity.
Qed.

Lemma hex_to_rgb_decodes_witness :
  hex_to_rgb (JStr "#0F1E3C80") = Ok (15%Z, 30%Z, 60%Z).
Proof.
  exact (hex_to_rgb_decodes 1 "0" "F" "1" "E" "3" "C" 0 15 1 14 3 12 "80"
           eq_refl eq_refl eq_refl eq_refl eq_refl eq_refl eq_refl).
Defined.

(** X14. A colour with fewer than five characters after its leading [#]
    is refused with [ValueError]: the short form of three digits is not
    read. *)
Theorem hex_to_rgb_short_raises (s : string) :
  (length (chars (lstrip_char "#"%char s)) < 5)%nat ->
  hex_to_rgb (JStr s) = Raise ValueError.
Proof.
  intros Hlen. unfold hex_to_rgb.
  assert (E : py_int16 (py_slice 4 6 (lstrip_char "#"%char s)) = Raise ValueError).
  { unfold py_slice. rewrite skipn_short by lia. reflexivity. }
  rewrite E.
  destruct (py_int16 (py_slice 0 2 _)) as [r|e] eqn:E1; cbn [bind];
    [|apply py_int16_raises in E1; congruence].
  destruct (py_int16 (py_slice 2 4 _)) as [g|e] eqn:E2; cbn [bind];
    [reflexivity | apply py_int16_raises in E2; congruence].
Qed.

Lemma hex_to_rgb_short_raises_witness :
  hex_to_rgb (JStr "#fff") = Raise ValueError.
Proof.
  apply hex_to_rgb_short_raises. vm_compute. lia.
Defined.

(** ** Style table *)

Lemma dict_update_find (other d : dict) (k : string) :
  NoDup (dict_keys other) ->
  dict_find k (dict_update d other) =
  match dict_find k other with
  | Some v => Some v
  | None => dict_find k d
  end.
Proof.
  unfold dict_update. revert d.
  induction other as [|[k0 v0] other IH]; intros d Hnd; [reflexivity|].
  simpl in Hnd. inversion Hnd as [|? ? Hnotin Hnd']; subst.
  cbn [fold_left fst snd dict_find].
  rewrite (IH _ Hnd').
  destruct (String.eqb_spec k0 k) as [->|Hne].
  - destruct (dict_find k other) as [x|] eqn:E.
    + exfalso. apply Hnotin. apply dict_find_keys. eauto.
    + apply dict_find_set_same.
  - destruct (dict_find k other); [reflexivity|].
    apply dict_find_set_other. exact Hne.
Qed.

(** X15. A style configuration answers a property with the override given
    for it and, where none is given, with the default of the named style;
    a name that is not in the table of defaults stands for the style
    [document]. *)
Theorem get_style_config_lookup (style_name : string) (overrides : dict)
    (k : string) :
  NoDup (dict_keys overrides) ->
  dict_find k (get_style_config style_name (Some overrides)) =
  match dict_find k overrides with
  | Some v => Some v
  | None => dict_find k (get_style_config style_name None)
  end /\
  (assoc style_name DEFAULT_STYLES = None ->
   get_style_config style_name (Some overrides) =
   get_style_config "document" (Some overrides)).
Proof.
  intros Hnd. split.
  - unfold get_style_config.
    destruct overrides as [|kv overrides]; [reflexivity|].
    cbn [truthy]. apply dict_update_find. exact Hnd.
  - intros Hnone. unfold get_style_config, default_style.
    rewrite Hnone. reflexivity.
Qed.

Lemma get_style_config_lookup_witness :
  NoDup (dict_keys [("font_size", JInt 14)]) /\
  dict_find "font_size" (get_style_config "title" (Some [("font_size", JInt 14)]))
  = Some (JInt 14) /\
  dict_find "font_family" (get_style_config "title" (Some [("font_size", JInt 14)]))
  = Some (JStr "Poppins").
Proof.
  assert (Hnd : NoDup (dict_keys [("font_size", JInt 14)])).
  { repeat constructor. simpl. tauto. }
  split; [exact Hnd|]. split.
  - exact (proj1 (get_style_config_lookup "title" [("font_size", JInt 14)]
                    "font_size" Hnd)).
  - exact (proj1 (get_style_config_lookup "title" [("font_size", JInt 14)]
                    "font_family" Hnd)).
Defined.

(** ** Superscripts *)

Lemma concat_cons (x : string) (l : list string) :
  String.concat EmptyString (x :: l) = x ++ String.concat EmptyString l.
Proof.
  destruct l as [|y l]; simpl.
  - induction x as [|c x IH]; simpl; [reflexivity | f_equal; exact IH].
  - reflexivity.
Qed.

Lemma concat_app (l1 l2 : list string) :
  String.concat EmptyString (l1 ++ l2) =
  String.concat EmptyString l1 ++ String.concat EmptyString l2.
Proof.
  induction l1 as [|x l1 IH]; [reflexivity|].
  rewrite <- app_comm_cons, !concat_cons, IH, append_assoc. reflexivity.
Qed.

Lemma concat_chars (s : string) : String.concat EmptyString (chars s) = s.
Proof.
  induction s as [|c s IH]; [reflexivity|].
  cbn [chars]. destruct (starts_with_continuation s).
  - destruct (chars s) as [|chunk chunks] eqn:E.
    + destruct s as [|c' s']; [reflexivity|].
      rewrite <- IH. reflexivity.
    + rewrite concat_cons in *. rewrite <- IH. reflexivity.
  - rewrite concat_cons, IH. reflexivity.
Qed.

Lemma chars_not_empty (s : string) : Forall (fun c => c <> EmptyString) (chars s).
Proof.
  induction s as [|c s IH]; [constructor|].
  cbn [chars]. destruct (starts_with_continuation s).
  - destruct (chars s) as [|chunk chunks].
    + constructor; [discriminate | constructor].
    + inversion IH; subst. constructor; [discriminate | assumption].
  - constructor; [discriminate | exact IH].
Qed.

Lemma concat_not_empty (l : list string) :
  l <> [] -> Forall (fun c => c <> EmptyString) l ->
  String.concat EmptyString l <> EmptyString.
Proof.
  destruct l as [|x l]; [congruence|].
  intros _ H. inversion H; subst. rewrite concat_cons.
  destruct x; [congruence | discriminate].
Qed.

Lemma slice_middle (pre pend todo : list string) :
  slice (length pre) (length pre + length pend) (pre ++ pend ++ todo) =
  String.concat EmptyString pend.
Proof.
  unfold slice.
  rewrite skipn_app, skipn_all, Nat.sub_diag. cbn [skipn app].
  replace (length pre + length pend - length pre)%nat with (length pend) by lia.
  rewrite firstn_app, firstn_all, Nat.sub_diag. cbn [firstn].
  rewrite app_nil_r. reflexivity.
Qed.

Lemma assoc_in {A : Type} (k : string) (l : list (string * A)) (v : A) :
  assoc k l = Some v -> In (k, v) l.
Proof.
  induction l as [|[k' v'] l IH]; simpl; [discriminate|].
  destruct (String.eqb_spec k' k) as [->|Hne].
  - intros [= ->]. auto.
  - auto.
Qed.

Lemma assoc_none {A : Type} (k : string) (l : list (string * A)) :
  ~ In k (map fst l) -> assoc k l = None.
Proof.
  induction l as [|[k' v'] l IH]; simpl; [reflexivity|].
  intros H. destruct (String.eqb_spec k' k) as [->|Hne]; [tauto|].
  apply IH. tauto.
Qed.

Lemma lowered_plain (l : list string) :
  Forall (fun c => assoc c SUPERSCRIPT_MAP = None) l -> map lowered l = l.
Proof.
  induction 1 as [|c l Hc _ IH]; [reflexivity|].
  cbn [map]. unfold lowered at 1. rewrite Hc, IH. reflexivity.
Qed.

Lemma append_empty_r (s : string) : s ++ EmptyString = s.
Proof. induction s as [|c s IH]; simpl; [reflexivity | f_equal; exact IH]. Qed.

Section SuperscriptProperties.

Variable apply_run_style : dict -> result unit.
Variable style_config : dict.
Variable cs : list string.

Hypothesis styles_base : apply_run_style style_config = Ok tt.
Hypothesis styles_raised : apply_run_style (sup_config style_config) = Ok tt.
Hypothesis cs_not_empty : Forall (fun c => c <> EmptyString) cs.

Lemma add_run_ok (t : string) :
  add_run apply_run_style t style_config = Ok [(t, style_config)].
Proof. unfold add_run. rewrite styles_base. reflexivity. Qed.

Lemma add_run_raised_ok (t : string) :
  add_run apply_run_style t (sup_config style_config)
  = Ok [(t, sup_config style_config)].
Proof. unfold add_run. rewrite styles_raised. reflexivity. Qed.

Lemma pending_run (pre pend todo : list string) :
  cs = (pre ++ pend ++ todo)%list ->
  Forall (fun c => assoc c SUPERSCRIPT_MAP = None) pend ->
  exists before,
    (if (length pre <? length pre + length pend)%nat
     then add_run apply_run_style
            (slice (length pre) (length pre + length pend) cs) style_config
     else Ok []) = Ok before /\
    String.concat EmptyString (map fst before) = String.concat EmptyString pend /\
    Forall (plain_run style_config cs) before.
Proof.
  intros Hcs Hpend.
  destruct pend as [|p pend].
  - exists []. cbn [length]. rewrite Nat.add_0_r, Nat.ltb_irrefl.
    repeat split. constructor.
  - exists [(String.concat EmptyString (p :: pend), style_config)].
    replace (length pre <? length pre + length (p :: pend))%nat with true
      by (symmetry; apply Nat.ltb_lt; cbn [length]; lia).
    rewrite Hcs at 1. rewrite slice_middle, add_run_ok.
    split; [reflexivity|]. split; [reflexivity|].
    constructor; [|constructor].
    split; [reflexivity|]. exists (p :: pend).
    split; [discriminate|]. split; [reflexivity|].
    apply Forall_forall. intros c Hc. split.
    + rewrite Hcs. apply in_or_app. right. apply in_or_app. left. exact Hc.
    + revert c Hc. apply Forall_forall. exact Hpend.
Qed.

Lemma superscript_loop_runs (todo : list string) :
  forall pre pend,
    cs = (pre ++ pend ++ todo)%list ->
    Forall (fun c => assoc c SUPERSCRIPT_MAP = None) pend ->
    exists runs pre' pend',
      superscript_loop apply_run_style style_config cs
        (length pre + length pend) (length pre) todo
      = Ok (length pre', runs) /\
      cs = (pre' ++ pend')%list /\
      Forall (fun c => assoc c SUPERSCRIPT_MAP = None) pend' /\
      String.concat EmptyString (map fst runs) ++ String.concat EmptyString pend'
      = String.concat EmptyString pend ++ String.concat EmptyString (map lowered todo) /\
      Forall (fun r => plain_run style_config cs r \/ raised_run style_config cs r) runs.
Proof.
  induction todo as [|char todo IH]; intros pre pend Hcs Hpend.
  - exists [], pre, pend. cbn [superscript_loop map String.concat].
    rewrite app_nil_r in Hcs.
    split; [reflexivity|]. split; [exact Hcs|]. split; [exact Hpend|].
    split; [|constructor].
    cbn [append]. rewrite append_empty_r. reflexivity.
  - cbn [superscript_loop].
    destruct (assoc char SUPERSCRIPT_MAP) as [digit|] eqn:Echar.
    + destruct (pending_run pre pend (char :: todo) Hcs Hpend)
        as (before & -> & Hbefore & Hplain).
      cbn [bind]. rewrite add_run_raised_ok. cbn [bind].
      assert (Hcs' : cs = ((pre ++ pend ++ [char]) ++ [] ++ todo)%list).
      { rewrite Hcs. rewrite <- !app_assoc. reflexivity. }
      destruct (IH (pre ++ pend ++ [char])%list [] Hcs' (Forall_nil _))
        as (runs & pre' & pend' & Eloop & Hsplit & Hpend' & Htext & Hruns).
      replace (length (pre ++ pend ++ [char]) + length (@nil string))%nat
        with (S (length pre + length pend)) in Eloop
        by (rewrite !length_app; cbn [length]; lia).
      replace (length (pre ++ pend ++ [char]))
        with (S (length pre + length pend)) in Eloop
        by (rewrite !length_app; cbn [length]; lia).
      rewrite Eloop. cbn [bind fst snd].
      exists (before ++ [(digit, sup_config style_config)] ++ runs)%list, pre', pend'.
      split; [reflexivity|]. split; [exact Hsplit|]. split; [exact Hpend'|].
      split.
      * unfold run in *. rewrite !map_app, !concat_app, Hbefore.
        change (map fst [(digit, sup_config style_config)]) with [digit].
        change (map lowered (char :: todo)) with (lowered char :: map lowered todo).
        rewrite (concat_cons digit), (concat_cons (lowered char)).
        unfold lowered at 1. rewrite Echar.
        change (String.concat EmptyString []) with EmptyString in *.
        rewrite append_empty_r. cbn [append] in Htext.
        rewrite !append_assoc, Htext. reflexivity.
      * apply Forall_app. split.
        { revert Hplain. apply Forall_impl. intros r Hr. left. exact Hr. }
        constructor; [|exact Hruns].
        right. split; [reflexivity|]. exists char. split; [|exact Echar].
        rewrite Hcs. apply in_or_app. right. apply in_or_app. right. left.
        reflexivity.
    + assert (Hcs' : cs = (pre ++ (pend ++ [char]) ++ todo)%list).
      { rewrite Hcs. rewrite <- !app_assoc. reflexivity. }
      assert (Hpend2 : Forall (fun c => assoc c SUPERSCRIPT_MAP = None)
                         (pend ++ [char])).
      { apply Forall_app. split; [exact Hpend|]. constructor; [exact Echar|constructor]. }
      destruct (IH pre (pend ++ [char])%list Hcs' Hpend2)
        as (runs & pre' & pend' & Eloop & Hsplit & Hpend' & Htext & Hruns).
      replace (length pre + length (pend ++ [char]))%nat
        with (S (length pre + length pend)) in Eloop
        by (rewrite !length_app; cbn [length]; lia).
      exists runs, pre', pend'.
      split; [exact Eloop|]. split; [exact Hsplit|]. split; [exact Hpend'|].
      split; [|exact Hruns].
      rewrite Htext, concat_app.
      change (map lowered (char :: todo)) with (lowered char :: map lowered todo).
      rewrite (concat_cons (lowered char)), (concat_cons char).
      replace (lowered char) with char by (unfold lowered; rewrite Echar; reflexivity).
      change (String.concat EmptyString []) with EmptyString.
      rewrite append_empty_r, !append_assoc. reflexivity.
Qed.

End SuperscriptProperties.

Lemma superscript_loop_plain (apply_run_style : dict -> result unit)
    (style_config : dict) (cs todo : list string) (i current_pos : nat) :
  Forall (fun c => assoc c SUPERSCRIPT_MAP = None) todo ->
  superscript_loop apply_run_style style_config cs i current_pos todo
  = Ok (current_pos, []).
Proof.
  intros H. revert i. induction H as [|c todo Hc _ IH]; intros i; [reflexivity|].
  cbn [superscript_loop]. rewrite Hc. apply IH.
Qed.

Lemma no_superscript_chars (text : string) :
  has_superscript_chars text = false ->
  Forall (fun c => assoc c SUPERSCRIPT_MAP = None) (chars text).
Proof.
  intros H. apply Forall_forall. intros c Hc.
  destruct (assoc c SUPERSCRIPT_MAP) as [digit|] eqn:E; [|reflexivity].
  apply assoc_in in E.
  assert (Hin : In c (map fst SUPERSCRIPT_MAP)) by (apply (in_map fst) in E; exact E).
  assert (Ht : has_superscript_chars text = true).
  { unfold has_superscript_chars. apply existsb_exists. exists c.
    split; [exact Hin|]. unfold py_in_str. apply existsb_exists. exists c.
    split; [exact Hc | apply String.eqb_refl]. }
  congruence.
Qed.

Lemma superscript_digit_not_empty (c digit : string) :
  assoc c SUPERSCRIPT_MAP = Some digit -> digit <> EmptyString.
Proof.
  intros H. apply assoc_in in H. simpl in H.
  repeat (destruct H as [H | H]; [injection H as <- <-; discriminate|]).
  contradiction.
Qed.

Lemma slice_rest (pre pend : list string) :
  slice (length pre) (length (pre ++ pend)) (pre ++ pend) =
  String.concat EmptyString pend.
Proof.
  rewrite length_app.
  rewrite <- (app_nil_r pend) at 2. rewrite slice_middle. reflexivity.
Qed.

(** X16. When the base style and the raised style can be applied, the runs
    added for a text spell the text with every superscript replaced by its
    digit.  Each run is either in the base style and made of characters of
    the text that are not superscripts, or in the raised style and holds
    the digit of a superscript of the text; no run is empty. *)
Theorem add_text_with_superscript_runs (apply_run_style : dict -> result unit)
    (text : string) (style_config : dict) :
  apply_run_style style_config = Ok tt ->
  apply_run_style (sup_config style_config) = Ok tt ->
  exists runs,
    add_text_with_superscript apply_run_style text style_config = Ok runs /\
    String.concat EmptyString (map fst runs) =
    String.concat EmptyString (map lowered (chars text)) /\
    Forall (fun r => plain_run style_config (chars text) r \/
                     raised_run style_config (chars text) r) runs /\
    Forall (fun r => fst r <> EmptyString) runs.
Proof.
  intros Hbase Hraised.
  destruct (superscript_loop_runs apply_run_style style_config (chars text)
              Hbase Hraised (chars text) [] [] eq_refl (Forall_nil _))
    as (runs & pre' & pend' & Eloop & Hsplit & Hpend' & Htext & Hruns).
  cbn [length Nat.add] in Eloop.
  destruct (pending_run apply_run_style style_config (chars text) Hbase
              pre' pend' [] ltac:(rewrite app_nil_r; exact Hsplit) Hpend')
    as (remaining & Erem & Hremtext & Hremplain).
  assert (Hlen : length (chars text) = (length pre' + length pend')%nat)
    by (rewrite Hsplit at 1; apply length_app).
  assert (Hall : Forall (fun r => plain_run style_config (chars text) r \/
                                  raised_run style_config (chars text) r)
                   (runs ++ remaining)).
  { apply Forall_app. split; [exact Hruns|].
    revert Hremplain. apply Forall_impl. intros r Hr. left. exact Hr. }
  exists (runs ++ remaining)%list.
  split; [|split; [|split]].
  - unfold add_text_with_superscript. rewrite Eloop. cbn [bind fst snd].
    rewrite Hlen, Erem. reflexivity.
  - unfold run in *. rewrite map_app, concat_app, Hremtext, Htext. reflexivity.
  - exact Hall.
  - revert Hall. apply Forall_impl. intros r [[_ (l & Hl & -> & Hchars)] | [_ (c & _ & Hc)]].
    + apply concat_not_empty; [exact Hl|].
      revert Hchars. apply Forall_impl. intros c [Hin _].
      pose proof (chars_not_empty text) as Hne.
      rewrite Forall_forall in Hne. exact (Hne c Hin).
    + exact (superscript_digit_not_empty c (fst r) Hc).
Qed.

Lemma add_text_with_superscript_runs_witness :
  exists runs,
    add_text_with_superscript always_styles "m² and x³y" [("bold", JBool true)]
    = Ok runs /\
    String.concat EmptyString (map fst runs) = "m2 and x3y" /\
    Forall (fun r => fst r <> EmptyString) runs.
Proof.
  destruct (add_text_with_superscript_runs always_styles "m² and x³y"
              [("bold", JBool true)] eq_refl eq_refl)
    as (runs & E & Htext & _ & Hne).
  exists runs. split; [exact E|]. split; [exact Htext | exact Hne].
Defined.

(** X17. A text in which [has_superscript_chars] finds nothing is added as
    one run in the base style that holds the whole text, and an empty text
    adds no run. *)
Theorem add_text_without_superscript (apply_run_style : dict -> result unit)
    (text : string) (style_config : dict) :
  has_superscript_chars text = false ->
  add_text_with_superscript apply_run_style text style_config =
  match text with
  | EmptyString => Ok []
  | _ => add_run apply_run_style text style_config
  end.
Proof.
  intros H. apply no_superscript_chars in H.
  unfold add_text_with_superscript.
  rewrite (superscript_loop_plain _ _ _ _ _ _ H). cbn [bind fst snd].
  destruct text as [|c text]; [reflexivity|].
  assert (Hlen : (0 <? length (chars (String c text)))%nat = true).
  { apply Nat.ltb_lt. pose proof (concat_chars (String c text)) as E.
    destruct (chars (String c text)); [discriminate E | cbn [length]; lia]. }
  rewrite Hlen.
  replace (slice 0 (length (chars (String c text))) (chars (String c text)))
    with (String c text).
  - destruct (add_run apply_run_style (String c text) style_config); reflexivity.
  - symmetry. rewrite <- (concat_chars (String c text)) at 3.
    exact (slice_rest [] (chars (String c text))).
Qed.

Lemma add_text_without_superscript_witness :
  has_superscript_chars "Fund value £10" = false /\
  add_text_with_superscript always_styles "Fund value £10" []
  = Ok [("Fund value £10", [])].
Proof.
  split; [reflexivity|].
  exact (add_text_without_superscript always_styles "Fund value £10" [] eq_refl).
Defined.
